(** * Cross-source tabular reconciliation: the validation node

    A shallow embedding of [src/nodes/validation_node.py] (class
    [ValidationNode]) and the properties of its three parts: the source
    extractor (the spreadsheet branch of [__call__]), the canonical
    comparator ([hash_columns] and the two comparison strategies of
    [__call__]) and the verdict recorder ([log_validation_result]).

    Conventions of the embedding.
    - A Python [float] is an IEEE 754 binary64 number, here a [spec_float]
      of the standard library with [prec = 53] and [emax = 1024]; every
      arithmetic operation rounds to nearest, ties to even.  A Python [int]
      that takes part in float arithmetic is converted first, as Python
      does.
    - An integer of a numeric column is a 64-bit integer of numpy: its
      arithmetic wraps around.
    - A Python [str] is a [string]; the text the functions look at is taken
      to be ASCII (whitespace and letter case are the ASCII ones).
    - Exceptions are values of [exn]; a computation that may raise returns
      [result].
    - The log file is its content, a [string]; the clock and the file system
      are inputs. *)

From Stdlib Require Import ZArith List String Ascii Bool Lia.
From Stdlib Require Import Floats.SpecFloat.
From Stdlib Require Import Numbers.DecimalString.
Import ListNotations.

Local Open Scope string_scope.
Local Open Scope Z_scope.

(** ** Text: the [str] methods the node uses *)

Module Text.

(** [c.isspace()] on ASCII: tab, line feed, vertical tab, form feed,
    carriage return, the four separators 28 to 31, and the space. *)
Definition is_space (c : ascii) : bool :=
  let n := nat_of_ascii c in
  ((9 <=? n) && (n <=? 13) || (28 <=? n) && (n <=? 32))%nat.

Fixpoint lstrip (s : string) : string :=
  match s with
  | String c s' => if is_space c then lstrip s' else s
  | EmptyString => s
  end.

Fixpoint rstrip (s : string) : string :=
  match s with
  | String c s' =>
      match rstrip s' with
      | EmptyString => if is_space c then EmptyString else String c EmptyString
      | r => String c r
      end
  | EmptyString => s
  end.

(** [s.strip()] *)
Definition strip (s : string) : string := rstrip (lstrip s).

Definition lower_ascii (c : ascii) : ascii :=
  let n := nat_of_ascii c in
  if ((65 <=? n) && (n <=? 90))%nat then ascii_of_nat (n + 32) else c.

(** [s.lower()] *)
Fixpoint lower (s : string) : string :=
  match s with
  | String c s' => String (lower_ascii c) (lower s')
  | EmptyString => s
  end.

(** [sub in s] *)
Fixpoint contains (sub s : string) : bool :=
  String.prefix sub s ||
  match s with
  | String _ s' => contains sub s'
  | EmptyString => false
  end.

(** [sep.join(parts)] *)
Definition join (sep : string) (parts : list string) : string :=
  String.concat sep parts.

(** [os.path.basename(path)]: what follows the last slash. *)
Fixpoint basename (path : string) : string :=
  match path with
  | String c rest =>
      if contains "/" rest then basename rest
      else if Ascii.eqb c "/" then rest else path
  | EmptyString => path
  end.

End Text.

(** ** Binary64 arithmetic *)

Module F64.

Definition prec : Z := 53.
Definition emax : Z := 1024.

Definition float := spec_float.

Definition nan : float := S754_nan.
Definition zero : float := S754_zero false.
Definition neg_zero : float := S754_zero true.

Definition sub : float -> float -> float := SFsub prec emax.
Definition mul : float -> float -> float := SFmul prec emax.
Definition div : float -> float -> float := SFdiv prec emax.
Definition abs : float -> float := SFabs.
Definition eqb : float -> float -> bool := SFeqb.
Definition ltb : float -> float -> bool := SFltb.
Definition leb : float -> float -> bool := SFleb.

(** [float(n)] for an integer [n]: the nearest binary64 number. *)
Definition of_Z (n : Z) : float := binary_normalize prec emax n 0 false.

(** The binary64 number nearest to the fraction [p / q], [q > 0]: what a
    decimal literal denotes ([0.001] is [of_ratio 1 1000]) and what the
    true division [p / q] of two Python ints returns.  The division of the
    standard library rounds the exact quotient of the two mantissas, so it
    is applied to the integers themselves. *)
Definition of_ratio (p q : Z) : float :=
  match p, q with
  | Z0, _ => zero
  | Zpos a, Zpos b => div (S754_finite false a 0) (S754_finite false b 0)
  | Zneg a, Zpos b => div (S754_finite true a 0) (S754_finite false b 0)
  | _, _ => nan
  end.

Definition isnan (x : float) : bool :=
  match x with S754_nan => true | _ => false end.

(** [scaled6 m e] is the integer nearest to [m * 2^e * 10^6], ties to
    even: the digits that both [round(x, 6)] and the format [.6f] keep. *)
Definition scaled6 (m : positive) (e : Z) : Z :=
  let n := Zpos m * 1000000 in
  match e with
  | Zneg k =>
      let d := Z.pow 2 (Zpos k) in
      let q := n / d in
      let r := n mod d in
      match Z.compare (2 * r) d with
      | Lt => q
      | Gt => q + 1
      | Eq => if Z.even q then q else q + 1
      end
  | _ => n * Z.pow 2 e
  end.

(** [round(x, 6)]: the decimal with six fractional digits nearest to [x],
    converted back to the nearest float; the sign of [x] is kept, also on
    a zero result. *)
Definition round6 (x : float) : float :=
  match x with
  | S754_finite s m e =>
      match scaled6 m e with
      | Zpos k => div (S754_finite s k 0) (S754_finite false 1000000 0)
      | _ => S754_zero s
      end
  | _ => x
  end.

Definition string_of_N (n : Z) : string :=
  NilZero.string_of_uint (N.to_uint (Z.to_N n)).

Fixpoint zeros (n : nat) : string :=
  match n with
  | O => ""
  | S n' => String "0" (zeros n')
  end.

(** Six digits, padded with zeros on the left. *)
Definition frac6 (n : Z) : string :=
  let s := string_of_N n in
  zeros (6 - String.length s) ++ s.

(** The format [f"{x:.6f}"]. *)
Definition format_6f (x : float) : string :=
  match x with
  | S754_nan => "nan"
  | S754_infinity s => if s then "-inf" else "inf"
  | S754_zero s => if s then "-0.000000" else "0.000000"
  | S754_finite s m e =>
      let k := scaled6 m e in
      (if s then "-" else "") ++
      string_of_N (k / 1000000) ++ "." ++ frac6 (k mod 1000000)
  end.

(** *** [repr(x)]: the shortest decimal that reads back as [x]

    The value is [num / den].  [pow10_le] tells whether [10^p <= num/den];
    [log10_floor] is the decimal exponent of the leading digit. *)
Definition pow10_le (num den p : Z) : bool :=
  if p <? 0 then Z.pow 10 (- p) * num >=? den
  else num >=? Z.pow 10 p * den.

Fixpoint log10_up (fuel : nat) (num den p : Z) : Z :=
  match fuel with
  | O => p
  | S fuel' =>
      if pow10_le num den (p + 1) then log10_up fuel' num den (p + 1) else p
  end.

Definition log10_floor (num den : Z) : Z :=
  let b := Z.log2 num - Z.log2 den in
  log10_up 4 num den ((b - 1) * 1233 / 4096 - 1).

(** The float nearest to [d * 10^s]. *)
Definition of_decimal (d s : Z) : float :=
  if s <? 0 then of_ratio d (Z.pow 10 (- s)) else of_ratio (d * Z.pow 10 s) 1.

(** The digits [d] and the scale [s] of the [n]-digit decimal [d * 10^s]
    that reads back as [num / den], if there is one: of the two decimals
    around the value, the nearer one that reads back. *)
Definition shortest_at (x : float) (num den p : Z) (n : Z) : option (Z * Z) :=
  let s := p - n + 1 in
  let lo := if s <? 0 then (num * Z.pow 10 (- s)) / den
            else num / (den * Z.pow 10 s) in
  let hi := lo + 1 in
  let ok d := eqb (of_decimal d s) x in
  (* twice the distance to the midpoint of [lo] and [hi], as a sign *)
  let side :=
    if s <? 0 then Z.compare (2 * num * Z.pow 10 (- s)) ((2 * lo + 1) * den)
    else Z.compare (2 * num) ((2 * lo + 1) * den * Z.pow 10 s) in
  let prefer_lo :=
    match side with
    | Lt => true
    | Gt => false
    | Eq => Z.even lo
    end in
  match ok lo, ok hi with
  | true, true => Some (if prefer_lo then lo else hi, s)
  | true, false => Some (lo, s)
  | false, true => Some (hi, s)
  | false, false => None
  end.

Fixpoint shortest (fuel : nat) (x : float) (num den p n : Z) : Z * Z :=
  match fuel with
  | O => (0, 0)
  | S fuel' =>
      match shortest_at x num den p n with
      | Some ds => ds
      | None => shortest fuel' x num den p (n + 1)
      end
  end.

(** Trailing zeros of the digits move into the scale. *)
Fixpoint trim (fuel : nat) (d s : Z) : Z * Z :=
  match fuel with
  | O => (d, s)
  | S fuel' => if (d mod 10 =? 0) && (0 <? d) then trim fuel' (d / 10) (s + 1)
               else (d, s)
  end.

Definition repr_finite (m : positive) (e : Z) : string :=
  let num := match e with Zneg _ => Zpos m | _ => Zpos m * Z.pow 2 e end in
  let den := match e with Zneg k => Z.pow 2 (Zpos k) | _ => 1 end in
  let p := log10_floor num den in
  let '(d0, s0) := shortest 17 (S754_finite false m e) num den p 1 in
  let '(d, s) := trim 20 d0 s0 in
  let digits := string_of_N d in
  let nd := Z.of_nat (String.length digits) in
  (* the decimal point is after [decpt] digits *)
  let decpt := nd + s in
  if (decpt <=? -4) || (16 <? decpt) then
    let ex := decpt - 1 in
    let exs := string_of_N (Z.abs ex) in
    String.substring 0 1 digits ++
    (if 1 <? nd then "." ++ String.substring 1 (String.length digits - 1) digits
     else "") ++
    "e" ++ (if ex <? 0 then "-" else "+") ++
    zeros (2 - String.length exs) ++ exs
  else if decpt <=? 0 then
    "0." ++ zeros (Z.to_nat (- decpt)) ++ digits
  else if nd <=? decpt then
    digits ++ zeros (Z.to_nat (decpt - nd)) ++ ".0"
  else
    String.substring 0 (Z.to_nat decpt) digits ++ "." ++
    String.substring (Z.to_nat decpt) (String.length digits - Z.to_nat decpt) digits.

Definition repr (x : float) : string :=
  match x with
  | S754_nan => "nan"
  | S754_infinity s => if s then "-inf" else "inf"
  | S754_zero s => if s then "-0.0" else "0.0"
  | S754_finite s m e => (if s then "-" else "") ++ repr_finite m e
  end.

(** *** [float(s)] for a string [s]

    Optional sign, then [inf], [infinity] or [nan] in any letter case, or
    a decimal number with an optional fraction and exponent; digits may be
    grouped with single underscores; white space around is ignored.
    [None] stands for the [ValueError]. *)
Definition is_digit (c : ascii) : bool :=
  let n := nat_of_ascii c in ((48 <=? n) && (n <=? 57))%nat.

Definition digit_val (c : ascii) : Z := Z.of_nat (nat_of_ascii c) - 48.

(** The digits that follow one digit: [(_? digit)*]. *)
Fixpoint more_digits (s : string) (acc : Z) (count : Z) : Z * Z * string :=
  match s with
  | String c s' =>
      if is_digit c then more_digits s' (10 * acc + digit_val c) (count + 1)
      else if Ascii.eqb c "_" then
        match s' with
        | String c' s'' =>
            if is_digit c'
            then more_digits s'' (10 * acc + digit_val c') (count + 1)
            else (acc, count, s)
        | EmptyString => (acc, count, s)
        end
      else (acc, count, s)
  | EmptyString => (acc, count, s)
  end.

(** A digit part continuing the number [acc]: its value, how many digits
    were read, and what follows; [None] when there is no digit. *)
Definition digit_part (s : string) (acc : Z) : option (Z * Z * string) :=
  match s with
  | String c s' =>
      if is_digit c then Some (more_digits s' (10 * acc + digit_val c) 1)
      else None
  | EmptyString => None
  end.

Definition exponent_part (s : string) : option Z :=
  match s with
  | EmptyString => Some 0
  | String c s' =>
      if Ascii.eqb c "e" || Ascii.eqb c "E" then
        let '(neg, s1) :=
          match s' with
          | String "-" r => (true, r)
          | String "+" r => (false, r)
          | _ => (false, s')
          end in
        match digit_part s1 0 with
        | Some (v, _, EmptyString) => Some (if neg then - v else v)
        | _ => None
        end
      else None
  end.

Definition unsigned_of_string (s : string) : option float :=
  let l := Text.lower s in
  if (l =? "inf")%string || (l =? "infinity")%string then Some (S754_infinity false)
  else if (l =? "nan")%string then Some S754_nan
  else
    let '(ipart, s1) :=
      match digit_part s 0 with
      | Some (v, _, r) => (Some v, r)
      | None => (None, s)
      end in
    let mant0 := match ipart with Some v => v | None => 0 end in
    let frac :=
      match s1 with
      | String "." r =>
          match digit_part r mant0 with
          | Some (v, n, r') => Some (v, n, r')
          | None => match ipart with
                    | Some _ => Some (mant0, 0, r)
                    | None => None
                    end
          end
      | _ => match ipart with
             | Some _ => Some (mant0, 0, s1)
             | None => None
             end
      end in
    match frac with
    | Some (mant, nfrac, s2) =>
        match exponent_part s2 with
        | Some ex => Some (of_decimal mant (ex - nfrac))
        | None => None
        end
    | None => None
    end.

Definition of_string (s : string) : option float :=
  match Text.strip s with
  | String "-" r => option_map (SFopp) (unsigned_of_string r)
  | String "+" r => unsigned_of_string r
  | r => unsigned_of_string r
  end.

End F64.

(** ** SHA-256

    [hashlib.sha256(data).hexdigest()] over the bytes of [data] (FIPS 180-4):
    32-bit words are integers reduced modulo [2^32]. *)

Module SHA256.

Definition w32 (x : Z) : Z := x mod 4294967296.
Definition add32 (x y : Z) : Z := w32 (x + y).
Definition rotr (n x : Z) : Z :=
  Z.lor (Z.shiftr x n) (w32 (Z.shiftl x (32 - n))).
Definition not32 (x : Z) : Z := Z.lxor x 4294967295.

Definition ch (x y z : Z) : Z := Z.lxor (Z.land x y) (Z.land (not32 x) z).
Definition maj (x y z : Z) : Z :=
  Z.lxor (Z.land x y) (Z.lxor (Z.land x z) (Z.land y z)).
Definition bsig0 (x : Z) : Z :=
  Z.lxor (rotr 2 x) (Z.lxor (rotr 13 x) (rotr 22 x)).
Definition bsig1 (x : Z) : Z :=
  Z.lxor (rotr 6 x) (Z.lxor (rotr 11 x) (rotr 25 x)).
Definition ssig0 (x : Z) : Z :=
  Z.lxor (rotr 7 x) (Z.lxor (rotr 18 x) (Z.shiftr x 3)).
Definition ssig1 (x : Z) : Z :=
  Z.lxor (rotr 17 x) (Z.lxor (rotr 19 x) (Z.shiftr x 10)).

Definition K : list Z :=
  [ 1116352408; 1899447441; 3049323471; 3921009573;
    961987163; 1508970993; 2453635748; 2870763221;
    3624381080; 310598401; 607225278; 1426881987;
    1925078388; 2162078206; 2614888103; 3248222580;
    3835390401; 4022224774; 264347078; 604807628;
    770255983; 1249150122; 1555081692; 1996064986;
    2554220882; 2821834349; 2952996808; 3210313671;
    3336571891; 3584528711; 113926993; 338241895;
    666307205; 773529912; 1294757372; 1396182291;
    1695183700; 1986661051; 2177026350; 2456956037;
    2730485921; 2820302411; 3259730800; 3345764771;
    3516065817; 3600352804; 4094571909; 275423344;
    430227734; 506948616; 659060556; 883997877;
    958139571; 1322822218; 1537002063; 1747873779;
    1955562222; 2024104815; 2227730452; 2361852424;
    2428436474; 2756734187; 3204031479; 3329325298 ].

Definition H0 : list Z :=
  [ 1779033703; 3144134277; 1013904242; 2773480762;
    1359893119; 2600822924; 528734635; 1541459225 ].

(** Big-endian bytes of [x], [n] of them. *)
Fixpoint be_bytes (n : nat) (x : Z) : list Z :=
  match n with
  | O => []
  | S n' => be_bytes n' (Z.shiftr x 8) ++ [x mod 256]
  end.

(** The message, a one bit, zero bytes up to 56 modulo 64, and the bit
    length on eight bytes. *)
Definition pad (msg : list Z) : list Z :=
  let len := Z.of_nat (List.length msg) in
  let fill := Z.to_nat ((55 - len) mod 64) in
  msg ++ [128] ++ repeat 0 fill ++ be_bytes 8 (8 * len).

(** Big-endian 32-bit words of a byte sequence. *)
Fixpoint words (bs : list Z) : list Z :=
  match bs with
  | b0 :: b1 :: b2 :: b3 :: rest =>
      (((b0 * 256 + b1) * 256 + b2) * 256 + b3) :: words rest
  | _ => []
  end.

(** One round on the working variables [a .. h] with the sixteen most
    recent schedule words in [win]; the next schedule word is appended. *)
Definition round (st : list Z * list Z) (k : Z) : list Z * list Z :=
  match st with
  | ([a; b; c; d; e; f; g; h],
     [w0; w1; w2; w3; w4; w5; w6; w7; w8; w9; w10; w11; w12; w13; w14; w15]) =>
      let t1 := w32 (h + bsig1 e + ch e f g + k + w0) in
      let t2 := w32 (bsig0 a + maj a b c) in
      let w16 := w32 (ssig1 w14 + w9 + ssig0 w1 + w0) in
      ([add32 t1 t2; a; b; c; add32 d t1; e; f; g],
       [w1; w2; w3; w4; w5; w6; w7; w8; w9; w10; w11; w12; w13; w14; w15; w16])
  | _ => st
  end.

Fixpoint add_all (xs ys : list Z) : list Z :=
  match xs, ys with
  | x :: xs', y :: ys' => add32 x y :: add_all xs' ys'
  | _, _ => []
  end.

Definition compress (h : list Z) (block : list Z) : list Z :=
  add_all h (fst (fold_left round K (h, block))).

(** The hash value after the sixteen-word blocks of [ws]; [n] bounds the
    number of blocks. *)
Fixpoint blocks (n : nat) (h : list Z) (ws : list Z) : list Z :=
  match n, ws with
  | S n', _ :: _ => blocks n' (compress h (firstn 16 ws)) (skipn 16 ws)
  | _, _ => h
  end.

Definition bytes_of_string (s : string) : list Z :=
  map (fun c => Z.of_N (N_of_ascii c)) (list_ascii_of_string s).

Definition hex_digit (d : Z) : ascii :=
  ascii_of_N (Z.to_N (if d <? 10 then 48 + d else 87 + d)).

Fixpoint hex (n : nat) (x : Z) : string :=
  match n with
  | O => ""
  | S n' => hex n' (Z.shiftr x 4) ++ String (hex_digit (x mod 16)) ""
  end.

Definition hexdigest (s : string) : string :=
  let ws := words (pad (bytes_of_string s)) in
  String.concat "" (map (hex 8) (blocks (List.length ws) H0 ws)).

End SHA256.

(** ** Exceptions, cells, sheets and frames *)

(** What a [KeyError] carries: the key that a row or the state does not
    have, or, for [df[names]], the message that pandas builds from the
    names asked for and those of them that are no column (it lists the
    missing ones, or says that none of the names asked for is a column). *)
Inductive key : Type :=
| Name (name : string)
| NotInIndex (requested missing : list string).

Coercion Name : string >-> key.

Inductive exn : Type :=
| KeyError (k : key)
| IndexError
| ValueError
| TypeError
| AttributeError
| OtherError (description : string).

Inductive result (A : Type) : Type :=
| Ok (a : A)
| Raise (e : exn).

Arguments Ok {A} a.
Arguments Raise {A} e.

Definition bind {A B : Type} (r : result A) (k : A -> result B) : result B :=
  match r with
  | Ok a => k a
  | Raise e => Raise e
  end.

Notation "x <- r ;; k" := (bind r (fun x => k))
  (at level 61, r at next level, right associativity).
Notation "' p <- r ;; k" := (bind r (fun x => let p := x in k))
  (at level 61, p pattern, r at next level, right associativity).

Fixpoint mapM {A B : Type} (f : A -> result B) (l : list A) : result (list B) :=
  match l with
  | [] => Ok []
  | a :: l' => b <- f a ;; bs <- mapM f l' ;; Ok (b :: bs)
  end.

(** A cell of a sheet or of a data frame: a float ([NaN] is the empty
    cell), a text, or an integer of a column of integers (a 64-bit integer
    of numpy, between [-2^63] and [2^63 - 1]). *)
Inductive cell : Type :=
| Num (x : F64.float)
| Str (s : string)
| Int (n : Z).

(** [pd.notna(value)], [pd.isna(value)] *)
Definition notna (value : cell) : bool :=
  match value with
  | Num x => negb (F64.isnan x)
  | Str _ => true
  | Int _ => true
  end.

Definition isna (value : cell) : bool := negb (notna value).

Definition string_of_Z (n : Z) : string :=
  if n <? 0 then "-" ++ F64.string_of_N (- n) else F64.string_of_N n.

(** [str(value)] *)
Definition str (value : cell) : string :=
  match value with
  | Num x => F64.repr x
  | Str s => s
  | Int n => string_of_Z n
  end.

(** [float(value)] *)
Definition to_float (value : cell) : result F64.float :=
  match value with
  | Num x => Ok x
  | Str s =>
      match F64.of_string s with
      | Some x => Ok x
      | None => Raise ValueError
      end
  | Int n => Ok (F64.of_Z n)
  end.

(** A sheet read by [pd.read_excel]: the rows of the data frame, top to
    bottom (the first line of the sheet, which becomes the column names of
    the frame, is not one of them).  The extractor reads a cell through
    [pd.notna], [str] and [float] only, for which an integer and the float
    of the same value differ by the text alone ("3" and "3.0"), never
    empty and never a label of a total. *)
Definition sheet : Type := list (list cell).

(** A worksheet as the file holds it: its lines, top to bottom.
    [pd.read_excel], with its default header, takes the first line as the
    names of the columns; the lines below it are the rows of the frame. *)
Definition worksheet : Type := list (list cell).

Definition rows_of_worksheet (lines : worksheet) : sheet := tl lines.

(** [row.iloc[i]] *)
Definition iloc {A : Type} (row : list A) (i : nat) : result A :=
  match nth_error row i with
  | Some c => Ok c
  | None => Raise IndexError
  end.

(** A data frame with named columns. *)
Record frame : Type := DataFrame { columns : list string; rows : list (list cell) }.

Fixpoint index_of (name : string) (cols : list string) : option nat :=
  match cols with
  | [] => None
  | c :: cols' =>
      if String.eqb c name then Some O else option_map S (index_of name cols')
  end.

(** [row[name]] for a row of [df] *)
Definition getitem (df : frame) (row : list cell) (name : string) : result cell :=
  match index_of name (columns df) with
  | Some i => iloc row i
  | None => Raise (KeyError name)
  end.

(** The names, each once, in the order of their first occurrence. *)
Fixpoint unique (names : list string) : list string :=
  match names with
  | [] => []
  | name :: names' =>
      name :: filter (fun other => negb (String.eqb other name)) (unique names')
  end.

(** The names asked for that are no column of [df]. *)
Definition missing_columns (df : frame) (names : list string) : list string :=
  unique (filter (fun name => match index_of name (columns df) with
                              | Some _ => false
                              | None => true
                              end) names).

(** [df[names]]: the rows of [df] restricted to the columns [names].  The
    names are looked up before any row is read. *)
Definition select (df : frame) (names : list string) : result (list (list cell)) :=
  match missing_columns df names with
  | [] => mapM (fun row => mapM (getitem df row) names) (rows df)
  | missing => Raise (KeyError (NotInIndex names missing))
  end.

(** ** The canonical comparator: [hash_columns] *)

(** The cells reach [format_value] as Python numbers: an integer is an
    [int], which the format [.6f] converts to the nearest float. *)
Definition format_value (x : cell) : string :=
  match x with
  | Num x =>
      (* Normalize all zero values to 0.0 *)
      let x := if F64.eqb x F64.zero then F64.zero else x in
      F64.format_6f x
  | Str s => s
  | Int n =>
      let x := if n =? 0 then F64.zero else F64.of_Z n in
      F64.format_6f x
  end.

(** The canonical string: the fields of a row joined by a comma, the rows
    by a bar. *)
Definition concat_str_of (rs : list (list cell)) : string :=
  Text.join "|" (map (fun row => Text.join "," (map format_value row)) rs).

(** On a frame without a row, [apply] returns no Series of strings and the
    accessor [.str] raises [AttributeError]. *)
Definition hash_columns (df : frame) (names : list string) : result (string * string) :=
  rs <- select df names ;;
  match rs with
  | [] => Raise AttributeError
  | _ :: _ =>
      let concat_str := concat_str_of rs in
      Ok (SHA256.hexdigest concat_str, concat_str)
  end.

(** ** The verdict recorder: [log_validation_result] *)

Record datetime : Type :=
  { year : nat; month : nat; day : nat; hour : nat; minute : nat; second : nat }.

Definition digits_of_nat (n : nat) : string := NilZero.string_of_uint (Nat.to_uint n).

Definition pad (width : nat) (n : nat) : string :=
  let s := digits_of_nat n in
  F64.zeros (width - String.length s) ++ s.

(** [now.strftime("%Y-%m-%d %H:%M:%S")] *)
Definition strftime (now : datetime) : string :=
  pad 4 (year now) ++ "-" ++ pad 2 (month now) ++ "-" ++ pad 2 (day now) ++ " " ++
  pad 2 (hour now) ++ ":" ++ pad 2 (minute now) ++ ":" ++ pad 2 (second now).

Definition newline : string := String (ascii_of_nat 10) EmptyString.

(** The truth value of [match], which is [True], [False] or [None]. *)
Definition truthy (match_ : option bool) : bool :=
  match match_ with
  | Some true => true
  | _ => false
  end.

Definition status_of (match_ : option bool) : string :=
  if truthy match_ then "correct" else "wrong".

(** The line that one call writes, without its line feed. *)
Definition log_line (now : datetime) (file_name : string) (match_ : option bool) : string :=
  "[" ++ strftime now ++ "] " ++ file_name ++ " | " ++ status_of match_.

(** The file is opened in append mode and one line is written: [log] is the
    content before the call, the result the content after it. *)
Definition log_validation_result
    (now : datetime) (log : string) (file_name : string) (match_ : option bool) : string :=
  log ++ log_line now file_name match_ ++ newline.

(** ** The source extractor: the spreadsheet branch of [__call__] *)

Definition is_None {A : Type} (o : option A) : bool :=
  match o with
  | None => true
  | Some _ => false
  end.

(** The header token of a cell: [str(value).strip().lower()]. *)
Definition value_str (value : cell) : string := Text.lower (Text.strip (str value)).

(** The inner loop of the header search over the cells of one row, from
    column [col_idx] on. *)
Fixpoint scan_row (row : list cell) (col_idx : nat)
    (liability_col asset_col : option nat) : option nat * option nat :=
  match row with
  | [] => (liability_col, asset_col)
  | value :: row' =>
      let '(l, a) :=
        if notna value then
          if is_None liability_col && (value_str value =? "liability")%string
          then (Some col_idx, asset_col)
          else if is_None asset_col && (value_str value =? "asset")%string
          then (liability_col, Some col_idx)
          else (liability_col, asset_col)
        else (liability_col, asset_col) in
      scan_row row' (S col_idx) l a
  end.

(** The outer loop: row after row, until both columns are known. *)
Fixpoint find_columns (df : sheet) (liability_col asset_col : option nat)
    : option nat * option nat :=
  match df with
  | [] => (liability_col, asset_col)
  | row :: df' =>
      match scan_row row 0 liability_col asset_col with
      | (Some l, Some a) => (Some l, Some a)
      | (l, a) => find_columns df' l a
      end
  end.

(** Whether the two cells of a row hold numbers: [Ok false] is the
    [continue] of the handler for [ValueError] and [TypeError]. *)
Definition both_numeric (c1 c2 : cell) : result bool :=
  match (_ <- to_float c1 ;; _ <- to_float c2 ;; Ok true) with
  | Raise ValueError | Raise TypeError => Ok false
  | r => r
  end.

(** The first row, counted from [idx], both of whose cells hold a number. *)
Fixpoint find_data_start (df : sheet) (idx : nat) (liability_col asset_col : nat)
    : result (option nat) :=
  match df with
  | [] => Ok None
  | row :: df' =>
      c1 <- iloc row liability_col ;;
      found <- (if notna c1 then
                  c2 <- iloc row asset_col ;;
                  if notna c2 then both_numeric c1 c2 else Ok false
                else Ok false) ;;
      if (found : bool) then Ok (Some idx)
      else find_data_start df' (S idx) liability_col asset_col
  end.

(** The row label: the first cell that is not empty, stripped. *)
Fixpoint row_label (row : list cell) : string :=
  match row with
  | [] => ""
  | c :: row' =>
      if notna c && negb (Text.strip (str c) =? "")%string
      then Text.strip (str c)
      else row_label row'
  end.

(** [float(c) if pd.notna(c) else 0] *)
Definition value_or_zero (c : cell) : result F64.float :=
  if notna c then to_float c else Ok F64.zero.

(** The body of the loop over the rows of a sheet: [Ok None] is a
    [continue], [Ok (Some r)] appends [r] to [excel_data]. *)
Definition extract_row (liability_col asset_col : nat) (row : list cell)
    : result (option (F64.float * F64.float)) :=
  c1 <- iloc row liability_col ;;
  blank <- (if isna c1 then c2 <- iloc row asset_col ;; Ok (isna c2) else Ok false) ;;
  if (blank : bool) then Ok None
  else
    let row_label := row_label row in
    if Text.contains "Total" row_label && negb (Text.contains "HY Total" row_label)
    then Ok None
    else
      match
        (c1 <- iloc row liability_col ;;
         liability_val <- value_or_zero c1 ;;
         c2 <- iloc row asset_col ;;
         asset_val <- value_or_zero c2 ;;
         let liability_val := F64.round6 liability_val in
         let asset_val := F64.round6 asset_val in
         if F64.eqb liability_val F64.zero && F64.eqb asset_val F64.zero
            && (row_label =? "")%string
         then Ok None
         else Ok (Some (liability_val, asset_val)))
      with
      | Raise ValueError | Raise TypeError => Ok None
      | r => r
      end.

Fixpoint extract_rows (liability_col asset_col : nat) (df : sheet)
    : result (list (F64.float * F64.float)) :=
  match df with
  | [] => Ok []
  | row :: df' =>
      r <- extract_row liability_col asset_col row ;;
      rest <- extract_rows liability_col asset_col df' ;;
      Ok (match r with Some v => v :: rest | None => rest end)
  end.

(** The rows of one sheet from [data_start_row] on:
    [for idx in range(data_start_row, len(df))]. *)
Definition extract_sheet (liability_col asset_col data_start_row : nat) (df : sheet)
    : result (list (F64.float * F64.float)) :=
  extract_rows liability_col asset_col (skipn data_start_row df).

(** [pd.DataFrame(excel_data, columns=["Liability", "Asset"])] *)
Definition excel_frame (excel_data : list (F64.float * F64.float)) : frame :=
  DataFrame ["Liability"; "Asset"]
            (map (fun r => [Num (fst r); Num (snd r)]) excel_data).

(** What the extraction of a workbook gives: the explicit failures return
    their message. *)
Definition extract_excel (df1_wb df1_dbib : sheet)
    : result (string + list (F64.float * F64.float)) :=
  match find_columns df1_wb None None with
  | (Some liability_col, Some asset_col) =>
      start <- find_data_start df1_wb 0 liability_col asset_col ;;
      match start with
      | None => Ok (inl "Could not find data rows")
      | Some data_start_row =>
          wb <- extract_sheet liability_col asset_col data_start_row df1_wb ;;
          dbib <- extract_sheet liability_col asset_col data_start_row df1_dbib ;;
          Ok (inr (wb ++ dbib)%list)
      end
  | _ => Ok (inl "Could not find Liability and Asset columns")
  end.

(** ** The two comparison strategies *)

(** The entries of [state["validation"]] after a comparison; the elapsed
    time, a reading of the clock, is left out. *)
Record comparison : Type :=
  Comparison { match_ : option bool;
               hash1 : option string; hash2 : option string;
               concat1 : option string; concat2 : option string }.

(** Exact mode: the digests of the two numeric columns of each side. *)
Definition exact_compare (df1 df2 : frame) : result comparison :=
  h1 <- hash_columns df1 ["Liability"; "Asset"] ;;
  h2 <- hash_columns df2 ["RIDER_VALUE"; "ASSET_VALUE"] ;;
  Ok (Comparison (Some (fst h1 =? fst h2)%string)
                 (Some (fst h1)) (Some (fst h2)) (Some (snd h1)) (Some (snd h2))).

Definition tolerance : F64.float := F64.of_ratio 1 1000.

(** A 64-bit integer of numpy: the result of an operation is taken modulo
    [2^64] into [-2^63 .. 2^63 - 1]. *)
Definition wrap64 (n : Z) : Z := (n + 2 ^ 63) mod 2 ^ 64 - 2 ^ 63.

(** [abs(a - b) < 0.001].  Two floats are subtracted in binary64; two
    integers are subtracted, and the absolute value is taken, in 64 bits,
    and the result is converted for the comparison; an integer against a
    float is converted first; the difference of a text raises
    [TypeError]. *)
Definition within_tolerance (a b : cell) : result bool :=
  match a, b with
  | Num x, Num y => Ok (F64.ltb (F64.abs (F64.sub x y)) tolerance)
  | Int m, Int n =>
      Ok (F64.ltb (F64.of_Z (wrap64 (Z.abs (wrap64 (m - n))))) tolerance)
  | Int m, Num y => Ok (F64.ltb (F64.abs (F64.sub (F64.of_Z m) y)) tolerance)
  | Num x, Int n => Ok (F64.ltb (F64.abs (F64.sub x (F64.of_Z n))) tolerance)
  | _, _ => Raise TypeError
  end.

(** The dtype of a column is that of its cells: [int64] when all are
    integers, [float64] when all are floats, [object] otherwise. *)
Inductive dtype : Type := int64 | float64 | object.

Definition is_int (c : cell) : bool :=
  match c with Int _ => true | _ => false end.

Definition is_float (c : cell) : bool :=
  match c with Num _ => true | _ => false end.

Definition column (df : frame) (j : nat) : list cell :=
  flat_map (fun row => match nth_error row j with
                       | Some c => [c]
                       | None => []
                       end) (rows df).

Definition column_dtype (cells : list cell) : dtype :=
  if forallb is_int cells then int64
  else if forallb is_float cells then float64
  else object.

Definition common_dtype (d d' : dtype) : dtype :=
  match d, d' with
  | object, _ | _, object => object
  | float64, _ | _, float64 => float64
  | int64, int64 => int64
  end.

(** The dtype of a row [df.iloc[i]]: the common dtype of the columns. *)
Definition row_dtype (df : frame) : dtype :=
  fold_right common_dtype int64
             (map (fun j => column_dtype (column df j))
                  (seq 0 (List.length (columns df)))).

Definition astype_float (c : cell) : cell :=
  match c with
  | Int n => Num (F64.of_Z n)
  | _ => c
  end.

(** [df.iloc[i]]: row [i] as a Series of the common dtype.  In a frame of
    integer and float columns the integers of the row become floats; next
    to a column of dtype [object] every cell keeps its own type. *)
Definition iloc_row (df : frame) (i : nat) : result (list cell) :=
  row <- iloc (rows df) i ;;
  Ok match row_dtype df with
     | float64 => map astype_float row
     | _ => row
     end.

(** The body of the [try] for row [i]. *)
Definition compare_row (df1 df2 : frame) (i : nat) : result bool :=
  r1 <- iloc_row df1 i ;;
  di_liability <- getitem df1 r1 "Liability" ;;
  di_asset <- getitem df1 r1 "Asset" ;;
  r2 <- iloc_row df2 i ;;
  llm_rider <- getitem df2 r2 "RIDER_VALUE" ;;
  llm_asset <- getitem df2 r2 "ASSET_VALUE" ;;
  liability_match <- within_tolerance di_liability llm_rider ;;
  asset_match <- within_tolerance di_asset llm_asset ;;
  Ok (liability_match && asset_match).

(** One turn of the loop on the counters [(matching_rows,
    total_comparisons)]; a row that raises is passed over. *)
Definition fuzzy_step (df1 df2 : frame) (counters : nat * nat) (i : nat) : nat * nat :=
  let '(matching_rows, total_comparisons) := counters in
  match compare_row df1 df2 i with
  | Ok true => (S matching_rows, S total_comparisons)
  | Ok false => (matching_rows, S total_comparisons)
  | Raise _ => (matching_rows, total_comparisons)
  end.

(** [(matching_rows / total_comparisons) * 100] *)
Definition match_percentage (matching_rows total_comparisons : nat) : F64.float :=
  F64.mul (F64.of_ratio (Z.of_nat matching_rows) (Z.of_nat total_comparisons))
          (F64.of_Z 100).

(** [match_percentage >= 80] *)
Definition sufficient (matching_rows total_comparisons : nat) : bool :=
  F64.leb (F64.of_Z 80) (match_percentage matching_rows total_comparisons).

Definition abs_diff (a b : nat) : nat := (Nat.max a b - Nat.min a b)%nat.

(** Fuzzy mode, with its two ways back to exact mode. *)
Definition fuzzy_compare (df1 df2 : frame) : result comparison :=
  let row_diff := abs_diff (List.length (rows df1)) (List.length (rows df2)) in
  if (row_diff <=? 2)%nat then
    let min_rows := Nat.min (List.length (rows df1)) (List.length (rows df2)) in
    let '(matching_rows, total_comparisons) :=
      fold_left (fuzzy_step df1 df2) (seq 0 min_rows) (O, O) in
    if (0 <? total_comparisons)%nat then
      Ok (Comparison (Some (sufficient matching_rows total_comparisons))
                     None None None None)
    else exact_compare df1 df2
  else exact_compare df1 df2.

(** ** The node: [__call__] *)

(** What [state["validation"]] holds on return: only the error, or the
    entries of a comparison. *)
Inductive failure : Type :=
| Message (error : string)
| Exception (e : exn).

Inductive validation : Type :=
| ValidationError (error : failure)
| ValidationResult (c : comparison).

(** The entries of [state] that the node reads, and the one it writes.
    [excel_outputs] is [state["excel_outputs"]["combined_output"]]: the
    outer [None] is a missing [excel_outputs], the inner a missing
    [combined_output]. *)
Record state : Type :=
  State { file_type : option string;
          file_path : option string;
          excel_outputs : option (option string);
          docint_df : option frame;
          table_output : option string;
          state_validation : option validation }.

Definition set_validation (st : state) (v : validation) : state :=
  State (file_type st) (file_path st) (excel_outputs st)
        (docint_df st) (table_output st) (Some v).

(** The file system: what [pd.read_excel(path, sheet_name=...)] and
    [pd.read_csv(path)] return or raise. *)
Record files : Type :=
  Files { read_excel : string -> string -> result sheet;
          read_csv : string -> result frame }.

Definition get_or {A : Type} (o : option A) (default : A) : A :=
  match o with
  | Some a => a
  | None => default
  end.

Definition excel_validation (fs : files) (st : state) : result (string + comparison) :=
  excel_path <- match file_path st with
                | Some p => Ok p
                | None => Raise (KeyError "file_path")
                end ;;
  llm_output_path <- match excel_outputs st with
                     | Some (Some p) => Ok p
                     | Some None => Raise (KeyError "combined_output")
                     | None => Raise (KeyError "excel_outputs")
                     end ;;
  df1_wb <- read_excel fs excel_path "WB" ;;
  df1_dbib <- read_excel fs excel_path "DBIB" ;;
  extracted <- extract_excel df1_wb df1_dbib ;;
  match extracted with
  | inl error => Ok (inl error)
  | inr excel_data =>
      let df1 := excel_frame excel_data in
      df2 <- read_csv fs llm_output_path ;;
      c <- exact_compare df1 df2 ;;
      Ok (inr c)
  end.

Definition msg_validation (fs : files) (st : state) : result (string + comparison) :=
  match docint_df st, table_output st with
  | Some df1, Some (String _ _ as table_path) =>
      df2 <- read_csv fs table_path ;;
      c <- fuzzy_compare df1 df2 ;;
      Ok (inr c)
  | _, _ => Ok (inl "Missing Document Intelligence data or table output")
  end.

(** The body of the [try]. *)
Definition try_body (fs : files) (st : state) : result (string + comparison) :=
  let file_type := get_or (file_type st) "unknown" in
  if (file_type =? "xlsx")%string || (file_type =? "xls")%string then
    excel_validation fs st
  else if (file_type =? "msg")%string then msg_validation fs st
  else Ok (inr (Comparison None None None None None)).

(** What one attempt leaves in [state["validation"]] and the verdict it
    hands to the recorder. *)
Definition attempt (fs : files) (st : state) : validation * option bool :=
  match try_body fs st with
  | Ok (inr c) => (ValidationResult c, match_ c)
  | Ok (inl error) => (ValidationError (Message error), Some false)
  | Raise e => (ValidationError (Exception e), Some false)
  end.

(** [__call__]: the state returned and the content of the log after the
    call, from the content [log] before it. *)
Definition call (fs : files) (now : datetime) (log : string) (st : state)
    : state * string :=
  let file_name := Text.basename (get_or (file_path st) "") in
  let '(v, verdict) := attempt fs st in
  (set_validation st v, log_validation_result now log file_name verdict).

(** * The readers of the log: [copy_successful_files.py] and
      [copy_wrong_input_files.py]

    Both scripts read the log of the recorder back, line by line, and keep
    the file names of one verdict with a regular expression. *)

(** ** Regular expressions

    The part of Python's [re] that the two patterns use: literal text, a
    greedy [+] on a class of characters, and one capturing group.  A
    pattern is a sequence of nodes; matching backtracks as [re] does: a
    greedy repetition takes as many characters as it can and gives them
    back one by one until the rest of the pattern matches. *)

Module Re.

Inductive cls : Type :=
| AnyChar   (* [.]: any character but the line feed *)
| Digit.    (* [\d] *)

Definition accepts (c : cls) (a : ascii) : bool :=
  match c with
  | AnyChar => negb (Ascii.eqb a (ascii_of_nat 10))
  | Digit => F64.is_digit a
  end.

Inductive node : Type :=
| Lit (text : string)   (* the characters of [text], escaped as needed *)
| Plus (c : cls)        (* [c+], greedy *)
| Open                  (* [(] *)
| Close.                (* [)] *)

(** What follows [prefix] in [s], when [s] starts with it. *)
Fixpoint strip_prefix (prefix s : string) : option string :=
  match prefix, s with
  | EmptyString, _ => Some s
  | String a prefix', String b s' =>
      if Ascii.eqb a b then strip_prefix prefix' s' else None
  | String _ _, EmptyString => None
  end.

(** The text matched so far inside the group that is open, if one is. *)
Definition record (text : string) (group : option string) : option string :=
  option_map (fun g => g ++ text) group.

(** The rest of a pattern, as a function of the text left, the open group
    and the groups closed so far (last first). *)
Definition continuation : Type :=
  string -> option string -> list string -> option (list string).

(** [c+] followed by [k]: one character of the class at least; more are
    tried first. *)
Fixpoint match_plus (k : continuation) (c : cls) (s : string)
    (group : option string) (closed : list string) : option (list string) :=
  match s with
  | String a s' =>
      if accepts c a then
        match match_plus k c s' (record (String a EmptyString) group) closed with
        | Some groups => Some groups
        | None => k s' (record (String a EmptyString) group) closed
        end
      else None
  | EmptyString => None
  end.

(** A match of the whole pattern at the start of the text: the groups, in
    the order of their closing parentheses. *)
Fixpoint match_here (pattern : list node) : continuation :=
  match pattern with
  | [] => fun _ _ closed => Some (rev closed)
  | n :: pattern' =>
      match n with
      | Lit text =>
          fun s group closed =>
            match strip_prefix text s with
            | Some s' => match_here pattern' s' (record text group) closed
            | None => None
            end
      | Plus c => match_plus (match_here pattern') c
      | Open => fun s _ closed => match_here pattern' s (Some EmptyString) closed
      | Close =>
          fun s group closed =>
            match_here pattern' s None (get_or group EmptyString :: closed)
      end
  end.

(** [re.search(pattern, s)]: the first position of [s], from the left,
    where the pattern matches; the result is the list of its groups. *)
Fixpoint search (pattern : list node) (s : string) : option (list string) :=
  match match_here pattern s None [] with
  | Some groups => Some groups
  | None =>
      match s with
      | String _ s' => search pattern s'
      | EmptyString => None
      end
  end.

End Re.

(** ** Reading the log back *)

Definition line_feed : ascii := ascii_of_nat 10.
Definition carriage_return : ascii := ascii_of_nat 13.

(** [for line in f] on a file opened in text mode: the lines of the
    content, each with its end, where a carriage return, alone or before a
    line feed, also ends a line and is read as a line feed. *)
Fixpoint readlines (content : string) : list string :=
  match content with
  | EmptyString => []
  | String c rest =>
      if Ascii.eqb c line_feed then newline :: readlines rest
      else if Ascii.eqb c carriage_return then
        match rest with
        | String c' rest' =>
            if Ascii.eqb c' line_feed then newline :: readlines rest'
            else newline :: readlines rest
        | EmptyString => [newline]
        end
      else
        match readlines rest with
        | line :: lines => String c line :: lines
        | [] => [String c EmptyString]
        end
  end.

(** The pattern of a reader: a closing bracket and a space, the group of
    a greedy [.+] and the text .msg, then a space, a bar, a space and the
    verdict word. *)
Definition verdict_pattern (verdict : string) : list Re.node :=
  [Re.Lit "] "; Re.Open; Re.Plus Re.AnyChar; Re.Lit ".msg"; Re.Close;
   Re.Lit (" | " ++ verdict)].

(** The body of the loop of [parse_validation_log] for one line: the file
    name found, if any. *)
Definition parse_line (verdict : string) (line : string) : option string :=
  let line := Text.strip line in
  if negb (line =? "")%string && Text.contains ("| " ++ verdict) line then
    match Re.search (verdict_pattern verdict) line with
    | Some (filename :: _) => Some filename
    | _ => None
    end
  else None.

Fixpoint keep_some {A : Type} (l : list (option A)) : list A :=
  match l with
  | [] => []
  | Some a :: l' => a :: keep_some l'
  | None :: l' => keep_some l'
  end.

Module CopySuccessful.

(** [parse_validation_log] of [copy_successful_files.py], on the content of
    the log: the names of the files logged as correct. *)
Definition parse_validation_log (content : string) : list string :=
  keep_some (map (parse_line "correct") (readlines content)).

End CopySuccessful.

Module CopyWrong.

(** [parse_validation_log] of [copy_wrong_input_files.py]: the names of
    the files logged as wrong. *)
Definition parse_validation_log (content : string) : list string :=
  keep_some (map (parse_line "wrong") (readlines content)).

End CopyWrong.

(** The log after a series of attempts, starting from an empty file: each
    attempt has its time, its file name and its verdict. *)
Definition record_all (attempts : list (datetime * string * option bool)) : string :=
  fold_left (fun log a =>
               log_validation_result (fst (fst a)) log (snd (fst a)) (snd a))
            attempts EmptyString.

(** * The message filter: [filter_msg_files.py]

    [MSGFilter.find_latest_file_for_each_group] keeps, for each product and
    date, the message sent last.  A path is a [string]; a send time is a
    [datetime] of Python, which is either aware of its time zone (an
    instant) or naive (a wall-clock reading), and the comparison of an
    aware with a naive one raises [TypeError].  What
    [get_msg_send_time] reads for each path is an input: a [datetime], as
    its signature declares.  A [Path] is always true, so that [if
    latest_file] only asks whether the loop has seen a file. *)

Module MsgFilter.

Inductive moment : Type :=
| Aware (instant : Z)
| Naive (reading : Z).

Definition value (m : moment) : Z :=
  match m with
  | Aware t | Naive t => t
  end.

Definition same_kind (a b : moment) : bool :=
  match a, b with
  | Aware _, Aware _ | Naive _, Naive _ => true
  | _, _ => false
  end.

(** [a > b] *)
Definition later (a b : moment) : result bool :=
  if same_kind a b then Ok (value b <? value a) else Raise TypeError.

(** A dictionary keeps its keys in the order of their insertion. *)
Fixpoint lookup {V : Type} (key : string) (d : list (string * V)) : option V :=
  match d with
  | [] => None
  | (k, v) :: d' => if String.eqb k key then Some v else lookup key d'
  end.

(** [d[key]] changed in place by [f]. *)
Fixpoint alter {V : Type} (f : V -> V) (key : string) (d : list (string * V))
    : list (string * V) :=
  match d with
  | [] => []
  | (k, v) :: d' =>
      if String.eqb k key then (k, f v) :: d' else (k, v) :: alter f key d'
  end.

(** [if key not in d: d[key] = v] *)
Definition ensure {V : Type} (key : string) (v : V) (d : list (string * V))
    : list (string * V) :=
  match lookup key d with
  | Some _ => d
  | None => (d ++ [(key, v)])%list
  end.

Definition nonempty (s : string) : bool :=
  match s with
  | EmptyString => false
  | String _ _ => true
  end.

Section Latest.

Variable get_msg_send_time : string -> moment.

(** [extract_date_and_product] is applied to the name of each path that the
    pattern [*.msg] finds in the source directory; the paths found, in the
    order in which they are found, are an input. *)
Variable extract_date_and_product : string -> option string * option string * string.
Variable name : string -> string.

(** One turn of the loop of [group_files_by_product_and_date]. *)
Definition add_file (grouped_files : list (string * list (string * list string)))
    (file_path : string) : list (string * list (string * list string)) :=
  let '(product, date, filename) := extract_date_and_product (name file_path) in
  match product, date with
  | Some product, Some date =>
      if nonempty product && nonempty date then
        let grouped_files := ensure product [] grouped_files in
        let grouped_files := alter (ensure date []) product grouped_files in
        alter (alter (fun file_paths => (file_paths ++ [file_path])%list) date)
              product grouped_files
      else grouped_files
  | _, _ => grouped_files
  end.

Definition group_files_by_product_and_date (glob : list string)
    : list (string * list (string * list string)) :=
  fold_left add_file glob [].

(** The loop over the files of one group, from the latest file and time
    found so far. *)
Fixpoint scan (file_paths : list string) (latest : option (string * moment))
    : result (option (string * moment)) :=
  match file_paths with
  | [] => Ok latest
  | file_path :: file_paths' =>
      let send_time := get_msg_send_time file_path in
      newer <- match latest with
               | None => Ok true
               | Some (_, latest_time) => later send_time latest_time
               end ;;
      scan file_paths' (if (newer : bool) then Some (file_path, send_time) else latest)
  end.

(** What one group adds to [latest_files]. *)
Definition latest_of_group (file_paths : list string) : result (list string) :=
  match file_paths with
  | [file_path] => Ok [file_path]
  | _ =>
      found <- scan file_paths None ;;
      Ok match found with
         | Some (latest_file, _) => [latest_file]
         | None => []
         end
  end.

(** The groups of a dictionary [{product: {date: [file_paths]}}], in the
    order of its keys. *)
Definition groups (grouped_files : list (string * list (string * list string)))
    : list (list string) :=
  flat_map (fun product_dates => map snd (snd product_dates)) grouped_files.

Definition find_latest_file_for_each_group
    (grouped_files : list (string * list (string * list string)))
    : result (list string) :=
  picks <- mapM latest_of_group (groups grouped_files) ;;
  Ok (List.concat picks).

(** The files that [run] hands to [copy_latest_files]. *)
Definition run (glob : list string) : result (list string) :=
  let grouped_files := group_files_by_product_and_date glob in
  match grouped_files with
  | [] => Ok []
  | _ => find_latest_file_for_each_group grouped_files
  end.

(** The product and the date under which a path is filed, if it is. *)
Definition product_and_date (file_path : string) : option (string * string) :=
  match extract_date_and_product (name file_path) with
  | (Some product, Some date, _) =>
      if nonempty product && nonempty date then Some (product, date) else None
  | _ => None
  end.

Definition filed_under (product date : string) (file_path : string) : bool :=
  match product_and_date file_path with
  | Some (p, d) => String.eqb p product && String.eqb d date
  | None => false
  end.

Definition files_of (grouped_files : list (string * list (string * list string)))
    (product date : string) : option (list string) :=
  match lookup product grouped_files with
  | Some dates => lookup date dates
  | None => None
  end.

(** The groups of a dictionary with their keys. *)
Definition entries (grouped_files : list (string * list (string * list string)))
    : list ((string * string) * list string) :=
  flat_map (fun product_dates =>
              map (fun date_files =>
                     ((fst product_dates, fst date_files), snd date_files))
                  (snd product_dates))
           grouped_files.

(** No key occurs twice, at either level. *)
Definition well_keyed (grouped_files : list (string * list (string * list string)))
    : Prop :=
  NoDup (map fst grouped_files)
  /\ Forall (fun product_dates => NoDup (map fst (snd product_dates))) grouped_files.

(** A group is uniform when the send times of its files are all aware or
    all naive.  [latest_file] is the first of the files of the group that
    no other file of the group was sent after. *)
Definition uniform (file_paths : list string) : bool :=
  match file_paths with
  | [] => true
  | first :: others =>
      forallb (fun f => same_kind (get_msg_send_time f) (get_msg_send_time first))
              others
  end.

Definition first_latest (file_paths : list string) (latest_file : string) : Prop :=
  exists before after,
    file_paths = (before ++ latest_file :: after)%list
    /\ (forall f, In f before ->
                  value (get_msg_send_time f) < value (get_msg_send_time latest_file))
    /\ (forall f, In f after ->
                  value (get_msg_send_time f) <= value (get_msg_send_time latest_file)).

End Latest.

End MsgFilter.

(** ** Numeric datasets

    The spec's ReportDataset: rows of two numbers.  [numeric_columns df c1
    c2] reads the columns [c1] and [c2] of [df] as such a dataset, when
    both exist and hold only numbers. *)

Definition dataset : Type := list (F64.float * F64.float).

Definition numeric_row (df : frame) (c1 c2 : string) (row : list cell)
    : option (F64.float * F64.float) :=
  match getitem df row c1, getitem df row c2 with
  | Ok (Num x), Ok (Num y) => Some (x, y)
  | _, _ => None
  end.

Fixpoint all_some {A : Type} (l : list (option A)) : option (list A) :=
  match l with
  | [] => Some []
  | Some a :: l' => option_map (cons a) (all_some l')
  | None :: _ => None
  end.

Definition numeric_columns (df : frame) (c1 c2 : string) : option dataset :=
  all_some (map (numeric_row df c1 c2) (rows df)).

(** A field is within tolerance when the absolute difference is below
    [0.001]; a row matches when both of its fields are. *)
Definition field_match (x y : F64.float) : bool :=
  F64.ltb (F64.abs (F64.sub x y)) tolerance.

Definition row_match (r1 r2 : F64.float * F64.float) : bool :=
  field_match (fst r1) (fst r2) && field_match (snd r1) (snd r2).

(** The rows that match, position by position, over the common length. *)
Fixpoint count_matching (a b : dataset) : nat :=
  match a, b with
  | r1 :: a', r2 :: b' =>
      ((if row_match r1 r2 then 1 else 0) + count_matching a' b')%nat
  | _, _ => O
  end.

(** ** Header cells in reading order

    What "the first header found in reading order" means: the cells of a
    sheet, row after row and left to right, each with its column. *)

Definition is_header (token : string) (c : cell) : bool :=
  notna c && (value_str c =? token)%string.

Definition indexed_from (k : nat) (row : list cell) : list (nat * cell) :=
  combine (seq k (List.length row)) row.

Definition header_cells (df : sheet) : list (nat * cell) :=
  flat_map (indexed_from 0) df.

Definition first_in (token : string) (cells : list (nat * cell)) : option nat :=
  option_map fst (find (fun p => is_header token (snd p)) cells).

(** The column of the first cell of [df], in reading order, whose text is
    [token] once stripped and put in lower case. *)
Definition first_header (token : string) (df : sheet) : option nat :=
  first_in token (header_cells df).

Definition or_else {A : Type} (o o' : option A) : option A :=
  match o with
  | Some _ => o
  | None => o'
  end.

(** ** Column discovery sheet by sheet, as the spec words it

    The spec has each sheet located by its own header labels.  This is the
    extraction that follows those words: the columns and the first data row
    of a sheet are looked up in that sheet.  It is compared with
    [extract_excel] below. *)

Definition extract_own_layout (df : sheet)
    : result (string + list (F64.float * F64.float)) :=
  match find_columns df None None with
  | (Some liability_col, Some asset_col) =>
      start <- find_data_start df 0 liability_col asset_col ;;
      match start with
      | None => Ok (inl "Could not find data rows")
      | Some data_start_row =>
          r <- extract_sheet liability_col asset_col data_start_row df ;;
          Ok (inr r)
      end
  | _ => Ok (inl "Could not find Liability and Asset columns")
  end.

Definition spec_extract_per_sheet (df1_wb df1_dbib : sheet)
    : result (string + list (F64.float * F64.float)) :=
  wb <- extract_own_layout df1_wb ;;
  match wb with
  | inl error => Ok (inl error)
  | inr wb_rows =>
      dbib <- extract_own_layout df1_dbib ;;
      match dbib with
      | inl error => Ok (inl error)
      | inr dbib_rows => Ok (inr (wb_rows ++ dbib_rows)%list)
      end
  end.

(** ** Attempts that fail

    The ways an attempt fails: a required header is missing, no data row
    is found, the inputs of the message branch are missing, or the body of
    the [try] raises. *)

Definition is_excel (st : state) : bool :=
  let t := get_or (file_type st) "unknown" in
  (t =? "xlsx")%string || (t =? "xls")%string.

Definition is_msg (st : state) : bool :=
  (get_or (file_type st) "unknown" =? "msg")%string.

Inductive attempt_fails (fs : files) (st : state) : failure -> Prop :=
| fails_missing_header (path out : string) (wb dbib : sheet) :
    is_excel st = true ->
    file_path st = Some path ->
    excel_outputs st = Some (Some out) ->
    read_excel fs path "WB" = Ok wb ->
    read_excel fs path "DBIB" = Ok dbib ->
    first_header "liability" wb = None \/ first_header "asset" wb = None ->
    attempt_fails fs st (Message "Could not find Liability and Asset columns")
| fails_missing_data_rows (path out : string) (wb dbib : sheet) (l a : nat) :
    is_excel st = true ->
    file_path st = Some path ->
    excel_outputs st = Some (Some out) ->
    read_excel fs path "WB" = Ok wb ->
    read_excel fs path "DBIB" = Ok dbib ->
    first_header "liability" wb = Some l ->
    first_header "asset" wb = Some a ->
    find_data_start wb 0 l a = Ok None ->
    attempt_fails fs st (Message "Could not find data rows")
| fails_missing_inputs :
    is_msg st = true ->
    docint_df st = None \/ table_output st = None \/ table_output st = Some "" ->
    attempt_fails fs st
      (Message "Missing Document Intelligence data or table output")
| fails_exception (e : exn) :
    try_body fs st = Raise e ->
    attempt_fails fs st (Exception e).

(** The entries of [state["validation"]]: the match, when there is one,
    and the error, when there is one. *)
Definition match_entry (v : validation) : option (option bool) :=
  match v with
  | ValidationError _ => None
  | ValidationResult c => Some (match_ c)
  end.

Definition error_entry (v : validation) : option failure :=
  match v with
  | ValidationError f => Some f
  | ValidationResult _ => None
  end.

(** Zero-normalization after rounding to six digits: the spec's "same
    value". *)
Definition normalized (x : F64.float) : F64.float :=
  let r := F64.round6 x in
  if F64.eqb r F64.zero then F64.zero else r.

(** ** Worked inputs

    Small datasets, sheets and states on which the properties below are
    run. *)

(** [pd.DataFrame] of the machine table, with its two fixed column names. *)
Definition table_frame (d : dataset) : frame :=
  DataFrame ["RIDER_VALUE"; "ASSET_VALUE"]
            (map (fun r => [Num (fst r); Num (snd r)]) d).

(** The rows (1, 0.5), (2, 1), ..., (n, n/2). *)
Definition sample_rows (n : nat) : dataset :=
  map (fun i => (F64.of_Z (Z.of_nat i), F64.of_ratio (Z.of_nat i) 2)) (seq 1 n).

(** The same rows, the first [k] of them with a liability off by one. *)
Definition sample_rows_off (k n : nat) : dataset :=
  map (fun i => (F64.of_Z (Z.of_nat (if (i <=? k)%nat then S i else i)),
                 F64.of_ratio (Z.of_nat i) 2)) (seq 1 n).

Definition sample_wb : sheet :=
  [ [Str "Item"; Str "Liability"; Str "Asset"];
    [Str "A"; Num (F64.of_Z 1); Num (F64.of_Z 2)] ].

Definition sample_dbib_swapped : sheet :=
  [ [Str "Item"; Str "Asset"; Str "Liability"];
    [Str "B"; Num (F64.of_Z 3); Num (F64.of_Z 4)] ].

(** The lines of two worksheets: a title line, the line of the headers
    and a line of data. *)
Definition sample_wb_lines : worksheet :=
  [Str "Daily Hedging P&L"; Num F64.nan; Num F64.nan] :: sample_wb.

Definition sample_dbib_lines_swapped : worksheet :=
  [Str "Daily Hedging P&L"; Num F64.nan; Num F64.nan] :: sample_dbib_swapped.

(** A workbook whose WB sheet has no "Asset" header. *)
Definition sample_wb_no_asset : sheet :=
  [ [Str "Item"; Str "Liability"; Str "Assets held"];
    [Str "A"; Num (F64.of_Z 1); Num (F64.of_Z 2)] ].

Definition sample_files : files :=
  Files (fun _ sheet_name =>
           if (sheet_name =? "WB")%string then Ok sample_wb_no_asset
           else Ok sample_wb)
        (fun _ => Ok (table_frame (sample_rows 1))).

Definition sample_state : state :=
  State (Some "xlsx") (Some "/data/report.xlsx") (Some (Some "out.csv"))
        None None None.

Definition sample_now : datetime := Build_datetime 2024 5 1 9 30 0.

(** ** Further notions used by the properties

    A number is finite when it is neither [NaN] nor an infinity. *)

Definition is_finite (x : F64.float) : bool :=
  match x with
  | S754_zero _ | S754_finite _ _ _ => true
  | S754_infinity _ | S754_nan => false
  end.

Definition finite_row (r : F64.float * F64.float) : bool :=
  is_finite (fst r) && is_finite (snd r).

(** The verdict of the percentage test against the exact rule "at least
    four rows in five": [threshold_agrees n] checks it for [n] compared
    rows and every count of matching rows from [0] to [n]. *)
Definition threshold_agrees (n : nat) : bool :=
  forallb (fun m => Bool.eqb (sufficient m n) (4 * n <=? 5 * m)%nat) (seq 0 (S n)).

(** The counters of the fuzzy loop after its last turn. *)
Definition fuzzy_counters (df1 df2 : frame) : nat * nat :=
  fold_left (fuzzy_step df1 df2)
            (seq 0 (Nat.min (List.length (rows df1)) (List.length (rows df2))))
            (O, O).

(** A data row, as the search for the first data row sees it: both
    cells are there, are not empty and read as numbers. *)
Definition is_data_row (liability_col asset_col : nat) (row : list cell) : bool :=
  match nth_error row liability_col, nth_error row asset_col with
  | Some c1, Some c2 =>
      notna c1 && notna c2 &&
      match to_float c1, to_float c2 with
      | Ok _, Ok _ => true
      | _, _ => false
      end
  | _, _ => false
  end.

(** A text of white space only. *)
Fixpoint blank (s : string) : bool :=
  match s with
  | EmptyString => true
  | String c s' => Text.is_space c && blank s'
  end.

(** Reading a canonical string back: [lacks c s] tells that the character
    [c] does not occur in [s], [split_on c s] is [s.split(c)], and
    [formatted r] is the pair of fields a row of two numbers is written
    as. *)
Fixpoint lacks (c : ascii) (s : string) : bool :=
  match s with
  | EmptyString => true
  | String c' s' => negb (Ascii.eqb c' c) && lacks c s'
  end.

Fixpoint split_on (c : ascii) (s : string) : list string :=
  match s with
  | EmptyString => [EmptyString]
  | String c' s' =>
      if Ascii.eqb c' c then EmptyString :: split_on c s'
      else match split_on c s' with
           | part :: parts => String c' part :: parts
           | [] => [String c' EmptyString]
           end
  end.

Definition formatted (r : F64.float * F64.float) : string * string :=
  (format_value (Num (fst r)), format_value (Num (snd r))).

(** A base name that the log can carry on one line and that the readers
    can tell from the verdict: not empty, without line break and without
    bar.  The file logged is this base name with the extension ".msg". *)
Definition plain (base : string) : bool :=
  negb (base =? "")%string && lacks line_feed base
  && lacks carriage_return base && lacks "|" base.

Definition msg_attempt (a : datetime * string * option bool)
    : datetime * string * option bool :=
  (fst (fst a), snd (fst a) ++ ".msg", snd a).

(** The text of one row of two numbers in the canonical string. *)
Definition row_string (r : F64.float * F64.float) : string :=
  fst (formatted r) ++ "," ++ snd (formatted r).

(** ** A folder of messages

    Three messages of one product and date, the last two sent at the same
    instant, and a single message of another date. *)

Definition sample_send_time (file_path : string) : MsgFilter.moment :=
  if String.eqb file_path "WB_20240501_first.msg" then MsgFilter.Aware 1714550400
  else if String.eqb file_path "mtime_only.msg" then MsgFilter.Naive 1714557600
  else MsgFilter.Aware 1714554000.

Definition sample_grouped_files : list (string * list (string * list string)) :=
  [("WB", [("20240501", ["WB_20240501_first.msg"; "WB_20240501_second.msg";
                         "WB_20240501_third.msg"]);
           ("20240502", ["mtime_only.msg"])]);
   ("DBIB", [("20240501", ["DBIB_20240501.msg"])])].

Definition sample_extract (filename : string)
    : option string * option string * string :=
  if String.prefix "WB_" filename
  then (Some "WB", Some (String.substring 3 8 filename), filename)
  else if String.prefix "DBIB_" filename
  then (Some "DBIB", Some (String.substring 5 8 filename), filename)
  else (None, None, filename).

Definition sample_glob : list string :=
  ["WB_20240501_first.msg"; "WB_20240501_second.msg"; "notes.msg";
   "DBIB_20240501.msg"; "WB_20240501_third.msg"; "mtime_only.msg"].

(** * Dates in file names: [check_and_align_dates.py]

    [convert_date_format] on a string.  A slice of Python stops at the end
    of the string, as [String.substring] does; on a string nothing in the
    body raises, so that the handler is not entered. *)

Module Dates.

(** [s[i:j]], for [0 <= i] and [0 <= j] *)
Definition slice (i j : nat) (s : string) : string :=
  String.substring i (j - i) s.

(** [s.replace(c, )] with the empty string for [c] *)
Fixpoint remove (c : ascii) (s : string) : string :=
  match s with
  | EmptyString => EmptyString
  | String c' s' => if Ascii.eqb c' c then remove c s' else String c' (remove c s')
  end.

Definition convert_date_format (date_str from_format to_format : string) : string :=
  if String.eqb from_format "YYYYMMDD" then
    slice 0 4 date_str ++ "_" ++ slice 4 6 date_str ++ "_" ++ slice 6 8 date_str
  else if String.eqb from_format "YYYY_MM_DD" then
    remove "_" date_str
  else date_str.

End Dates.

(** * Properties *)

(** ** The verdict recorder *)

Lemma append_assoc (a b c : string) : ((a ++ b) ++ c = a ++ (b ++ c))%string.
Proof.
  induction a as [|ch a IH]; simpl; [reflexivity | now rewrite IH].
Qed.

Lemma prefix_append (a b : string) : String.prefix a (a ++ b) = true.
Proof.
  induction a as [|ch a IH]; simpl.
  - now destruct b.
  - destruct (ascii_dec ch ch) as [_ | ne]; [exact IH | now elim ne].
Qed.

(** C8.  One call of the recorder appends the text
    "[<timestamp>] <file_name> | <status>" and a line feed to the log,
    where the status is "correct" for [True] and "wrong" for [False] and
    for [None]; what the log held before is still its beginning.  A second
    call with the same arguments appends a second line after the first. *)
Theorem log_validation_result_appends :
  forall (now now' : datetime) (log file_name : string) (match_ : option bool),
    let status := match match_ with Some true => "correct" | _ => "wrong" end in
    let line t := "[" ++ strftime t ++ "] " ++ file_name ++ " | " ++ status in
    log_validation_result now log file_name match_ = log ++ line now ++ newline
    /\ String.prefix log (log_validation_result now log file_name match_) = true
    /\ log_validation_result now'
         (log_validation_result now log file_name match_) file_name match_
       = log ++ line now ++ newline ++ line now' ++ newline.
Proof.
  intros now now' log file_name match_ status line.
  assert (E : forall t l, log_validation_result t l file_name match_
                          = l ++ line t ++ newline).
  { intros t l. unfold log_validation_result, log_line, line, status, status_of.
    destruct match_ as [[|]|]; simpl truthy; cbv iota;
      now rewrite ?append_assoc. }
  repeat split.
  - apply E.
  - rewrite E. apply prefix_append.
  - rewrite !E. now rewrite !append_assoc.
Qed.

(** ** Canonicalization *)


(** ** Fuzzy mode: the ways back to exact mode *)

(** When the row counts differ by more than two, or when one side has no
    row, no verdict comes from the rows: the hash comparison is made. *)
Lemma fuzzy_goes_to_exact (df1 df2 : frame) :
  (2 < abs_diff (List.length (rows df1)) (List.length (rows df2)))%nat
  \/ Nat.min (List.length (rows df1)) (List.length (rows df2)) = O ->
  fuzzy_compare df1 df2 = exact_compare df1 df2.
Proof.
  intros H. unfold fuzzy_compare.
  destruct (Nat.leb_spec (abs_diff (List.length (rows df1))
                                   (List.length (rows df2))) 2) as [le | gt].
  - destruct H as [H | H]; [lia |]. now rewrite H.
  - reflexivity.
Qed.


(** ** Fuzzy mode: counting the matching rows *)

Section FuzzyLoop.

Variables df1 df2 : frame.
Variables a b : dataset.
Hypothesis numeric1 : numeric_columns df1 "Liability" "Asset" = Some a.
Hypothesis numeric2 : numeric_columns df2 "RIDER_VALUE" "ASSET_VALUE" = Some b.

Lemma all_some_nth {A B : Type} (f : A -> option B) :
  forall (l : list A) (l' : list B),
    all_some (map f l) = Some l' ->
    List.length l' = List.length l /\
    forall i x, nth_error l i = Some x ->
                exists y, nth_error l' i = Some y /\ f x = Some y.
Proof.
  induction l as [|x l IH]; intros l' H; simpl in H.
  - injection H as <-. split; [reflexivity | intros [|i] x H; discriminate].
  - destruct (f x) as [y|] eqn:Fx; [|discriminate].
    destruct (all_some (map f l)) as [t|] eqn:T; [|discriminate].
    injection H as <-. destruct (IH t eq_refl) as [len nth].
    split; [simpl; now rewrite len |].
    intros [|i] x' Hx; simpl in Hx.
    + injection Hx as <-. exists y. now split.
    + apply nth, Hx.
Qed.

Lemma numeric_row_inv (df : frame) (c1 c2 : string) (row : list cell) x y :
  numeric_row df c1 c2 row = Some (x, y) ->
  getitem df row c1 = Ok (Num x) /\ getitem df row c2 = Ok (Num y).
Proof.
  unfold numeric_row.
  destruct (getitem df row c1) as [[u|?|?]|?]; try discriminate.
  destruct (getitem df row c2) as [[v|?|?]|?]; try discriminate.
  intros H. injection H as <- <-. now split.
Qed.

(** A float of a row is the same float in the Series of the row. *)
Lemma getitem_series (df : frame) (row : list cell) (name : string)
    (x : F64.float) (d : dtype) :
  getitem df row name = Ok (Num x) ->
  getitem df match d with
             | float64 => map astype_float row
             | _ => row
             end name = Ok (Num x).
Proof.
  destruct d; trivial. unfold getitem, iloc.
  destruct (index_of name (columns df)) as [i|]; [| discriminate].
  rewrite nth_error_map. destruct (nth_error row i) as [[y|t|n]|]; try discriminate.
  intros H. injection H as <-. reflexivity.
Qed.

Lemma length_a : List.length a = List.length (rows df1).
Proof. exact (proj1 (all_some_nth _ _ _ numeric1)). Qed.

Lemma length_b : List.length b = List.length (rows df2).
Proof. exact (proj1 (all_some_nth _ _ _ numeric2)). Qed.

(** On numeric columns the body of the [try] never raises: it tells
    whether the two rows match. *)
Lemma compare_row_numeric (i : nat) (ra rb : F64.float * F64.float) :
  nth_error a i = Some ra -> nth_error b i = Some rb ->
  compare_row df1 df2 i = Ok (row_match ra rb).
Proof.
  intros Ha Hb.
  assert (L1 : (i < List.length (rows df1))%nat)
    by (rewrite <- length_a; apply nth_error_Some; congruence).
  assert (L2 : (i < List.length (rows df2))%nat)
    by (rewrite <- length_b; apply nth_error_Some; congruence).
  destruct (nth_error (rows df1) i) as [r1|] eqn:R1;
    [| apply nth_error_None in R1; lia].
  destruct (nth_error (rows df2) i) as [r2|] eqn:R2;
    [| apply nth_error_None in R2; lia].
  destruct (proj2 (all_some_nth _ _ _ numeric1) i r1 R1) as [[x y] [Hx Nx]].
  destruct (proj2 (all_some_nth _ _ _ numeric2) i r2 R2) as [[u v] [Hu Nu]].
  apply numeric_row_inv in Nx, Nu. destruct Nx as [G1 G2], Nu as [G3 G4].
  assert (ra = (x, y)) by congruence. assert (rb = (u, v)) by congruence.
  subst ra rb. unfold compare_row, iloc_row, iloc. rewrite R1, R2. cbn [bind].
  rewrite (getitem_series _ _ _ _ (row_dtype df1) G1),
          (getitem_series _ _ _ _ (row_dtype df1) G2),
          (getitem_series _ _ _ _ (row_dtype df2) G3),
          (getitem_series _ _ _ _ (row_dtype df2) G4).
  reflexivity.
Qed.

Lemma skipn_nth_error {A : Type} (l : list A) (k : nat) (x : A) :
  nth_error l k = Some x -> skipn k l = x :: skipn (S k) l.
Proof.
  revert l. induction k as [|k IH]; intros [|y l] H; try discriminate.
  - now injection H as <-.
  - simpl in H. now rewrite (skipn_cons k y l), (IH l H).
Qed.

(** The loop over the rows [k .. k + n - 1] adds the matching rows among
    them to [matching_rows] and [n] to [total_comparisons]. *)
Lemma fuzzy_loop_counts :
  forall (n k m t : nat),
    (k + n <= Nat.min (List.length a) (List.length b))%nat ->
    fold_left (fuzzy_step df1 df2) (seq k n) (m, t)
    = ((m + count_matching (firstn n (skipn k a)) (firstn n (skipn k b)))%nat,
       (t + n)%nat).
Proof.
  induction n as [|n IH]; intros k m t H.
  - simpl. f_equal; lia.
  - cbn [seq fold_left fuzzy_step].
    destruct (nth_error a k) as [ra|] eqn:Ha;
      [| apply nth_error_None in Ha; lia].
    destruct (nth_error b k) as [rb|] eqn:Hb;
      [| apply nth_error_None in Hb; lia].
    rewrite (compare_row_numeric k ra rb Ha Hb).
    rewrite (skipn_nth_error a k ra Ha), (skipn_nth_error b k rb Hb).
    rewrite !firstn_cons. cbn [count_matching].
    destruct (row_match ra rb); rewrite IH by lia; cbv iota;
      f_equal; lia.
Qed.

Lemma count_matching_firstn :
  forall (x y : dataset),
    count_matching (firstn (Nat.min (List.length x) (List.length y)) x)
                   (firstn (Nat.min (List.length x) (List.length y)) y)
    = count_matching x y.
Proof.
  induction x as [|r x IH]; intros [|r' y]; simpl; try reflexivity.
  now rewrite IH.
Qed.

(** The counters at the end of the loop. *)
Lemma fuzzy_loop_result :
  fold_left (fuzzy_step df1 df2)
            (seq 0 (Nat.min (List.length (rows df1)) (List.length (rows df2))))
            (O, O)
  = (count_matching a b, Nat.min (List.length a) (List.length b)).
Proof.
  rewrite <- length_a, <- length_b.
  rewrite fuzzy_loop_counts by lia.
  simpl skipn. now rewrite count_matching_firstn.
Qed.

End FuzzyLoop.

(** X24.  In fuzzy mode, on columns of floats whose row counts differ by
    at most two and with [n = min(rows_a, rows_b) > 0], the rows [0 .. n-1]
    are compared field by field against the tolerance, the percentage is
    [matching_rows / n * 100] and the verdict is [percentage >= 80]; no
    digest is computed.  With [n = 10], eight matching rows give [True]
    and seven give [False]. *)
Theorem fuzzy_percentage_on_float_columns :
  forall (df1 df2 : frame) (a b : dataset),
    numeric_columns df1 "Liability" "Asset" = Some a ->
    numeric_columns df2 "RIDER_VALUE" "ASSET_VALUE" = Some b ->
    (abs_diff (List.length a) (List.length b) <= 2)%nat ->
    (0 < Nat.min (List.length a) (List.length b))%nat ->
    let n := Nat.min (List.length a) (List.length b) in
    let matched :=
      F64.leb (F64.of_Z 80)
              (F64.mul (F64.of_ratio (Z.of_nat (count_matching a b)) (Z.of_nat n))
                       (F64.of_Z 100)) in
    fuzzy_compare df1 df2 = Ok (Comparison (Some matched) None None None None)
    /\ (n = 10%nat -> count_matching a b = 8%nat -> matched = true)
    /\ (n = 10%nat -> count_matching a b = 7%nat -> matched = false).
Proof.
  intros df1 df2 a b N1 N2 D P n matched. split.
  - unfold fuzzy_compare.
    rewrite (fuzzy_loop_result df1 df2 a b N1 N2).
    rewrite <- (length_a df1 a N1), <- (length_b df2 b N2).
    destruct (Nat.leb_spec (abs_diff (List.length a) (List.length b)) 2); [|lia].
    fold n. destruct (Nat.ltb_spec 0 n); [reflexivity | lia].
  - split; intros E C; unfold matched; rewrite E, C; vm_compute; reflexivity.
Qed.

(** C1 on a failing input.  Both sides hold one row of integers, and the
    liabilities are [2^63] apart.  The subtraction of the two 64-bit
    integers wraps around to [-2^63], whose absolute value in 64 bits is
    [-2^63] again and compares below the tolerance: the row is counted as
    matching, the percentage is 100 and the verdict is [True], where the
    absolute difference is far above [0.001] and the rule of the spec,
    with no matching row of one, answers [False]. *)
Theorem fuzzy_match_on_integer_overflow :
  let df1 := DataFrame ["Liability"; "Asset"] [[Int 9223372036854775807; Int 1]] in
  let df2 := DataFrame ["RIDER_VALUE"; "ASSET_VALUE"] [[Int (-1); Int 1]] in
  Z.abs (9223372036854775807 - -1) = 2 ^ 63
  /\ F64.ltb (F64.of_Z (2 ^ 63)) tolerance = false
  /\ compare_row df1 df2 0 = Ok true
  /\ fuzzy_counters df1 df2 = (1%nat, 1%nat)
  /\ fuzzy_compare df1 df2 = Ok (Comparison (Some true) None None None None)
  /\ sufficient 0 1 = false.
Proof.
  repeat split; vm_compute; reflexivity.
Qed.

(** ** Fuzzy mode: the tolerance *)

(** X25.  On floats the tolerance bound is strict.  Two floats whose difference
    is the tolerance itself are not within tolerance, and two floats are
    within tolerance only when the difference compares below it; on
    columns of floats a turn of the loop counts the row as matching exactly
    when both of its fields are strictly below the tolerance. *)
Theorem tolerance_is_strict_on_floats :
  (forall x y : F64.float,
      F64.abs (F64.sub x y) = tolerance ->
      within_tolerance (Num x) (Num y) = Ok false)
  /\ (forall x y : F64.float,
        within_tolerance (Num x) (Num y) = Ok true ->
        SFcompare (F64.abs (F64.sub x y)) tolerance = Some Lt)
  /\ (forall (df1 df2 : frame) (a b : dataset) (i m t : nat) x y u v,
        numeric_columns df1 "Liability" "Asset" = Some a ->
        numeric_columns df2 "RIDER_VALUE" "ASSET_VALUE" = Some b ->
        nth_error a i = Some (x, y) ->
        nth_error b i = Some (u, v) ->
        fuzzy_step df1 df2 (m, t) i
        = (if F64.ltb (F64.abs (F64.sub x u)) tolerance
              && F64.ltb (F64.abs (F64.sub y v)) tolerance
           then S m else m, S t)).
Proof.
  split; [| split].
  - intros x y E. unfold within_tolerance. rewrite E. reflexivity.
  - intros x y H. unfold within_tolerance, F64.ltb, SFltb in H.
    destruct (SFcompare (F64.abs (F64.sub x y)) tolerance) as [[| |]|];
      try discriminate H.
    reflexivity.
  - intros df1 df2 a b i m t x y u v N1 N2 Ha Hb.
    unfold fuzzy_step.
    rewrite (compare_row_numeric df1 df2 a b N1 N2 i _ _ Ha Hb).
    unfold row_match, field_match. simpl fst. simpl snd.
    now destruct (F64.ltb (F64.abs (F64.sub x u)) tolerance
                  && F64.ltb (F64.abs (F64.sub y v)) tolerance).
Qed.

(** C10 on a failing input.  Two integer fields that are [2^63] apart
    pass the test: their difference wraps around to [-2^63], the smallest
    64-bit integer, which is its own absolute value in 64 bits and is
    below [0.001]; so does the smallest 64-bit integer against zero.  The
    turn of the loop counts the row as matching, although the difference of
    its first field is not strictly below the tolerance. *)
Theorem tolerance_test_on_integer_overflow :
  wrap64 (9223372036854775807 - -1) = - 2 ^ 63
  /\ wrap64 (Z.abs (- 2 ^ 63)) = - 2 ^ 63
  /\ within_tolerance (Int 9223372036854775807) (Int (-1)) = Ok true
  /\ within_tolerance (Int (- 2 ^ 63)) (Int 0) = Ok true
  /\ F64.ltb (F64.of_Z (Z.abs (9223372036854775807 - -1))) tolerance = false
  /\ fuzzy_step (DataFrame ["Liability"; "Asset"]
                           [[Int 9223372036854775807; Int 5]])
                (DataFrame ["RIDER_VALUE"; "ASSET_VALUE"] [[Int (-1); Int 5]])
                (O, O) 0
     = (1%nat, 1%nat).
Proof.
  repeat split; vm_compute; reflexivity.
Qed.

(** ** The extractor: which rows are kept *)

(** A row passes the three filters and its cells are read: it is
    appended, rounded to six digits. *)
Lemma extract_row_kept (liability_col asset_col : nat) (row : list cell)
    (c1 c2 : cell) (l a : F64.float) :
  nth_error row liability_col = Some c1 ->
  nth_error row asset_col = Some c2 ->
  isna c1 && isna c2 = false ->
  Text.contains "Total" (row_label row)
    && negb (Text.contains "HY Total" (row_label row)) = false ->
  value_or_zero c1 = Ok l ->
  value_or_zero c2 = Ok a ->
  row_label row <> "" ->
  extract_row liability_col asset_col row = Ok (Some (F64.round6 l, F64.round6 a)).
Proof.
  intros H1 H2 B T V1 V2 L. unfold extract_row, iloc. rewrite H1, H2. simpl.
  destruct (isna c1) eqn:E1; simpl in B |- *; rewrite ?B; simpl;
    rewrite T, V1, V2; simpl;
    (destruct (String.eqb_spec (row_label row) "") as [e | _];
     [now elim L | now rewrite !andb_false_r]).
Qed.




(** ** The extractor: column discovery *)

Lemma find_app {A : Type} (f : A -> bool) (l1 l2 : list A) :
  find f (l1 ++ l2)%list = or_else (find f l1) (find f l2).
Proof.
  induction l1 as [|x l1 IH]; simpl; [reflexivity |].
  now destruct (f x).
Qed.

Lemma or_else_assoc {A : Type} (x y z : option A) :
  or_else x (or_else y z) = or_else (or_else x y) z.
Proof. now destruct x. Qed.

Lemma option_map_or_else {A B : Type} (f : A -> B) (x y : option A) :
  option_map f (or_else x y) = or_else (option_map f x) (option_map f y).
Proof. now destruct x. Qed.

Lemma first_in_app (token : string) (c1 c2 : list (nat * cell)) :
  first_in token (c1 ++ c2)%list = or_else (first_in token c1) (first_in token c2).
Proof.
  unfold first_in. now rewrite find_app, option_map_or_else.
Qed.

Lemma first_header_cons (token : string) (row : list cell) (df : sheet) :
  first_header token (row :: df)
  = or_else (first_in token (indexed_from 0 row)) (first_header token df).
Proof.
  unfold first_header, header_cells. simpl. apply first_in_app.
Qed.

(** One row: each column found is the first header of its kind from
    column [k] on, unless it was known already. *)
Lemma scan_row_first :
  forall (row : list cell) (k : nat) (l a : option nat),
    scan_row row k l a
    = (or_else l (first_in "liability" (indexed_from k row)),
       or_else a (first_in "asset" (indexed_from k row))).
Proof.
  induction row as [|c row IH]; intros k l a.
  - now destruct l, a.
  - cbn [scan_row]. unfold indexed_from. cbn [List.length seq combine].
    fold (indexed_from (S k) row).
    unfold first_in, is_header. cbn [find snd].
    destruct (value_str c =? "liability")%string eqn:E1;
      destruct (value_str c =? "asset")%string eqn:E2.
    + apply String.eqb_eq in E1, E2. rewrite E1 in E2. discriminate E2.
    + destruct (notna c), l, a; cbn [andb is_None option_map fst or_else];
        rewrite IH; reflexivity.
    + destruct (notna c), l, a; cbn [andb is_None option_map fst or_else];
        rewrite IH; reflexivity.
    + destruct (notna c), l, a; cbn [andb is_None option_map fst or_else];
        rewrite IH; reflexivity.
Qed.

(** The whole search: the columns found are those of the first
    "liability" and of the first "asset" of the sheet in reading order. *)
Lemma find_columns_first :
  forall (df : sheet) (l a : option nat),
    find_columns df l a
    = (or_else l (first_header "liability" df),
       or_else a (first_header "asset" df)).
Proof.
  induction df as [|row df IH]; intros l a.
  - now destruct l, a.
  - cbn [find_columns]. rewrite scan_row_first, !first_header_cons.
    rewrite !or_else_assoc.
    destruct (or_else l (first_in "liability" (indexed_from 0 row))) as [l'|];
      destruct (or_else a (first_in "asset" (indexed_from 0 row))) as [a'|];
      try apply IH.
    reflexivity.
Qed.

(** C2 (amended).  Column discovery is label-driven, but only the
    first sheet is scanned, and only below its first line, which is read
    as the names of the columns: the two columns are those of the first
    "liability" and the first "asset" header among the rows of WB in
    reading order, a header being a cell whose text is the token once
    stripped and put in lower case; the columns and the data start row
    found in WB are then applied to both sheets.  Whatever the first line
    of WB holds, headers that are found nowhere below it are not found. *)
Theorem column_discovery_scans_first_sheet :
  forall (wb_lines dbib_lines : worksheet),
    let df1_wb := rows_of_worksheet wb_lines in
    let df1_dbib := rows_of_worksheet dbib_lines in
    find_columns df1_wb None None
    = (first_header "liability" df1_wb, first_header "asset" df1_wb)
    /\ (forall (liability_col asset_col data_start_row : nat),
          first_header "liability" df1_wb = Some liability_col ->
          first_header "asset" df1_wb = Some asset_col ->
          find_data_start df1_wb 0 liability_col asset_col
          = Ok (Some data_start_row) ->
          extract_excel df1_wb df1_dbib
          = (wb <- extract_sheet liability_col asset_col data_start_row df1_wb ;;
             dbib <- extract_sheet liability_col asset_col data_start_row df1_dbib ;;
             Ok (inr (wb ++ dbib)%list)))
    /\ (forall (first_line : list cell) (below : worksheet),
          wb_lines = first_line :: below ->
          first_header "liability" below = None
          \/ first_header "asset" below = None ->
          extract_excel df1_wb df1_dbib
          = Ok (inl "Could not find Liability and Asset columns"))
    /\ is_header "liability" (Str " LIABILITY ") = true
    /\ is_header "liability" (Str "Total Liability") = false.
Proof.
  intros wb_lines dbib_lines wb dbib. split; [apply find_columns_first | split; [| split]].
  - intros lc ac start Hl Ha Hs. unfold extract_excel.
    rewrite find_columns_first, Hl, Ha. cbn [or_else]. rewrite Hs. reflexivity.
  - intros first_line below -> H. unfold wb, rows_of_worksheet. cbn [tl].
    unfold extract_excel. rewrite find_columns_first. cbn [or_else].
    destruct H as [H | H]; rewrite H;
      [| destruct (first_header "liability" below)]; reflexivity.
  - split; vm_compute; reflexivity.
Qed.

(** C2 as the spec words it fails on two sheets laid out differently:
    DBIB has its "Asset" column before its "Liability" column, and its row
    (Asset 3, Liability 4) is extracted with the columns of WB, as
    (Liability 3, Asset 4). *)
Lemma per_sheet_discovery_counterexample :
  let df1_wb := [ [Str "Item"; Str "Liability"; Str "Asset"];
                  [Str "A"; Num (F64.of_Z 1); Num (F64.of_Z 2)] ] in
  let df1_dbib := [ [Str "Item"; Str "Asset"; Str "Liability"];
                    [Str "B"; Num (F64.of_Z 3); Num (F64.of_Z 4)] ] in
  first_header "liability" df1_dbib = Some 2%nat
  /\ first_header "asset" df1_dbib = Some 1%nat
  /\ extract_excel df1_wb df1_dbib
     = Ok (inr [(F64.of_Z 1, F64.of_Z 2); (F64.of_Z 3, F64.of_Z 4)])
  /\ spec_extract_per_sheet df1_wb df1_dbib
     = Ok (inr [(F64.of_Z 1, F64.of_Z 2); (F64.of_Z 4, F64.of_Z 3)])
  /\ extract_excel df1_wb df1_dbib <> spec_extract_per_sheet df1_wb df1_dbib.
Proof.
  repeat split; try (vm_compute; reflexivity).
  vm_compute. discriminate.
Qed.

(** ** Failures *)

(** C5 (amended).  An attempt that fails, by a missing header, by
    missing data rows, by missing inputs or by any exception raised in the
    body, returns the state with nothing changed but its validation entry,
    which holds the description of the failure and nothing else: there is
    no entry for the match.  The verdict handed to the recorder is
    [False], and the line written to the log says "wrong". *)
Theorem failures_are_recorded_as_wrong :
  forall (fs : files) (now : datetime) (log : string) (st : state) (f : failure),
    attempt_fails fs st f ->
    call fs now log st
    = (State (file_type st) (file_path st) (excel_outputs st)
             (docint_df st) (table_output st) (Some (ValidationError f)),
       log ++ "[" ++ strftime now ++ "] "
           ++ Text.basename (get_or (file_path st) "") ++ " | wrong" ++ newline)
    /\ option_map error_entry (state_validation (fst (call fs now log st)))
       = Some (Some f)
    /\ option_map match_entry (state_validation (fst (call fs now log st)))
       = Some None
    /\ snd (attempt fs st) = Some false.
Proof.
  intros fs now log st f H.
  assert (A : attempt fs st = (ValidationError f, Some false)).
  { unfold attempt.
    destruct H as [path out wb dbib X P O W D Hd
                  | path out wb dbib l a X P O W D Hl Ha Hs
                  | M I
                  | e R].
    - unfold try_body. fold (is_excel st). rewrite X.
      unfold excel_validation. rewrite P, O. simpl. rewrite W, D. simpl.
      unfold extract_excel. rewrite find_columns_first. cbn [or_else].
      destruct Hd as [Hd | Hd]; rewrite Hd;
        [| destruct (first_header "liability" wb)]; reflexivity.
    - unfold try_body. fold (is_excel st). rewrite X.
      unfold excel_validation. rewrite P, O. simpl. rewrite W, D. simpl.
      unfold extract_excel. rewrite find_columns_first, Hl, Ha. cbn [or_else].
      rewrite Hs. reflexivity.
    - unfold try_body.
      destruct ((get_or (file_type st) "unknown" =? "xlsx")%string
                || (get_or (file_type st) "unknown" =? "xls")%string) eqn:X.
      + exfalso. unfold is_msg in M. apply String.eqb_eq in M.
        rewrite M in X. discriminate X.
      + fold (is_msg st). rewrite M. unfold msg_validation.
        destruct I as [I | [I | I]]; rewrite I;
          [| destruct (docint_df st) | destruct (docint_df st)]; reflexivity.
    - now rewrite R. }
  assert (C : call fs now log st
              = (State (file_type st) (file_path st) (excel_outputs st)
                       (docint_df st) (table_output st) (Some (ValidationError f)),
                 log ++ "[" ++ strftime now ++ "] "
                     ++ Text.basename (get_or (file_path st) "") ++ " | wrong"
                     ++ newline)).
  { unfold call. rewrite A. unfold log_validation_result, log_line, status_of.
    cbn [truthy set_validation]. now rewrite !append_assoc. }
  rewrite C. cbn [fst state_validation option_map error_entry match_entry].
  rewrite A. repeat split.
Qed.

(** C5 as the spec words it fails on a workbook without an "Asset"
    header: the validation entry of the state returned holds the message
    of the failure and no match at all, so that the attempt does not
    resolve to a match that is [False]. *)
Lemma failure_stores_no_match :
  let st := fst (call sample_files sample_now "" sample_state) in
  option_map error_entry (state_validation st)
  = Some (Some (Message "Could not find Liability and Asset columns"))
  /\ option_map match_entry (state_validation st) = Some None
  /\ option_map match_entry (state_validation st) <> Some (Some (Some false)).
Proof.
  repeat split; try (vm_compute; reflexivity).
  vm_compute. discriminate.
Qed.

(** ** Exact mode *)

(** C3 on a failing input.  The workbook and the machine table hold the
    same row (-0.0000001, 1).  The extractor rounds the first value to a
    zero, which is formatted "0.000000"; the value of the table is not
    rounded before the test for zero and is formatted "-0.000000".  The two
    sides are equal after rounding and zero-normalization, yet exact mode
    answers [False]. *)
Theorem exact_mode_negative_zero_mismatch :
  let x := F64.of_ratio (-1) 10000000 in
  let df1_wb := [ [Str "Item"; Str "Liability"; Str "Asset"];
                  [Str "A"; Num x; Num (F64.of_Z 1)] ] in
  let df1_dbib := [ [Str "Item"; Str "Liability"; Str "Asset"] ] in
  let df2 := DataFrame ["RIDER_VALUE"; "ASSET_VALUE"] [[Num x; Num (F64.of_Z 1)]] in
  let excel_data := [(F64.neg_zero, F64.of_Z 1)] in
  extract_excel df1_wb df1_dbib = Ok (inr excel_data)
  /\ map (fun r => (normalized (fst r), normalized (snd r))) excel_data
     = map (fun r => (normalized (fst r), normalized (snd r))) [(x, F64.of_Z 1)]
  /\ exact_compare (excel_frame excel_data) df2
     = Ok (Comparison
             (Some false)
             (Some "cad7462d1d7b505048da8bbda05cc9e54e91846bc77dc58517d49df3f4e84f60")
             (Some "cf28a3af89d030c5800f31cd8e4928fa0191f4c80f23727af92247830ee96885")
             (Some "0.000000,1.000000") (Some "-0.000000,1.000000")).
Proof.
  repeat split; vm_compute; reflexivity.
Qed.

(** * The properties on the worked inputs *)

Lemma fuzzy_percentage_on_float_columns_witness :
  fuzzy_compare (excel_frame (sample_rows 10)) (table_frame (sample_rows_off 2 10))
  = Ok (Comparison (Some true) None None None None)
  /\ fuzzy_compare (excel_frame (sample_rows 10)) (table_frame (sample_rows_off 3 10))
     = Ok (Comparison (Some false) None None None None).
Proof.
  split.
  - destruct (fuzzy_percentage_on_float_columns
                (excel_frame (sample_rows 10)) (table_frame (sample_rows_off 2 10))
                (sample_rows 10) (sample_rows_off 2 10) eq_refl eq_refl)
      as [H [H8 _]].
    + apply Nat.leb_le. reflexivity.
    + apply Nat.ltb_lt. reflexivity.
    + rewrite H. rewrite H8; reflexivity.
  - destruct (fuzzy_percentage_on_float_columns
                (excel_frame (sample_rows 10)) (table_frame (sample_rows_off 3 10))
                (sample_rows 10) (sample_rows_off 3 10) eq_refl eq_refl)
      as [H [_ H7]].
    + apply Nat.leb_le. reflexivity.
    + apply Nat.ltb_lt. reflexivity.
    + rewrite H. rewrite H7; reflexivity.
Defined.

Lemma tolerance_is_strict_on_floats_witness :
  within_tolerance (Num tolerance) (Num F64.zero) = Ok false
  /\ fuzzy_step (excel_frame [(tolerance, F64.zero)])
                (table_frame [(F64.zero, F64.zero)]) (O, O) 0
     = (O, 1%nat).
Proof.
  destruct tolerance_is_strict_on_floats as [H1 [_ H3]]. split.
  - apply H1. reflexivity.
  - exact (H3 (excel_frame [(tolerance, F64.zero)])
              (table_frame [(F64.zero, F64.zero)])
              [(tolerance, F64.zero)] [(F64.zero, F64.zero)]
              O O O tolerance F64.zero F64.zero F64.zero
              eq_refl eq_refl eq_refl eq_refl).
Defined.


Lemma column_discovery_scans_first_sheet_witness :
  find_columns (rows_of_worksheet sample_wb_lines) None None
  = (Some 1%nat, Some 2%nat)
  /\ extract_excel (rows_of_worksheet sample_wb_lines)
                   (rows_of_worksheet sample_dbib_lines_swapped)
     = Ok (inr [(F64.of_Z 1, F64.of_Z 2); (F64.of_Z 3, F64.of_Z 4)])
  /\ extract_excel (rows_of_worksheet sample_wb) (rows_of_worksheet sample_wb)
     = Ok (inl "Could not find Liability and Asset columns").
Proof.
  destruct (column_discovery_scans_first_sheet
              sample_wb_lines sample_dbib_lines_swapped) as [H1 [H2 _]].
  destruct (column_discovery_scans_first_sheet sample_wb sample_wb)
    as [_ [_ [H3 _]]].
  split; [| split].
  - rewrite H1. reflexivity.
  - rewrite (H2 1%nat 2%nat 1%nat eq_refl eq_refl eq_refl). reflexivity.
  - apply (H3 [Str "Item"; Str "Liability"; Str "Asset"]
              [[Str "A"; Num (F64.of_Z 1); Num (F64.of_Z 2)]] eq_refl).
    left. reflexivity.
Defined.

Lemma failures_are_recorded_as_wrong_witness :
  call sample_files sample_now "" sample_state
  = (State (Some "xlsx") (Some "/data/report.xlsx") (Some (Some "out.csv"))
           None None
           (Some (ValidationError
                    (Message "Could not find Liability and Asset columns"))),
     "[2024-05-01 09:30:00] report.xlsx | wrong" ++ newline).
Proof.
  refine (proj1 (failures_are_recorded_as_wrong
                   sample_files sample_now "" sample_state _ _)).
  apply (fails_missing_header sample_files sample_state
           "/data/report.xlsx" "out.csv" sample_wb_no_asset sample_wb);
    try reflexivity.
  right. reflexivity.
Defined.

(** * Further properties of the node *)

(** ** Fuzzy mode: the counters *)

Lemma fuzzy_step_bounds (df1 df2 : frame) (m t i : nat) :
  let '(m', t') := fuzzy_step df1 df2 (m, t) i in
  (m <= m' /\ t <= t' /\ m' - m <= t' - t /\ t' - t <= 1)%nat.
Proof.
  unfold fuzzy_step. destruct (compare_row df1 df2 i) as [[|]|e]; lia.
Qed.

Lemma fuzzy_fold_bounds (df1 df2 : frame) :
  forall (n k m t : nat),
    let '(m', t') := fold_left (fuzzy_step df1 df2) (seq k n) (m, t) in
    (m <= m' /\ t <= t' /\ m' - m <= t' - t /\ t' - t <= n)%nat.
Proof.
  induction n as [|n IH]; intros k m t.
  - simpl. lia.
  - cbn [seq fold_left].
    pose proof (fuzzy_step_bounds df1 df2 m t k) as S1.
    destruct (fuzzy_step df1 df2 (m, t) k) as [m1 t1].
    specialize (IH (S k) m1 t1).
    destruct (fold_left (fuzzy_step df1 df2) (seq (S k) n) (m1, t1)) as [m' t'].
    lia.
Qed.

(** X1.  Whatever the two frames hold, the loop never counts more matching
    rows than comparisons, nor more comparisons than the common number of
    rows: the percentage is taken over the rows that could be compared. *)
Theorem fuzzy_counters_bounded :
  forall df1 df2 : frame,
    fuzzy_compare df1 df2
    = (if (abs_diff (List.length (rows df1)) (List.length (rows df2)) <=? 2)%nat
       then
         if (0 <? snd (fuzzy_counters df1 df2))%nat
         then Ok (Comparison
                    (Some (sufficient (fst (fuzzy_counters df1 df2))
                                      (snd (fuzzy_counters df1 df2))))
                    None None None None)
         else exact_compare df1 df2
       else exact_compare df1 df2)
    /\ (fst (fuzzy_counters df1 df2) <= snd (fuzzy_counters df1 df2))%nat
    /\ (snd (fuzzy_counters df1 df2)
        <= Nat.min (List.length (rows df1)) (List.length (rows df2)))%nat.
Proof.
  intros df1 df2. split.
  { unfold fuzzy_compare, fuzzy_counters. now destruct (fold_left _ _ _). }
  unfold fuzzy_counters.
  pose proof (fuzzy_fold_bounds df1 df2
                (Nat.min (List.length (rows df1)) (List.length (rows df2))) 0 0 0) as H.
  destruct (fold_left _ _ _) as [m t]. simpl. lia.
Qed.

(** ** Fuzzy mode: a missing column *)

Lemma getitem_missing (df : frame) (row : list cell) (name : string) :
  index_of name (columns df) = None -> getitem df row name = Raise (KeyError name).
Proof. intros H. unfold getitem. now rewrite H. Qed.

(** When one of the four columns is missing, the body of the [try] raises
    for every row. *)
Lemma compare_row_missing (df1 df2 : frame) (i : nat) :
  index_of "Liability" (columns df1) = None
  \/ index_of "Asset" (columns df1) = None
  \/ index_of "RIDER_VALUE" (columns df2) = None
  \/ index_of "ASSET_VALUE" (columns df2) = None ->
  exists e, compare_row df1 df2 i = Raise e.
Proof.
  intros H. unfold compare_row.
  destruct (iloc_row df1 i) as [r1|e]; [| now exists e]. cbn [bind].
  destruct (getitem df1 r1 "Liability") as [c1|e] eqn:G1; [| now exists e].
  cbn [bind].
  destruct (getitem df1 r1 "Asset") as [c2|e] eqn:G2; [| now exists e].
  cbn [bind].
  destruct (iloc_row df2 i) as [r2|e]; [| now exists e]. cbn [bind].
  destruct (getitem df2 r2 "RIDER_VALUE") as [c3|e] eqn:G3; [| now exists e].
  cbn [bind].
  destruct (getitem df2 r2 "ASSET_VALUE") as [c4|e] eqn:G4; [| now exists e].
  exfalso. destruct H as [H | [H | [H | H]]].
  - rewrite (getitem_missing _ _ _ H) in G1. discriminate.
  - rewrite (getitem_missing _ _ _ H) in G2. discriminate.
  - rewrite (getitem_missing _ _ _ H) in G3. discriminate.
  - rewrite (getitem_missing _ _ _ H) in G4. discriminate.
Qed.

Lemma fuzzy_fold_all_raise (df1 df2 : frame) :
  (forall i, exists e, compare_row df1 df2 i = Raise e) ->
  forall (l : list nat) (c : nat * nat),
    fold_left (fuzzy_step df1 df2) l c = c.
Proof.
  intros R. induction l as [|i l IH]; intros [m t]; [reflexivity |].
  cbn [fold_left]. unfold fuzzy_step at 2.
  destruct (R i) as [e ->]. apply IH.
Qed.

Lemma in_unique (name : string) (names : list string) :
  In name (unique names) <-> In name names.
Proof.
  induction names as [|n names IH]; [reflexivity |]. cbn [unique In].
  rewrite filter_In, IH, negb_true_iff, String.eqb_neq.
  destruct (String.eqb_spec n name) as [-> | N]; [tauto |].
  split; [tauto |]. intros [E | I]; [now elim N | right; split; congruence].
Qed.

(** The missing columns are the names asked for that are no column. *)
Lemma in_missing_columns (df : frame) (names : list string) (name : string) :
  In name (missing_columns df names)
  <-> In name names /\ index_of name (columns df) = None.
Proof.
  unfold missing_columns. rewrite in_unique, filter_In.
  destruct (index_of name (columns df)); intuition congruence.
Qed.

(** A name that the frame does not have makes [df[names]] raise, before
    any row is read. *)
Lemma select_missing (df : frame) (names : list string) (name : string) :
  In name names -> index_of name (columns df) = None ->
  select df names = Raise (KeyError (NotInIndex names (missing_columns df names))).
Proof.
  intros I H. unfold select.
  destruct (missing_columns df names) as [|m ms] eqn:M; [| reflexivity].
  exfalso. assert (In name (missing_columns df names))
    by (apply in_missing_columns; now split).
  rewrite M in *. contradiction.
Qed.

Lemma exact_compare_missing (df1 df2 : frame) :
  index_of "Liability" (columns df1) = None
  \/ index_of "Asset" (columns df1) = None
  \/ index_of "RIDER_VALUE" (columns df2) = None
  \/ index_of "ASSET_VALUE" (columns df2) = None ->
  exists e, exact_compare df1 df2 = Raise e.
Proof.
  intros H. unfold exact_compare.
  destruct (hash_columns df1 ["Liability"; "Asset"]) as [h1|e] eqn:S1;
    [| now exists e].
  cbn [bind].
  destruct (hash_columns df2 ["RIDER_VALUE"; "ASSET_VALUE"]) as [h2|e] eqn:S2;
    [| now exists e].
  exfalso. unfold hash_columns in S1, S2. destruct H as [H | [H | [H | H]]].
  - rewrite (select_missing df1 _ "Liability") in S1;
      [discriminate | now left | exact H].
  - rewrite (select_missing df1 _ "Asset") in S1;
      [discriminate | now right; left | exact H].
  - rewrite (select_missing df2 _ "RIDER_VALUE") in S2;
      [discriminate | now left | exact H].
  - rewrite (select_missing df2 _ "ASSET_VALUE") in S2;
      [discriminate | now right; left | exact H].
Qed.

(** X2.  When either frame lacks one of its two compared columns, no row
    is compared, fuzzy mode goes to exact mode whatever the row counts, and
    exact mode raises: such a message can never be validated. *)
Theorem fuzzy_missing_column_raises :
  forall df1 df2 : frame,
    index_of "Liability" (columns df1) = None
    \/ index_of "Asset" (columns df1) = None
    \/ index_of "RIDER_VALUE" (columns df2) = None
    \/ index_of "ASSET_VALUE" (columns df2) = None ->
    fuzzy_compare df1 df2 = exact_compare df1 df2
    /\ exists e, fuzzy_compare df1 df2 = Raise e.
Proof.
  intros df1 df2 H.
  assert (E : fuzzy_compare df1 df2 = exact_compare df1 df2).
  { unfold fuzzy_compare.
    rewrite (fuzzy_fold_all_raise df1 df2 (fun i => compare_row_missing df1 df2 i H)).
    cbn [Nat.ltb Nat.leb]. now destruct (_ <=? 2)%nat. }
  split; [exact E |]. rewrite E. now apply exact_compare_missing.
Qed.

(** X3.  [hash_columns] raises [KeyError] when a requested column is
    missing, before any row is read and whatever the rows hold; the error
    is built from the names asked for and the missing ones, which are the
    names asked for that are no column of the frame. *)
Theorem hash_columns_missing_column :
  forall (df : frame) (names : list string) (name : string),
    In name names ->
    index_of name (columns df) = None ->
    hash_columns df names
    = Raise (KeyError (NotInIndex names (missing_columns df names)))
    /\ forall key,
         In key (missing_columns df names)
         <-> In key names /\ index_of key (columns df) = None.
Proof.
  intros df names name I H. split.
  - unfold hash_columns. now rewrite (select_missing df names name I H).
  - intros key. apply in_missing_columns.
Qed.

(** ** Fuzzy mode: the percentage *)

(** The quotient of a positive integer by itself is the float [1.0]. *)
Lemma div_core_self (a : positive) :
  SFdiv_core_binary F64.prec F64.emax (Zpos a) 0 (Zpos a) 0
  = (9007199254740992, -53, loc_Exact).
Proof.
  unfold SFdiv_core_binary.
  replace (Zdigits2 (Zpos a) + 0 - (Zdigits2 (Zpos a) + 0)) with 0 by lia.
  change (Z.min (fexp F64.prec F64.emax 0) (0 - 0)) with (-53).
  change (0 - 0 - -53) with 53.
  cbv beta iota zeta.
  rewrite Z.shiftl_mul_pow2 by lia.
  destruct (Z.div_eucl (Zpos a * 2 ^ 53) (Zpos a)) as [q r] eqn:E.
  assert (Q : q = (Zpos a * 2 ^ 53) / Zpos a) by (unfold Z.div; now rewrite E).
  assert (R : r = (Zpos a * 2 ^ 53) mod Zpos a) by (unfold Z.modulo; now rewrite E).
  rewrite Z.mul_comm in Q, R.
  rewrite Z.div_mul in Q by lia. rewrite Z.mod_mul in R by lia.
  subst q r. unfold new_location. destruct (Z.even (Zpos a)); reflexivity.
Qed.

Lemma of_ratio_self (a : positive) : F64.of_ratio (Zpos a) (Zpos a) = F64.of_Z 1.
Proof.
  unfold F64.of_ratio, F64.div, SFdiv. rewrite div_core_self.
  vm_compute. reflexivity.
Qed.

Lemma sufficient_all (n : nat) : (0 < n)%nat -> sufficient n n = true.
Proof.
  intros H. unfold sufficient, match_percentage.
  destruct (Z.of_nat n) as [|a|a] eqn:E; try lia.
  rewrite of_ratio_self. vm_compute. reflexivity.
Qed.

(** On numeric columns with close row counts and at least one common row,
    fuzzy mode answers by the percentage of matching rows. *)
Lemma fuzzy_compare_numeric (df1 df2 : frame) (a b : dataset) :
  numeric_columns df1 "Liability" "Asset" = Some a ->
  numeric_columns df2 "RIDER_VALUE" "ASSET_VALUE" = Some b ->
  (abs_diff (List.length a) (List.length b) <= 2)%nat ->
  (0 < Nat.min (List.length a) (List.length b))%nat ->
  fuzzy_compare df1 df2
  = Ok (Comparison
          (Some (sufficient (count_matching a b)
                            (Nat.min (List.length a) (List.length b))))
          None None None None).
Proof.
  intros N1 N2 D P. unfold fuzzy_compare.
  rewrite (fuzzy_loop_result df1 df2 a b N1 N2).
  rewrite <- (length_a df1 a N1), <- (length_b df2 b N2).
  destruct (Nat.leb_spec (abs_diff (List.length a) (List.length b)) 2); [| lia].
  now destruct (Nat.ltb_spec 0 (Nat.min (List.length a) (List.length b))); [| lia].
Qed.

(** X4.  On numeric columns with close row counts: when every compared
    row matches the verdict is [True], for any number of rows, and when no
    row matches it is [False]. *)
Theorem fuzzy_all_or_nothing :
  forall (df1 df2 : frame) (a b : dataset),
    numeric_columns df1 "Liability" "Asset" = Some a ->
    numeric_columns df2 "RIDER_VALUE" "ASSET_VALUE" = Some b ->
    (abs_diff (List.length a) (List.length b) <= 2)%nat ->
    (0 < Nat.min (List.length a) (List.length b))%nat ->
    (count_matching a b = Nat.min (List.length a) (List.length b) ->
     fuzzy_compare df1 df2 = Ok (Comparison (Some true) None None None None))
    /\ (count_matching a b = O ->
        fuzzy_compare df1 df2 = Ok (Comparison (Some false) None None None None)).
Proof.
  intros df1 df2 a b N1 N2 D P.
  rewrite (fuzzy_compare_numeric df1 df2 a b N1 N2 D P).
  split; intros ->; [now rewrite sufficient_all | reflexivity].
Qed.

Lemma threshold_agrees_checked : forallb threshold_agrees (seq 1 200) = true.
Proof. vm_compute. reflexivity. Qed.

(** X5.  For up to 200 compared rows the test [m / n * 100 >= 80], done in
    binary64 arithmetic, is exactly the rule "at least four rows in five":
    rounding never moves a verdict across the threshold. *)
Theorem percentage_threshold_is_four_fifths :
  forall m n : nat,
    (0 < n <= 200)%nat -> (m <= n)%nat ->
    sufficient m n = (4 * n <=? 5 * m)%nat.
Proof.
  intros m n Hn Hm.
  pose proof (proj1 (forallb_forall _ _) threshold_agrees_checked) as A.
  assert (B : threshold_agrees n = true) by (apply A, in_seq; lia).
  unfold threshold_agrees in B. rewrite forallb_forall in B.
  apply eqb_prop, B, in_seq. lia.
Qed.

(** ** Fuzzy mode: a value against itself *)

Lemma sub_self (x : F64.float) :
  F64.sub x x = if is_finite x then F64.zero else F64.nan.
Proof.
  destruct x as [[|]|[|]| |s m e]; try reflexivity.
  unfold F64.sub, SFsub. now rewrite Z.sub_diag.
Qed.

(** X6.  A number is within tolerance of itself exactly when it is finite:
    an empty cell ([NaN]) or an infinity never matches, not even the same
    value on the other side. *)
Theorem within_tolerance_of_itself :
  forall x : F64.float,
    within_tolerance (Num x) (Num x) = Ok (is_finite x).
Proof.
  intros x. unfold within_tolerance. rewrite sub_self.
  now destruct (is_finite x).
Qed.

Lemma count_matching_self (a : dataset) :
  forallb finite_row a = true -> count_matching a a = List.length a.
Proof.
  induction a as [|[x y] a IH]; [reflexivity |].
  cbn [forallb count_matching List.length]. unfold finite_row at 1. cbn [fst snd].
  intros H. apply andb_prop in H. destruct H as [F R].
  apply andb_prop in F. destruct F as [Fx Fy].
  unfold row_match, field_match. cbn [fst snd]. rewrite !sub_self, Fx, Fy.
  cbn. now rewrite (IH R).
Qed.

(** X7.  A dataset of finite numbers, present on both sides, passes fuzzy
    mode whatever its size. *)
Theorem fuzzy_accepts_identical_finite_datasets :
  forall (df1 df2 : frame) (a : dataset),
    numeric_columns df1 "Liability" "Asset" = Some a ->
    numeric_columns df2 "RIDER_VALUE" "ASSET_VALUE" = Some a ->
    a <> [] ->
    forallb finite_row a = true ->
    fuzzy_compare df1 df2 = Ok (Comparison (Some true) None None None None).
Proof.
  intros df1 df2 a N1 N2 NE F.
  assert (L : (0 < List.length a)%nat) by (destruct a; [now elim NE | simpl; lia]).
  rewrite (fuzzy_compare_numeric df1 df2 a a N1 N2).
  - rewrite (count_matching_self a F), Nat.min_id. now rewrite sufficient_all.
  - unfold abs_diff. lia.
  - rewrite Nat.min_id. exact L.
Qed.

(** ** The extractor: blank cells, texts and short rows *)

Lemma to_float_raises (c : cell) (e : exn) : to_float c = Raise e -> e = ValueError.
Proof.
  destruct c as [x|s|n]; simpl; [discriminate | | discriminate].
  destruct (F64.of_string s); [discriminate | congruence].
Qed.

Lemma value_or_zero_raises (c : cell) (e : exn) :
  value_or_zero c = Raise e -> e = ValueError /\ notna c = true.
Proof.
  unfold value_or_zero. destruct (notna c); [| discriminate].
  intros H. split; [exact (to_float_raises c e H) | reflexivity].
Qed.

(** What the body of the row loop does with a row that has both cells. *)
Lemma extract_row_in_range (liability_col asset_col : nat) (row : list cell)
    (c1 c2 : cell) :
  nth_error row liability_col = Some c1 ->
  nth_error row asset_col = Some c2 ->
  extract_row liability_col asset_col row
  = Ok (if isna c1 && isna c2 then None
        else if Text.contains "Total" (row_label row)
                && negb (Text.contains "HY Total" (row_label row)) then None
        else match value_or_zero c1, value_or_zero c2 with
             | Ok l, Ok a =>
                 if F64.eqb (F64.round6 l) F64.zero
                    && F64.eqb (F64.round6 a) F64.zero
                    && (row_label row =? "")%string
                 then None
                 else Some (F64.round6 l, F64.round6 a)
             | _, _ => None
             end).
Proof.
  intros H1 H2. unfold extract_row, iloc. rewrite H1, H2. cbn [bind].
  assert (B : (if isna c1 then Ok (isna c2) else Ok false)
              = Ok (isna c1 && isna c2)) by now destruct (isna c1).
  rewrite B. cbn [bind]. destruct (isna c1 && isna c2); [reflexivity |].
  destruct (Text.contains "Total" (row_label row)
            && negb (Text.contains "HY Total" (row_label row))); [reflexivity |].
  destruct (value_or_zero c1) as [l|e1] eqn:V1.
  - destruct (value_or_zero c2) as [a|e2] eqn:V2; cbn [bind].
    + now destruct (F64.eqb (F64.round6 l) F64.zero
                    && F64.eqb (F64.round6 a) F64.zero
                    && (row_label row =? "")%string).
    + now destruct (value_or_zero_raises c2 e2 V2) as [-> _].
  - cbn [bind]. now destruct (value_or_zero_raises c1 e1 V1) as [-> _].
Qed.

(** A text that strips to nothing is white space only. *)
Lemma rstrip_blank (s : string) : Text.rstrip s = "" -> blank s = true.
Proof.
  induction s as [|c s IH]; [reflexivity |]. cbn [Text.rstrip blank].
  destruct (Text.rstrip s) as [|c' r]; [| discriminate].
  destruct (Text.is_space c); [intros _; now rewrite IH | discriminate].
Qed.

Lemma lstrip_blank (s : string) : blank (Text.lstrip s) = true -> blank s = true.
Proof.
  induction s as [|c s IH]; [reflexivity |]. cbn [Text.lstrip].
  destruct (Text.is_space c) eqn:C; [| trivial].
  intros H. cbn [blank]. now rewrite C, IH.
Qed.

Lemma strip_blank (s : string) : Text.strip s = "" -> blank s = true.
Proof. intros H. now apply lstrip_blank, rstrip_blank. Qed.

Lemma blank_append (a b : string) : blank (a ++ b) = blank a && blank b.
Proof.
  induction a as [|c a IH]; [reflexivity |]. cbn [append blank].
  now rewrite IH, andb_assoc.
Qed.

Lemma string_of_N_not_blank (n : Z) : blank (F64.string_of_N n) = false.
Proof.
  unfold F64.string_of_N, NilZero.string_of_uint.
  destruct (N.to_uint (Z.to_N n)); reflexivity.
Qed.

Lemma repr_finite_not_blank (m : positive) (e : Z) :
  blank (F64.repr_finite m e) = false.
Proof.
  unfold F64.repr_finite.
  destruct (F64.shortest _ _ _ _ _ _) as [d0 s0]. destruct (F64.trim _ _ _) as [d s].
  cbv zeta.
  destruct ((_ <=? -4) || (16 <? _)).
  - rewrite !blank_append. change (blank "e") with false.
    now rewrite !andb_false_r.
  - destruct (_ <=? 0); [reflexivity |].
    destruct (_ <=? _).
    + rewrite !blank_append. change (blank ".0") with false.
      now rewrite !andb_false_r.
    + rewrite !blank_append. change (blank ".") with false.
      now rewrite !andb_false_r.
Qed.

Lemma repr_not_blank (x : F64.float) : blank (F64.repr x) = false.
Proof.
  destruct x as [[|]|[|]| |s m e]; try reflexivity.
  unfold F64.repr. rewrite blank_append, repr_finite_not_blank. apply andb_false_r.
Qed.

(** What is written in a cell is not white space only, unless the cell is
    a text. *)
Lemma str_not_blank (c : cell) :
  blank (str c) = true -> exists s, c = Str s /\ blank s = true.
Proof.
  destruct c as [x|s|n]; cbn [str]; intros B.
  - now rewrite repr_not_blank in B.
  - now exists s.
  - unfold string_of_Z in B. destruct (n <? 0).
    + discriminate B.
    + now rewrite string_of_N_not_blank in B.
Qed.

(** A cell that is there and reads as a number is not white space. *)
Lemma value_is_written (c : cell) (l : F64.float) :
  notna c = true -> value_or_zero c = Ok l -> Text.strip (str c) <> "".
Proof.
  intros N V E. unfold value_or_zero in V. rewrite N in V.
  destruct (str_not_blank c (strip_blank _ E)) as [s [-> _]].
  cbn [str] in E. cbn [to_float] in V. unfold F64.of_string in V.
  rewrite E in V. discriminate V.
Qed.

(** In a row without a label every cell is empty or white space. *)
Lemma unlabelled_cells (row : list cell) :
  row_label row = "" ->
  forall (i : nat) (c : cell),
    nth_error row i = Some c -> notna c = false \/ Text.strip (str c) = "".
Proof.
  induction row as [|c0 row IH]; intros L i c H; [now destruct i |].
  cbn [row_label] in L.
  destruct (notna c0) eqn:N0; cbn [andb] in L.
  - destruct (String.eqb_spec (Text.strip (str c0)) "") as [E | NE]; cbn [negb] in L.
    + destruct i as [|i]; [injection H as <-; now right | exact (IH L i c H)].
    + now elim NE.
  - destruct i as [|i]; [injection H as <-; now left | exact (IH L i c H)].
Qed.

(** X28.  A row that is not blank, that the filter for totals lets
    through and whose two value cells read as numbers is always appended,
    rounded, also when both values are zero: its label is never empty,
    because a value cell that is there is itself a cell of the row that is
    not empty, so that the test for two zeros and no label never holds. *)
Theorem rows_with_values_are_always_kept :
  forall (liability_col asset_col : nat) (row : list cell) (c1 c2 : cell)
         (l a : F64.float),
    nth_error row liability_col = Some c1 ->
    nth_error row asset_col = Some c2 ->
    isna c1 && isna c2 = false ->
    Text.contains "Total" (row_label row)
      && negb (Text.contains "HY Total" (row_label row)) = false ->
    value_or_zero c1 = Ok l ->
    value_or_zero c2 = Ok a ->
    row_label row <> ""
    /\ extract_row liability_col asset_col row
       = Ok (Some (F64.round6 l, F64.round6 a)).
Proof.
  intros lc ac row c1 c2 l a H1 H2 B T V1 V2.
  assert (L : row_label row <> "").
  { intros L. unfold isna in B.
    destruct (notna c1) eqn:N1.
    - destruct (unlabelled_cells row L lc c1 H1) as [N | E]; [congruence |].
      exact (value_is_written c1 l N1 V1 E).
    - destruct (notna c2) eqn:N2; [| discriminate B].
      destruct (unlabelled_cells row L ac c2 H2) as [N | E]; [congruence |].
      exact (value_is_written c2 a N2 V2 E). }
  split; [exact L |]. now apply (extract_row_kept lc ac row c1 c2 l a).
Qed.

(** X8.  In a row that is kept, a blank value cell counts as zero: a row
    with a label, a blank liability and a number as asset gives
    (0, asset), rounded. *)
Theorem blank_value_defaults_to_zero :
  forall (liability_col asset_col : nat) (row : list cell) (c1 c2 : cell)
         (a : F64.float),
    nth_error row liability_col = Some c1 ->
    nth_error row asset_col = Some c2 ->
    isna c1 = true ->
    notna c2 = true ->
    to_float c2 = Ok a ->
    Text.contains "Total" (row_label row)
      && negb (Text.contains "HY Total" (row_label row)) = false ->
    row_label row <> "" ->
    extract_row liability_col asset_col row = Ok (Some (F64.zero, F64.round6 a))
    /\ extract_row asset_col liability_col row
       = Ok (Some (F64.round6 a, F64.zero)).
Proof.
  intros lc ac row c1 c2 a H1 H2 B N V T L.
  assert (V1 : value_or_zero c1 = Ok F64.zero).
  { unfold value_or_zero. unfold isna in B. now destruct (notna c1). }
  assert (V2 : value_or_zero c2 = Ok a) by (unfold value_or_zero; now rewrite N).
  assert (E : (row_label row =? "")%string = false)
    by now apply String.eqb_neq.
  assert (N2 : isna c2 = false) by (unfold isna; now rewrite N).
  split.
  - rewrite (extract_row_in_range lc ac row c1 c2 H1 H2).
    rewrite B, N2, T, V1, V2, E. cbn [andb]. now rewrite !andb_false_r.
  - rewrite (extract_row_in_range ac lc row c2 c1 H2 H1).
    rewrite B, N2, T, V1, V2, E. cbn [andb]. now rewrite !andb_false_r.
Qed.

(** X9.  A row with a text that is not a number in one of the two value
    columns is passed over; it does not stop the extraction. *)
Theorem text_in_value_column_skips_row :
  forall (liability_col asset_col : nat) (row : list cell) (c1 c2 : cell),
    nth_error row liability_col = Some c1 ->
    nth_error row asset_col = Some c2 ->
    to_float c1 = Raise ValueError \/ to_float c2 = Raise ValueError ->
    extract_row liability_col asset_col row = Ok None.
Proof.
  intros lc ac row c1 c2 H1 H2 V.
  rewrite (extract_row_in_range lc ac row c1 c2 H1 H2).
  destruct (isna c1 && isna c2); [reflexivity |].
  destruct (Text.contains "Total" (row_label row)
            && negb (Text.contains "HY Total" (row_label row))); [reflexivity |].
  assert (N : forall c, to_float c = Raise ValueError ->
                        value_or_zero c = Raise ValueError).
  { intros [x|s|n] F; [discriminate F | exact F | discriminate F]. }
  destruct V as [V | V]; rewrite (N _ V); [reflexivity |].
  now destruct (value_or_zero c1).
Qed.

Lemma extract_row_raises (liability_col asset_col : nat) (row : list cell) (e : exn) :
  extract_row liability_col asset_col row = Raise e -> e = IndexError.
Proof.
  unfold extract_row, iloc.
  destruct (nth_error row liability_col) as [c1|] eqn:H1; [| simpl; congruence].
  destruct (nth_error row asset_col) as [c2|] eqn:H2.
  - pose proof (extract_row_in_range liability_col asset_col row c1 c2 H1 H2) as E.
    unfold extract_row, iloc in E. rewrite H1, H2 in E. rewrite E. discriminate.
  - cbn [bind]. destruct (isna c1); cbn [bind]; [congruence |].
    destruct (Text.contains "Total" (row_label row)
              && negb (Text.contains "HY Total" (row_label row))); [discriminate |].
    destruct (value_or_zero c1) as [l|e1] eqn:V1; cbn [bind]; [congruence |].
    destruct (value_or_zero_raises c1 e1 V1) as [-> _]. discriminate.
Qed.

Lemma extract_rows_raises (liability_col asset_col : nat) (df : sheet) (e : exn) :
  extract_rows liability_col asset_col df = Raise e -> e = IndexError.
Proof.
  induction df as [|row df IH]; [discriminate |]. cbn [extract_rows].
  destruct (extract_row liability_col asset_col row) as [r|e1] eqn:R; cbn [bind].
  - destruct (extract_rows liability_col asset_col df) as [rest|e2]; cbn [bind];
      [discriminate |]. intros H. apply IH. congruence.
  - intros H. injection H as <-. exact (extract_row_raises _ _ _ _ R).
Qed.

(** Rows that all hold both columns are extracted without an exception,
    and at most one row of data comes out of each. *)
Lemma extract_rows_total (liability_col asset_col : nat) (df : sheet) :
  (forall row, In row df ->
               (liability_col < List.length row)%nat
               /\ (asset_col < List.length row)%nat) ->
  exists r, extract_rows liability_col asset_col df = Ok r
            /\ (List.length r <= List.length df)%nat.
Proof.
  induction df as [|row df IH]; intros W.
  - exists []. split; [reflexivity | simpl; lia].
  - destruct (W row (or_introl eq_refl)) as [L A].
    destruct (nth_error row liability_col) as [c1|] eqn:H1;
      [| apply nth_error_None in H1; lia].
    destruct (nth_error row asset_col) as [c2|] eqn:H2;
      [| apply nth_error_None in H2; lia].
    destruct IH as [rest [E Len]]; [intros r I; apply W; now right |].
    cbn [extract_rows].
    rewrite (extract_row_in_range liability_col asset_col row c1 c2 H1 H2), E.
    cbn [bind]. eexists. split; [reflexivity |].
    destruct (if isna c1 && isna c2 then None else _); simpl; lia.
Qed.

Lemma extract_rows_short_row (liability_col asset_col : nat) (df : sheet)
    (row : list cell) :
  In row df -> (List.length row <= liability_col)%nat ->
  extract_rows liability_col asset_col df = Raise IndexError.
Proof.
  intros I S.
  assert (E : exists e, extract_rows liability_col asset_col df = Raise e).
  { induction df as [|x df IH]; [destruct I |]. cbn [extract_rows].
    destruct (extract_row liability_col asset_col x) as [r|e] eqn:R;
      [| now exists e].
    cbn [bind]. destruct I as [-> | I].
    - unfold extract_row, iloc in R.
      destruct (nth_error row liability_col) eqn:N; [| discriminate R].
      assert (H : nth_error row liability_col <> None) by congruence.
      apply nth_error_Some in H. lia.
    - destruct (IH I) as [e ->]. now exists e. }
  destruct E as [e E]. now rewrite E, (extract_rows_raises _ _ _ _ E).
Qed.

Lemma in_skipn {A : Type} (n : nat) (l : list A) (x : A) :
  In x (skipn n l) -> In x l.
Proof.
  revert l. induction n as [|n IH]; intros [|y l] H; trivial.
  right. now apply IH.
Qed.

Lemma first_header_in_range (token : string) (df : sheet) (c : nat) :
  first_header token df = Some c ->
  exists row, In row df /\ (c < List.length row)%nat.
Proof.
  unfold first_header, first_in.
  destruct (find _ (header_cells df)) as [[k v]|] eqn:F; [| discriminate].
  cbn. intros H. injection H as <-.
  apply find_some in F. destruct F as [I _].
  unfold header_cells in I. apply in_flat_map in I. destruct I as [row [Ir Ic]].
  exists row. split; [exact Ir |].
  unfold indexed_from in Ic. apply in_combine_l, in_seq in Ic. lia.
Qed.

Lemma both_numeric_ok (c1 c2 : cell) :
  both_numeric c1 c2
  = Ok match to_float c1, to_float c2 with
       | Ok _, Ok _ => true
       | _, _ => false
       end.
Proof.
  unfold both_numeric.
  destruct (to_float c1) as [x|e1] eqn:F1; cbn [bind].
  - destruct (to_float c2) as [y|e2] eqn:F2; cbn [bind]; [reflexivity |].
    now rewrite (to_float_raises c2 e2 F2).
  - now rewrite (to_float_raises c1 e1 F1).
Qed.

(** One turn of the search for the first data row: unless an index is out
    of range, the row is taken exactly when it is a data row. *)
Lemma find_data_start_cons (row : list cell) (df : sheet)
    (idx liability_col asset_col : nat) (r : option nat) :
  find_data_start (row :: df) idx liability_col asset_col = Ok r ->
  if is_data_row liability_col asset_col row then r = Some idx
  else find_data_start df (S idx) liability_col asset_col = Ok r.
Proof.
  cbn [find_data_start]. unfold iloc, is_data_row.
  destruct (nth_error row liability_col) as [c1|]; [| discriminate].
  cbn [bind]. destruct (notna c1); cbn [andb].
  - destruct (nth_error row asset_col) as [c2|]; [| discriminate].
    cbn [bind]. destruct (notna c2); cbn [andb bind].
    + rewrite both_numeric_ok. cbn [bind].
      destruct (to_float c1); [destruct (to_float c2) |]; cbn; congruence.
    + congruence.
  - cbn [bind]. now destruct (nth_error row asset_col).
Qed.

Lemma find_data_start_first (liability_col asset_col : nat) :
  forall (df : sheet) (k : nat) (r : option nat),
    find_data_start df k liability_col asset_col = Ok r ->
    match r with
    | Some idx =>
        (k <= idx)%nat /\
        exists row,
          nth_error df (idx - k) = Some row
          /\ is_data_row liability_col asset_col row = true
          /\ forall j row', (j < idx - k)%nat -> nth_error df j = Some row' ->
                            is_data_row liability_col asset_col row' = false
    | None =>
        forall row, In row df -> is_data_row liability_col asset_col row = false
    end.
Proof.
  induction df as [|row df IH]; intros k r H.
  - cbn in H. injection H as <-. intros row [].
  - apply find_data_start_cons in H.
    destruct (is_data_row liability_col asset_col row) eqn:D.
    + subst r. split; [lia |]. rewrite Nat.sub_diag. exists row.
      repeat split; trivial. intros j row' Hj. lia.
    + specialize (IH (S k) r H). destruct r as [idx|].
      * destruct IH as [Le [row0 [N [D0 Before]]]]. split; [lia |].
        exists row0. replace (idx - k)%nat with (S (idx - S k)) by lia.
        repeat split; trivial.
        intros [|j] row' Hj Hn; cbn in Hn.
        -- now injection Hn as <-.
        -- apply (Before j row'); [lia | exact Hn].
      * intros row' [<- | I]; [exact D | now apply IH].
Qed.

(** X10.  The data start row is the first data row of WB: the row it
    points at has two non-empty cells that read as numbers, no row above
    it has, and when the search ends without a result no row of the sheet
    is a data row. *)
Theorem data_start_is_first_data_row :
  forall (df : sheet) (liability_col asset_col : nat) (r : option nat),
    find_data_start df 0 liability_col asset_col = Ok r ->
    match r with
    | Some data_start_row =>
        exists row,
          nth_error df data_start_row = Some row
          /\ is_data_row liability_col asset_col row = true
          /\ forall j row', (j < data_start_row)%nat -> nth_error df j = Some row' ->
                            is_data_row liability_col asset_col row' = false
    | None =>
        forall row, In row df -> is_data_row liability_col asset_col row = false
    end.
Proof.
  intros df lc ac r H.
  pose proof (find_data_start_first lc ac df 0 r H) as F.
  destruct r as [idx|]; [| exact F].
  destruct F as [_ F]. now rewrite Nat.sub_0_r in F.
Qed.

Lemma find_data_start_total (liability_col asset_col : nat) :
  forall (df : sheet) (k : nat),
    (forall row, In row df ->
                 (liability_col < List.length row)%nat
                 /\ (asset_col < List.length row)%nat) ->
    exists r, find_data_start df k liability_col asset_col = Ok r.
Proof.
  induction df as [|row df IH]; intros k W; [now exists None |].
  destruct (W row (or_introl eq_refl)) as [L A].
  destruct (nth_error row liability_col) as [c1|] eqn:H1;
    [| apply nth_error_None in H1; lia].
  destruct (nth_error row asset_col) as [c2|] eqn:H2;
    [| apply nth_error_None in H2; lia].
  destruct (IH (S k)) as [r E]; [intros x I; apply W; now right |].
  cbn [find_data_start]. unfold iloc. rewrite H1, H2. cbn [bind].
  rewrite both_numeric_ok.
  destruct (notna c1); cbn [bind]; [destruct (notna c2); cbn [bind] |];
    try (rewrite E; now exists r).
  destruct (match to_float c1 with Ok _ => _ | Raise _ => false end);
    [now exists (Some k) | rewrite E; now exists r].
Qed.

(** X11.  When every row of WB has the same width and every row of DBIB
    is at least as wide, the extraction raises no exception: it returns
    rows or one of its two messages. *)
Theorem extraction_of_rectangular_sheets_never_raises :
  forall (df1_wb df1_dbib : sheet) (width : nat),
    (forall row, In row df1_wb -> List.length row = width) ->
    (forall row, In row df1_dbib -> (width <= List.length row)%nat) ->
    exists r, extract_excel df1_wb df1_dbib = Ok r.
Proof.
  intros wb dbib w Wwb Wdbib. unfold extract_excel.
  rewrite find_columns_first. cbn [or_else].
  destruct (first_header "liability" wb) as [lc|] eqn:Hl; [| now eexists].
  destruct (first_header "asset" wb) as [ac|] eqn:Ha; [| now eexists].
  destruct (first_header_in_range _ _ _ Hl) as [r1 [I1 L1]].
  destruct (first_header_in_range _ _ _ Ha) as [r2 [I2 L2]].
  rewrite (Wwb r1 I1) in L1. rewrite (Wwb r2 I2) in L2.
  destruct (find_data_start_total lc ac wb 0) as [start E].
  { intros row I. rewrite (Wwb row I). now split. }
  rewrite E. cbn [bind]. destruct start as [start|]; [| now eexists].
  unfold extract_sheet.
  destruct (extract_rows_total lc ac (skipn start wb)) as [x [Ex _]].
  { intros row I. rewrite (Wwb row (in_skipn _ _ _ I)). now split. }
  destruct (extract_rows_total lc ac (skipn start dbib)) as [y [Ey _]].
  { intros row I. specialize (Wdbib row (in_skipn _ _ _ I)). split; lia. }
  rewrite Ex, Ey. cbn [bind]. now eexists.
Qed.

(** X12.  A data row of DBIB that is too short to hold the liability
    column of WB stops the extraction with [IndexError]. *)
Theorem short_row_raises_index_error :
  forall (df1_wb df1_dbib : sheet) (liability_col asset_col data_start_row : nat)
         (wb_rows : list (F64.float * F64.float)) (row : list cell),
    first_header "liability" df1_wb = Some liability_col ->
    first_header "asset" df1_wb = Some asset_col ->
    find_data_start df1_wb 0 liability_col asset_col = Ok (Some data_start_row) ->
    extract_sheet liability_col asset_col data_start_row df1_wb = Ok wb_rows ->
    In row (skipn data_start_row df1_dbib) ->
    (List.length row <= liability_col)%nat ->
    extract_excel df1_wb df1_dbib = Raise IndexError.
Proof.
  intros wb dbib lc ac start wb_rows row Hl Ha Hs Hw I S.
  unfold extract_excel. rewrite find_columns_first, Hl, Ha. cbn [or_else].
  rewrite Hs. cbn [bind]. rewrite Hw. cbn [bind]. unfold extract_sheet.
  now rewrite (extract_rows_short_row lc ac _ row I S).
Qed.

(** X13.  Rows are judged one by one and kept in order: the rows extracted
    from two blocks of rows put end to end are those of the first block
    followed by those of the second. *)
Theorem extract_rows_app :
  forall (liability_col asset_col : nat) (df df' : sheet)
         (r r' : list (F64.float * F64.float)),
    extract_rows liability_col asset_col df = Ok r ->
    extract_rows liability_col asset_col df' = Ok r' ->
    extract_rows liability_col asset_col (df ++ df')%list = Ok (r ++ r')%list.
Proof.
  intros lc ac df df' r r'. revert r.
  induction df as [|row df IH]; intros r H H'.
  - cbn in H. injection H as <-. exact H'.
  - cbn [extract_rows app] in *.
    destruct (extract_row lc ac row) as [o|e]; [| discriminate H]. cbn [bind] in *.
    destruct (extract_rows lc ac df) as [rest|e]; [| discriminate H].
    cbn [bind] in H. injection H as <-.
    rewrite (IH rest eq_refl H'). cbn [bind]. now destruct o.
Qed.

(** ** The node: every attempt is logged *)

(** X14.  Every call returns, changes nothing of the state but its
    validation entry, and appends exactly one line for the base name of the
    file; the line says "correct" only when a comparison was made and its
    verdict is [True]. *)
Theorem call_logs_every_attempt :
  forall (fs : files) (now : datetime) (log : string) (st : state),
    exists (v : validation) (verdict : option bool),
      call fs now log st
      = (State (file_type st) (file_path st) (excel_outputs st)
               (docint_df st) (table_output st) (Some v),
         log ++ "[" ++ strftime now ++ "] "
             ++ Text.basename (get_or (file_path st) "") ++ " | "
             ++ (if truthy verdict then "correct" else "wrong") ++ newline)
      /\ (truthy verdict = true ->
          exists c, v = ValidationResult c /\ match_ c = Some true)
      /\ (forall c, v = ValidationResult c -> verdict = match_ c)
      /\ (forall f, v = ValidationError f -> verdict = Some false).
Proof.
  intros fs now log st.
  exists (fst (attempt fs st)), (snd (attempt fs st)). split.
  - unfold call. destruct (attempt fs st) as [v verdict]. cbn [fst snd].
    unfold set_validation, log_validation_result, log_line, status_of.
    now rewrite !append_assoc.
  - unfold attempt. destruct (try_body fs st) as [[msg|c]|e]; cbn [fst snd].
    + split; [discriminate | split; [discriminate | reflexivity]].
    + split; [| split; [| discriminate]].
      * intros T. exists c. split; [reflexivity |].
        now destruct (match_ c) as [[|]|].
      * intros c' H. now injection H as <-.
    + split; [discriminate | split; [discriminate | reflexivity]].
Qed.

(** X15.  A file type other than "xlsx", "xls" and "msg", or none at all,
    is no error: the validation entry holds a comparison with no verdict
    and no digest, and the line written to the log says "wrong". *)
Theorem unsupported_file_type_is_logged_wrong :
  forall (fs : files) (now : datetime) (log : string) (st : state),
    is_excel st = false ->
    is_msg st = false ->
    call fs now log st
    = (set_validation st (ValidationResult (Comparison None None None None None)),
       log ++ "[" ++ strftime now ++ "] "
           ++ Text.basename (get_or (file_path st) "") ++ " | wrong" ++ newline).
Proof.
  intros fs now log st X M. unfold call, attempt, try_body.
  fold (is_excel st). fold (is_msg st). rewrite X, M. cbn [match_].
  unfold log_validation_result, log_line, status_of. cbn [truthy].
  now rewrite !append_assoc.
Qed.

(** ** The canonical string can be read back *)

Lemma lacks_append (c : ascii) (a b : string) :
  lacks c (a ++ b) = lacks c a && lacks c b.
Proof.
  induction a as [|x a IH]; [reflexivity |]. cbn [append lacks].
  now rewrite IH, andb_assoc.
Qed.

Lemma split_on_lacks (c : ascii) (s : string) :
  lacks c s = true -> split_on c s = [s].
Proof.
  induction s as [|x s IH]; [reflexivity |]. cbn [lacks split_on].
  intros H. apply andb_prop in H. destruct H as [N L].
  apply negb_true_iff in N. now rewrite N, (IH L).
Qed.

Lemma split_on_append (c : ascii) (a b : string) :
  lacks c a = true ->
  split_on c (a ++ String c b) = a :: split_on c b.
Proof.
  induction a as [|x a IH]; intros H.
  - cbn. now rewrite Ascii.eqb_refl.
  - cbn [lacks] in H. apply andb_prop in H. destruct H as [N L].
    apply negb_true_iff in N. cbn [append split_on]. now rewrite N, (IH L).
Qed.

(** [sep.join(parts).split(sep)] gives back the parts, when there is at
    least one and none holds the separator. *)
Lemma split_on_join (c : ascii) (parts : list string) :
  parts <> [] ->
  forallb (lacks c) parts = true ->
  split_on c (Text.join (String c EmptyString) parts) = parts.
Proof.
  unfold Text.join. induction parts as [|p parts IH]; intros NE F.
  - now elim NE.
  - cbn [forallb] in F. apply andb_prop in F. destruct F as [Lp F].
    destruct parts as [|q parts].
    + cbn. now apply split_on_lacks.
    + cbn [String.concat]. cbn [append].
      rewrite (split_on_append c p _ Lp). f_equal. apply IH; [discriminate | exact F].
Qed.

Lemma lacks_digits (c : ascii) (d : Decimal.uint) :
  F64.is_digit c = false -> lacks c (NilEmpty.string_of_uint d) = true.
Proof.
  intros N. induction d; cbn [NilEmpty.string_of_uint lacks]; trivial;
    rewrite IHd, andb_true_r; apply negb_true_iff;
    match goal with
    | |- Ascii.eqb ?a c = false =>
        destruct (Ascii.eqb_spec a c) as [<- | _]; [discriminate N | reflexivity]
    end.
Qed.

Lemma lacks_string_of_N (c : ascii) (n : Z) :
  F64.is_digit c = false -> lacks c (F64.string_of_N n) = true.
Proof.
  intros N. unfold F64.string_of_N, NilZero.string_of_uint.
  pose proof (lacks_digits c (N.to_uint (Z.to_N n)) N) as L.
  destruct (N.to_uint (Z.to_N n)); trivial.
  cbn [lacks]. rewrite andb_true_r. apply negb_true_iff.
  destruct (Ascii.eqb_spec "0" c) as [<- | _]; [discriminate N | reflexivity].
Qed.

Lemma lacks_zeros (c : ascii) (n : nat) :
  F64.is_digit c = false -> lacks c (F64.zeros n) = true.
Proof.
  intros N. induction n as [|n IH]; [reflexivity |]. cbn [F64.zeros lacks].
  rewrite IH, andb_true_r. apply negb_true_iff.
  destruct (Ascii.eqb_spec "0" c) as [<- | _]; [discriminate N | reflexivity].
Qed.

(** A formatted number holds neither a comma nor a bar. *)
Lemma lacks_format_6f (c : ascii) (x : F64.float) :
  c = ","%char \/ c = "|"%char -> lacks c (F64.format_6f x) = true.
Proof.
  intros C.
  assert (D : F64.is_digit c = false) by (destruct C as [-> | ->]; reflexivity).
  destruct x as [[|]|[|]| |s m e]; try (destruct C as [-> | ->]; reflexivity).
  unfold F64.format_6f, F64.frac6.
  rewrite !lacks_append, !lacks_string_of_N, lacks_zeros by exact D.
  destruct s; destruct C as [-> | ->]; reflexivity.
Qed.

Lemma lacks_format_value (c : ascii) (x : F64.float) :
  c = ","%char \/ c = "|"%char -> lacks c (format_value (Num x)) = true.
Proof. intros C. unfold format_value. now apply lacks_format_6f. Qed.

Lemma concat_str_of_numbers (d : dataset) :
  concat_str_of (map (fun r => [Num (fst r); Num (snd r)]) d)
  = Text.join "|" (map row_string d).
Proof.
  unfold concat_str_of. now rewrite map_map.
Qed.

Lemma row_string_split (r : F64.float * F64.float) :
  lacks "|" (row_string r) = true
  /\ split_on "," (row_string r) = [fst (formatted r); snd (formatted r)].
Proof.
  unfold row_string, formatted. cbn [fst snd]. split.
  - rewrite lacks_append. cbn [append lacks].
    rewrite !lacks_format_value by now right. reflexivity.
  - cbn [append]. rewrite split_on_append by (apply lacks_format_value; now left).
    now rewrite split_on_lacks by (apply lacks_format_value; now left).
Qed.

Lemma canonical_string_decodes (d : dataset) :
  d <> [] ->
  map (split_on ",") (split_on "|" (Text.join "|" (map row_string d)))
  = map (fun r => [fst (formatted r); snd (formatted r)]) d.
Proof.
  intros NE. rewrite split_on_join.
  - rewrite map_map. apply map_ext. intros r. apply row_string_split.
  - destruct d; [now elim NE | discriminate].
  - apply forallb_forall. intros s I. apply in_map_iff in I.
    destruct I as [r [<- _]]. apply row_string_split.
Qed.

Lemma canonical_string_nonempty (d : dataset) :
  d <> [] -> Text.join "|" (map row_string d) <> "".
Proof.
  destruct d as [|r d]; [intros NE; now elim NE |]. intros _ H.
  assert (L : lacks "," (Text.join "|" (map row_string (r :: d))) = true)
    by now rewrite H.
  unfold Text.join in L. cbn [map String.concat] in L.
  assert (R : lacks "," (row_string r) = false).
  { unfold row_string. rewrite lacks_append. cbn [append lacks].
    apply andb_false_r. }
  destruct (map row_string d); cbn iota in L; [congruence |].
  rewrite lacks_append, R in L. discriminate L.
Qed.

Lemma canonical_string_injective (d1 d2 : dataset) :
  Text.join "|" (map row_string d1) = Text.join "|" (map row_string d2) ->
  map formatted d1 = map formatted d2.
Proof.
  intros E.
  destruct d1 as [|r1 d1]; destruct d2 as [|r2 d2]; trivial.
  - exfalso. symmetry in E. revert E. now apply canonical_string_nonempty.
  - exfalso. revert E. now apply canonical_string_nonempty.
  - assert (D : map (fun r => [fst (formatted r); snd (formatted r)]) (r1 :: d1)
                = map (fun r => [fst (formatted r); snd (formatted r)]) (r2 :: d2)).
    { rewrite <- !canonical_string_decodes by discriminate. now rewrite E. }
    clear E. revert D. generalize (r1 :: d1) (r2 :: d2).
    induction l as [|x l IH]; intros [|y l'] H; try discriminate; trivial.
    cbn [map] in *. injection H as H1 H2 H3.
    rewrite (IH l' H3). f_equal.
    unfold formatted, format_value in *. cbn [fst snd] in *. congruence.
Qed.

Lemma mapM_ok {A B : Type} (f : A -> result B) (g : A -> B) (l : list A) :
  (forall a, In a l -> f a = Ok (g a)) -> mapM f l = Ok (map g l).
Proof.
  induction l as [|a l IH]; intros H; [reflexivity |].
  cbn [mapM map]. rewrite (H a (or_introl eq_refl)). cbn [bind].
  rewrite IH by (intros x I; apply H; now right). reflexivity.
Qed.

Lemma select_two_columns (c1 c2 : string) (d : dataset) :
  c1 <> c2 ->
  select (DataFrame [c1; c2] (map (fun r => [Num (fst r); Num (snd r)]) d)) [c1; c2]
  = Ok (map (fun r => [Num (fst r); Num (snd r)]) d).
Proof.
  intros NE. unfold select, missing_columns. cbn [columns rows filter index_of].
  rewrite String.eqb_refl.
  destruct (String.eqb_spec c1 c2) as [e | _]; [now elim NE |].
  rewrite String.eqb_refl. cbn [option_map unique].
  rewrite (mapM_ok _ (fun row => row)); [now rewrite map_id |].
  intros row I. apply in_map_iff in I. destruct I as [r [<- _]].
  unfold getitem, iloc. cbn [mapM columns index_of]. rewrite String.eqb_refl.
  destruct (String.eqb_spec c1 c2) as [e | _]; [now elim NE |].
  rewrite String.eqb_refl. reflexivity.
Qed.

Lemma row_strings_of_formatted (d1 d2 : dataset) :
  map formatted d1 = map formatted d2 -> map row_string d1 = map row_string d2.
Proof.
  revert d2. induction d1 as [|x d1 IH]; intros [|y d2] F;
    try discriminate; trivial.
  cbn [map] in *. injection F as F1 F2 F3. rewrite (IH d2 F3).
  unfold row_string, formatted, format_value. cbn [fst snd].
  now rewrite F1, F2.
Qed.

(** The digest and the canonical string of columns of numbers; a frame
    without a row has none. *)
Lemma hash_columns_numbers (df : frame) (names : list string) (d : dataset) :
  select df names = Ok (map (fun r => [Num (fst r); Num (snd r)]) d) ->
  hash_columns df names
  = match d with
    | [] => Raise AttributeError
    | _ :: _ => Ok (SHA256.hexdigest (Text.join "|" (map row_string d)),
                    Text.join "|" (map row_string d))
    end.
Proof.
  intros S. unfold hash_columns. rewrite S. cbn [bind].
  destruct d as [|r d]; [reflexivity |].
  rewrite <- concat_str_of_numbers. reflexivity.
Qed.

(** Exact mode on columns of numbers, with the canonical strings written
    out. *)
Lemma exact_compare_numbers (df1 df2 : frame) (d1 d2 : dataset) :
  select df1 ["Liability"; "Asset"]
  = Ok (map (fun r => [Num (fst r); Num (snd r)]) d1) ->
  select df2 ["RIDER_VALUE"; "ASSET_VALUE"]
  = Ok (map (fun r => [Num (fst r); Num (snd r)]) d2) ->
  d1 <> [] -> d2 <> [] ->
  exact_compare df1 df2
  = Ok (Comparison
          (Some (SHA256.hexdigest (Text.join "|" (map row_string d1))
                 =? SHA256.hexdigest (Text.join "|" (map row_string d2)))%string)
          (Some (SHA256.hexdigest (Text.join "|" (map row_string d1))))
          (Some (SHA256.hexdigest (Text.join "|" (map row_string d2))))
          (Some (Text.join "|" (map row_string d1)))
          (Some (Text.join "|" (map row_string d2)))).
Proof.
  intros S1 S2 N1 N2. unfold exact_compare.
  rewrite (hash_columns_numbers df1 _ d1 S1), (hash_columns_numbers df2 _ d2 S2).
  destruct d1; [now elim N1 |]. destruct d2; [now elim N2 |]. reflexivity.
Qed.

(** Exact mode when one side has no row. *)
Lemma exact_compare_no_rows (df1 df2 : frame) (d1 d2 : dataset) :
  select df1 ["Liability"; "Asset"]
  = Ok (map (fun r => [Num (fst r); Num (snd r)]) d1) ->
  select df2 ["RIDER_VALUE"; "ASSET_VALUE"]
  = Ok (map (fun r => [Num (fst r); Num (snd r)]) d2) ->
  d1 = [] \/ d2 = [] ->
  exact_compare df1 df2 = Raise AttributeError.
Proof.
  intros S1 S2 E. unfold exact_compare.
  rewrite (hash_columns_numbers df1 _ d1 S1), (hash_columns_numbers df2 _ d2 S2).
  destruct d1; [reflexivity |]. destruct d2; [reflexivity |].
  destruct E; discriminate.
Qed.

(** X16.  Exact mode on two frames whose compared columns hold the
    numbers [d1] and [d2].  When both sides have a row, they match when
    every field is formatted alike on both sides; and the two canonical
    strings are equal only then, so that a different number of rows, or
    one field formatted differently, always gives different canonical
    strings.  When one side has no row, the comparison raises and there
    is no verdict. *)
Theorem exact_mode_canonical_strings :
  forall (df1 df2 : frame) (d1 d2 : dataset),
    select df1 ["Liability"; "Asset"]
    = Ok (map (fun r => [Num (fst r); Num (snd r)]) d1) ->
    select df2 ["RIDER_VALUE"; "ASSET_VALUE"]
    = Ok (map (fun r => [Num (fst r); Num (snd r)]) d2) ->
    (d1 <> [] ->
     map formatted d1 = map formatted d2 ->
     exists h s,
       exact_compare df1 df2
       = Ok (Comparison (Some true) (Some h) (Some h) (Some s) (Some s)))
    /\ (forall c,
          exact_compare df1 df2 = Ok c ->
          concat1 c = concat2 c ->
          map formatted d1 = map formatted d2
          /\ List.length d1 = List.length d2)
    /\ (d1 = [] \/ d2 = [] -> exact_compare df1 df2 = Raise AttributeError).
Proof.
  intros df1 df2 d1 d2 S1 S2.
  split; [| split; [| now apply exact_compare_no_rows]].
  - intros N1 F.
    assert (N2 : d2 <> []) by (intros ->; destruct d1; [now elim N1 | discriminate F]).
    rewrite (exact_compare_numbers df1 df2 d1 d2 S1 S2 N1 N2).
    rewrite (row_strings_of_formatted d1 d2 F), String.eqb_refl.
    now eexists _, _.
  - intros c H S.
    assert (N1 : d1 <> []).
    { intros E. rewrite (exact_compare_no_rows df1 df2 _ _ S1 S2 (or_introl E)) in H.
      discriminate H. }
    assert (N2 : d2 <> []).
    { intros E. rewrite (exact_compare_no_rows df1 df2 _ _ S1 S2 (or_intror E)) in H.
      discriminate H. }
    rewrite (exact_compare_numbers df1 df2 _ _ S1 S2 N1 N2) in H.
    injection H as <-. cbn [concat1 concat2] in S.
    injection S as S. apply canonical_string_injective in S. split; [exact S |].
    now rewrite <- (length_map formatted d1), S, length_map.
Qed.

(** ** Fuzzy mode: what the ways back to exact mode give *)

Lemma mapM_length {A B : Type} (f : A -> result B) :
  forall (l : list A) (l' : list B),
    mapM f l = Ok l' -> List.length l' = List.length l.
Proof.
  induction l as [|a l IH]; intros l' H; cbn [mapM] in H.
  - now injection H as <-.
  - destruct (f a) as [b|e]; [| discriminate H]. cbn [bind] in H.
    destruct (mapM f l) as [bs|e]; [| discriminate H]. cbn [bind] in H.
    injection H as <-. cbn [List.length]. now rewrite (IH bs eq_refl).
Qed.

Lemma select_length (df : frame) (names : list string) (rs : list (list cell)) :
  select df names = Ok rs -> List.length rs = List.length (rows df).
Proof.
  unfold select. destruct (missing_columns df names); [| discriminate].
  apply mapM_length.
Qed.

(** X26.  The guard on the row counts, on columns of numbers with at
    least one row on each side: when the counts differ by more than two,
    no row is compared and the verdict is the equality of the digests of
    the two canonical strings, which are recorded with the digests and
    which always differ. *)
Theorem row_count_guard_compares_digests :
  forall (df1 df2 : frame) (d1 d2 : dataset),
    select df1 ["Liability"; "Asset"]
    = Ok (map (fun r => [Num (fst r); Num (snd r)]) d1) ->
    select df2 ["RIDER_VALUE"; "ASSET_VALUE"]
    = Ok (map (fun r => [Num (fst r); Num (snd r)]) d2) ->
    d1 <> [] ->
    d2 <> [] ->
    (2 < abs_diff (List.length d1) (List.length d2))%nat ->
    let s1 := Text.join "|" (map row_string d1) in
    let s2 := Text.join "|" (map row_string d2) in
    fuzzy_compare df1 df2
    = Ok (Comparison (Some (SHA256.hexdigest s1 =? SHA256.hexdigest s2)%string)
                     (Some (SHA256.hexdigest s1)) (Some (SHA256.hexdigest s2))
                     (Some s1) (Some s2))
    /\ s1 <> s2.
Proof.
  intros df1 df2 d1 d2 S1 S2 N1 N2 G s1 s2. split.
  - rewrite fuzzy_goes_to_exact.
    + now apply exact_compare_numbers.
    + left. rewrite <- (select_length _ _ _ S1), <- (select_length _ _ _ S2).
      now rewrite !length_map.
  - intros E. apply canonical_string_injective in E.
    apply (f_equal (@List.length _)) in E. rewrite !length_map in E.
    unfold abs_diff in G. lia.
Qed.

(** X27.  When either side has no row, fuzzy mode gives no verdict: no
    row is compared, the hash comparison is made, and it raises.  When it
    is the first side that has no row, and has its two columns, the
    exception is the [AttributeError] of a frame without rows. *)
Theorem fuzzy_without_rows_raises :
  forall df1 df2 : frame,
    Nat.min (List.length (rows df1)) (List.length (rows df2)) = O ->
    (exists e, fuzzy_compare df1 df2 = Raise e)
    /\ (rows df1 = [] ->
        missing_columns df1 ["Liability"; "Asset"] = [] ->
        fuzzy_compare df1 df2 = Raise AttributeError).
Proof.
  intros df1 df2 M. rewrite (fuzzy_goes_to_exact df1 df2 (or_intror M)).
  assert (H : forall df names,
             rows df = [] -> exists e, hash_columns df names = Raise e
                                       /\ (missing_columns df names = [] ->
                                           e = AttributeError)).
  { intros df names R. unfold hash_columns, select. rewrite R.
    destruct (missing_columns df names); [| eexists; split; [reflexivity | discriminate]].
    now exists AttributeError. }
  unfold exact_compare. split.
  - destruct (rows df1) as [|r1 rs1] eqn:R1.
    + destruct (H df1 ["Liability"; "Asset"] R1) as [e [-> _]]. now exists e.
    + destruct (rows df2) as [|r2 rs2] eqn:R2; [| discriminate M].
      destruct (hash_columns df1 _) as [h1|e]; [| now exists e]. cbn [bind].
      destruct (H df2 ["RIDER_VALUE"; "ASSET_VALUE"] R2) as [e [-> _]].
      now exists e.
  - intros R1 C. destruct (H df1 ["Liability"; "Asset"] R1) as [e [-> A]].
    now rewrite (A C).
Qed.

(** ** The spreadsheet branch, end to end *)

(** X17.  A workbook that gives at least one row, and whose extracted rows
    are formatted, field by field, like the two columns of the machine
    table, is validated: the verdict is [True], both sides have the same
    digest and canonical string, and the line written to the log says
    "correct".  A workbook that gives no row is not: the hash comparison
    raises, and the line says "wrong". *)
Theorem excel_attempt_with_equal_fields_is_correct :
  forall (fs : files) (now : datetime) (log : string) (st : state)
         (path out : string) (df1_wb df1_dbib : sheet) (df2 : frame)
         (d1 d2 : dataset),
    is_excel st = true ->
    file_path st = Some path ->
    excel_outputs st = Some (Some out) ->
    read_excel fs path "WB" = Ok df1_wb ->
    read_excel fs path "DBIB" = Ok df1_dbib ->
    extract_excel df1_wb df1_dbib = Ok (inr d1) ->
    read_csv fs out = Ok df2 ->
    select df2 ["RIDER_VALUE"; "ASSET_VALUE"]
    = Ok (map (fun r => [Num (fst r); Num (snd r)]) d2) ->
    map formatted d1 = map formatted d2 ->
    (d1 <> [] ->
     exists h s,
       call fs now log st
       = (State (file_type st) (file_path st) (excel_outputs st)
                (docint_df st) (table_output st)
                (Some (ValidationResult
                         (Comparison (Some true) (Some h) (Some h)
                                     (Some s) (Some s)))),
          log ++ "[" ++ strftime now ++ "] " ++ Text.basename path
              ++ " | correct" ++ newline))
    /\ (d1 = [] ->
        call fs now log st
        = (State (file_type st) (file_path st) (excel_outputs st)
                 (docint_df st) (table_output st)
                 (Some (ValidationError (Exception AttributeError))),
           log ++ "[" ++ strftime now ++ "] " ++ Text.basename path
               ++ " | wrong" ++ newline)).
Proof.
  intros fs now log st path out wb dbib df2 d1 d2 X P O W D E C S F.
  assert (S1 : select (excel_frame d1) ["Liability"; "Asset"]
               = Ok (map (fun r => [Num (fst r); Num (snd r)]) d1))
    by (apply select_two_columns; discriminate).
  assert (T : try_body fs st = (c <- exact_compare (excel_frame d1) df2 ;; Ok (inr c))).
  { unfold try_body. fold (is_excel st). rewrite X.
    unfold excel_validation. rewrite P, O. cbn [bind]. rewrite W, D. cbn [bind].
    rewrite E. cbn [bind]. rewrite C. reflexivity. }
  split.
  - intros N1.
    assert (N2 : d2 <> []) by (intros ->; destruct d1; [now elim N1 | discriminate F]).
    pose proof (exact_compare_numbers (excel_frame d1) df2 d1 d2 S1 S N1 N2) as Ex.
    rewrite (row_strings_of_formatted d1 d2 F), String.eqb_refl in Ex.
    eexists _, _. unfold call, attempt. rewrite T, Ex. cbn [bind match_].
    unfold set_validation, log_validation_result, log_line, status_of. cbn [truthy].
    rewrite P. cbn [get_or]. now rewrite !append_assoc.
  - intros N1.
    pose proof (exact_compare_no_rows (excel_frame d1) df2 d1 d2 S1 S (or_introl N1))
      as Ex.
    unfold call, attempt. rewrite T, Ex. cbn [bind].
    unfold set_validation, log_validation_result, log_line, status_of. cbn [truthy].
    rewrite P. cbn [get_or]. now rewrite !append_assoc.
Qed.

(** * The further properties on worked inputs *)

Lemma fuzzy_missing_column_raises_witness :
  fuzzy_compare (excel_frame (sample_rows 2))
                (DataFrame ["DATE"; "ASSET_VALUE"] [[Str "2024"; Num F64.zero]])
  = Raise (KeyError (NotInIndex ["RIDER_VALUE"; "ASSET_VALUE"] ["RIDER_VALUE"])).
Proof.
  destruct (fuzzy_missing_column_raises
              (excel_frame (sample_rows 2))
              (DataFrame ["DATE"; "ASSET_VALUE"] [[Str "2024"; Num F64.zero]]))
    as [E _].
  - right. right. left. reflexivity.
  - rewrite E. reflexivity.
Defined.

Lemma hash_columns_missing_column_witness :
  hash_columns (table_frame (sample_rows 2)) ["Liability"; "Asset"]
  = Raise (KeyError (NotInIndex ["Liability"; "Asset"] ["Liability"; "Asset"]))
  /\ hash_columns (DataFrame ["Liability"; "ASSET_VALUE"] []) ["Liability"; "Asset"]
     = Raise (KeyError (NotInIndex ["Liability"; "Asset"] ["Asset"])).
Proof.
  split.
  - refine (proj1 (hash_columns_missing_column
                     (table_frame (sample_rows 2)) ["Liability"; "Asset"] "Asset"
                     _ eq_refl)).
    right. left. reflexivity.
  - refine (proj1 (hash_columns_missing_column
                     (DataFrame ["Liability"; "ASSET_VALUE"] [])
                     ["Liability"; "Asset"] "Asset" _ eq_refl)).
    right. left. reflexivity.
Defined.

Lemma fuzzy_all_or_nothing_witness :
  fuzzy_compare (excel_frame (sample_rows 3)) (table_frame (sample_rows 4))
  = Ok (Comparison (Some true) None None None None)
  /\ fuzzy_compare (excel_frame (sample_rows 3)) (table_frame (sample_rows_off 3 3))
     = Ok (Comparison (Some false) None None None None).
Proof.
  split.
  - refine (proj1 (fuzzy_all_or_nothing
                     (excel_frame (sample_rows 3)) (table_frame (sample_rows 4))
                     (sample_rows 3) (sample_rows 4) eq_refl eq_refl _ _) eq_refl).
    + apply Nat.leb_le. reflexivity.
    + apply Nat.ltb_lt. reflexivity.
  - refine (proj2 (fuzzy_all_or_nothing
                     (excel_frame (sample_rows 3)) (table_frame (sample_rows_off 3 3))
                     (sample_rows 3) (sample_rows_off 3 3) eq_refl eq_refl _ _) eq_refl).
    + apply Nat.leb_le. reflexivity.
    + apply Nat.ltb_lt. reflexivity.
Defined.

Lemma percentage_threshold_is_four_fifths_witness :
  sufficient 8 10 = true /\ sufficient 159 200 = false.
Proof.
  split.
  - rewrite (percentage_threshold_is_four_fifths 8 10); [reflexivity | |].
    + split; [apply Nat.ltb_lt | apply Nat.leb_le]; reflexivity.
    + apply Nat.leb_le. reflexivity.
  - rewrite (percentage_threshold_is_four_fifths 159 200); [reflexivity | |].
    + split; [apply Nat.ltb_lt | apply Nat.leb_le]; reflexivity.
    + apply Nat.leb_le. reflexivity.
Defined.

Lemma fuzzy_accepts_identical_finite_datasets_witness :
  fuzzy_compare (excel_frame (sample_rows 3)) (table_frame (sample_rows 3))
  = Ok (Comparison (Some true) None None None None).
Proof.
  apply (fuzzy_accepts_identical_finite_datasets
           (excel_frame (sample_rows 3)) (table_frame (sample_rows 3))
           (sample_rows 3) eq_refl eq_refl); [discriminate | reflexivity].
Defined.

Lemma blank_value_defaults_to_zero_witness :
  extract_row 1 2 [Str "Cash"; Num F64.nan; Num (F64.of_Z 2)]
  = Ok (Some (F64.zero, F64.of_Z 2)).
Proof.
  refine (proj1 (blank_value_defaults_to_zero
                   1 2 [Str "Cash"; Num F64.nan; Num (F64.of_Z 2)]
                   (Num F64.nan) (Num (F64.of_Z 2)) (F64.of_Z 2)
                   eq_refl eq_refl eq_refl eq_refl eq_refl eq_refl _)).
  discriminate.
Defined.

Lemma text_in_value_column_skips_row_witness :
  extract_row 1 2 [Str "Cash"; Str "n/a"; Num (F64.of_Z 2)] = Ok None.
Proof.
  apply (text_in_value_column_skips_row
           1 2 [Str "Cash"; Str "n/a"; Num (F64.of_Z 2)]
           (Str "n/a") (Num (F64.of_Z 2)) eq_refl eq_refl).
  left. reflexivity.
Defined.

Lemma data_start_is_first_data_row_witness :
  exists row,
    nth_error sample_wb 1 = Some row /\ is_data_row 1 2 row = true.
Proof.
  destruct (data_start_is_first_data_row sample_wb 1 2 (Some 1%nat) eq_refl)
    as [row [N [D _]]].
  now exists row.
Defined.

Lemma extraction_of_rectangular_sheets_never_raises_witness :
  exists r, extract_excel sample_wb sample_dbib_swapped = Ok r.
Proof.
  apply (extraction_of_rectangular_sheets_never_raises
           sample_wb sample_dbib_swapped 3).
  - intros row [<- | [<- | []]]; reflexivity.
  - intros row [<- | [<- | []]]; apply Nat.leb_le; reflexivity.
Defined.

Lemma short_row_raises_index_error_witness :
  extract_excel sample_wb [[Str "Item"]; [Str "B"]] = Raise IndexError.
Proof.
  apply (short_row_raises_index_error
           sample_wb [[Str "Item"]; [Str "B"]] 1 2 1
           [(F64.of_Z 1, F64.of_Z 2)] [Str "B"]
           eq_refl eq_refl eq_refl eq_refl).
  - left. reflexivity.
  - apply Nat.leb_le. reflexivity.
Defined.

Lemma extract_rows_app_witness :
  extract_rows 1 2 (sample_wb ++ sample_wb)%list
  = Ok [(F64.of_Z 1, F64.of_Z 2); (F64.of_Z 1, F64.of_Z 2)].
Proof.
  apply (extract_rows_app 1 2 sample_wb sample_wb
           [(F64.of_Z 1, F64.of_Z 2)] [(F64.of_Z 1, F64.of_Z 2)]
           eq_refl eq_refl).
Defined.

Lemma call_logs_every_attempt_witness :
  exists v verdict,
    call sample_files sample_now "" sample_state
    = (State (file_type sample_state) (file_path sample_state)
             (excel_outputs sample_state) (docint_df sample_state)
             (table_output sample_state) (Some v),
       "[2024-05-01 09:30:00] report.xlsx | "
         ++ (if truthy verdict then "correct" else "wrong") ++ newline).
Proof.
  destruct (call_logs_every_attempt sample_files sample_now "" sample_state)
    as [v [verdict [E _]]].
  exists v, verdict. exact E.
Defined.

Lemma unsupported_file_type_is_logged_wrong_witness :
  call sample_files sample_now ""
       (State (Some "pdf") (Some "/data/report.pdf") None None None None)
  = (State (Some "pdf") (Some "/data/report.pdf") None None None
           (Some (ValidationResult (Comparison None None None None None))),
     "[2024-05-01 09:30:00] report.pdf | wrong" ++ newline).
Proof.
  apply (unsupported_file_type_is_logged_wrong
           sample_files sample_now ""
           (State (Some "pdf") (Some "/data/report.pdf") None None None None));
    reflexivity.
Defined.

Lemma exact_mode_canonical_strings_witness :
  (exists h s,
     exact_compare (excel_frame (sample_rows 2)) (table_frame (sample_rows 2))
     = Ok (Comparison (Some true) (Some h) (Some h) (Some s) (Some s)))
  /\ exact_compare (excel_frame []) (table_frame (sample_rows 2))
     = Raise AttributeError.
Proof.
  split.
  - apply (proj1 (exact_mode_canonical_strings
                    (excel_frame (sample_rows 2)) (table_frame (sample_rows 2))
                    (sample_rows 2) (sample_rows 2) eq_refl eq_refl));
      [discriminate | reflexivity].
  - apply (proj2 (proj2 (exact_mode_canonical_strings
                           (excel_frame []) (table_frame (sample_rows 2))
                           [] (sample_rows 2) eq_refl eq_refl))).
    left. reflexivity.
Defined.

Lemma excel_attempt_with_equal_fields_is_correct_witness :
  exists h s,
    call (Files (fun _ _ => Ok sample_wb)
                (fun _ => Ok (table_frame [(F64.of_Z 1, F64.of_Z 2);
                                           (F64.of_Z 1, F64.of_Z 2)])))
         sample_now "" sample_state
    = (State (Some "xlsx") (Some "/data/report.xlsx") (Some (Some "out.csv"))
             None None
             (Some (ValidationResult
                      (Comparison (Some true) (Some h) (Some h) (Some s) (Some s)))),
       "[2024-05-01 09:30:00] report.xlsx | correct" ++ newline).
Proof.
  apply (proj1 (excel_attempt_with_equal_fields_is_correct
                  (Files (fun _ _ => Ok sample_wb)
                         (fun _ => Ok (table_frame [(F64.of_Z 1, F64.of_Z 2);
                                                    (F64.of_Z 1, F64.of_Z 2)])))
                  sample_now "" sample_state "/data/report.xlsx" "out.csv"
                  sample_wb sample_wb
                  (table_frame [(F64.of_Z 1, F64.of_Z 2); (F64.of_Z 1, F64.of_Z 2)])
                  [(F64.of_Z 1, F64.of_Z 2); (F64.of_Z 1, F64.of_Z 2)]
                  [(F64.of_Z 1, F64.of_Z 2); (F64.of_Z 1, F64.of_Z 2)]
                  eq_refl eq_refl eq_refl eq_refl eq_refl eq_refl eq_refl eq_refl
                  eq_refl)).
  discriminate.
Defined.

Lemma rows_with_values_are_always_kept_witness :
  row_label [Num F64.nan; Num F64.zero; Num F64.neg_zero] <> ""
  /\ extract_row 1 2 [Num F64.nan; Num F64.zero; Num F64.neg_zero]
     = Ok (Some (F64.zero, F64.neg_zero)).
Proof.
  exact (rows_with_values_are_always_kept
           1 2 [Num F64.nan; Num F64.zero; Num F64.neg_zero]
           (Num F64.zero) (Num F64.neg_zero) F64.zero F64.neg_zero
           eq_refl eq_refl eq_refl eq_refl eq_refl eq_refl).
Defined.

Lemma row_count_guard_compares_digests_witness :
  fuzzy_compare (excel_frame (sample_rows 10)) (table_frame (sample_rows 13))
  = Ok (Comparison
          (Some false)
          (Some (SHA256.hexdigest (Text.join "|" (map row_string (sample_rows 10)))))
          (Some (SHA256.hexdigest (Text.join "|" (map row_string (sample_rows 13)))))
          (Some (Text.join "|" (map row_string (sample_rows 10))))
          (Some (Text.join "|" (map row_string (sample_rows 13))))).
Proof.
  destruct (row_count_guard_compares_digests
              (excel_frame (sample_rows 10)) (table_frame (sample_rows 13))
              (sample_rows 10) (sample_rows 13) eq_refl eq_refl) as [E _].
  - discriminate.
  - discriminate.
  - apply Nat.ltb_lt. reflexivity.
  - rewrite E. reflexivity.
Defined.

Lemma fuzzy_without_rows_raises_witness :
  fuzzy_compare (DataFrame ["Liability"; "Asset"] [])
                (table_frame (sample_rows 2))
  = Raise AttributeError.
Proof.
  apply (proj2 (fuzzy_without_rows_raises
                  (DataFrame ["Liability"; "Asset"] [])
                  (table_frame (sample_rows 2)) eq_refl));
    reflexivity.
Defined.

(** * The log read back *)

(** ** Lines *)

Lemma readlines_line (line rest : string) :
  lacks line_feed line = true ->
  lacks carriage_return line = true ->
  readlines (line ++ newline ++ rest) = (line ++ newline) :: readlines rest.
Proof.
  induction line as [|c line IH]; intros L C; [reflexivity |].
  cbn [lacks] in L, C.
  apply andb_prop in L. destruct L as [Lc L].
  apply andb_prop in C. destruct C as [Cc C].
  apply negb_true_iff in Lc, Cc.
  cbn [append readlines]. rewrite Lc, Cc. now rewrite (IH L C).
Qed.

Lemma rstrip_append (a b : string) :
  Text.rstrip b <> "" -> Text.rstrip (a ++ b) = a ++ Text.rstrip b.
Proof.
  intros NE. induction a as [|c a IH]; [reflexivity |].
  cbn [append Text.rstrip]. rewrite IH.
  destruct (a ++ Text.rstrip b) eqn:E; [| reflexivity].
  destruct a; [now elim NE | discriminate E].
Qed.

Lemma prefix_refl (s : string) : String.prefix s s = true.
Proof.
  induction s as [|c s IH]; [reflexivity |]. cbn [String.prefix].
  destruct (ascii_dec c c) as [_ | ne]; [exact IH | now elim ne].
Qed.

Lemma contains_suffix (sub a : string) : Text.contains sub (a ++ sub) = true.
Proof.
  induction a as [|c a IH]; cbn [append].
  - destruct sub as [|x sub]; [reflexivity |].
    cbn [Text.contains]. now rewrite prefix_refl.
  - cbn [Text.contains]. rewrite IH. apply orb_true_r.
Qed.

Lemma contains_after (c : ascii) (sub a b : string) :
  lacks c a = true ->
  Text.contains (String c sub) (a ++ b) = Text.contains (String c sub) b.
Proof.
  induction a as [|x a IH]; intros L; [reflexivity |].
  cbn [lacks] in L. apply andb_prop in L. destruct L as [N L].
  apply negb_true_iff in N.
  cbn [append Text.contains String.prefix].
  destruct (ascii_dec c x) as [-> | _].
  - now rewrite Ascii.eqb_refl in N.
  - cbn [orb]. now apply IH.
Qed.

(** ** The pattern on a line of the recorder *)

Lemma search_skip (c : ascii) (text : string) (pattern : list Re.node)
    (before s : string) :
  lacks c before = true ->
  Re.search (Re.Lit (String c text) :: pattern) (before ++ s)
  = Re.search (Re.Lit (String c text) :: pattern) s.
Proof.
  induction before as [|x before IH]; intros L; [reflexivity |].
  cbn [lacks] in L. apply andb_prop in L. destruct L as [N L].
  apply negb_true_iff in N.
  cbn [append Re.search Re.match_here Re.strip_prefix].
  rewrite Ascii.eqb_sym, N. now apply IH.
Qed.

(** A greedy [.+] before a tail that the rest of the pattern matches, and
    inside which no later match exists, takes all of [base]. *)
Lemma match_plus_greedy (k : Re.continuation) (tail : string) :
  (forall group closed, Re.match_plus k Re.AnyChar tail group closed = None) ->
  (forall g closed, k tail (Some g) closed <> None) ->
  forall (base g : string) (closed : list string),
    base <> "" ->
    lacks line_feed base = true ->
    Re.match_plus k Re.AnyChar (base ++ tail) (Some g) closed
    = k tail (Some (g ++ base)) closed.
Proof.
  intros Inside Matches. induction base as [|c base IH]; intros g closed NE L.
  - now elim NE.
  - cbn [lacks] in L. apply andb_prop in L. destruct L as [N L].
    cbn [append Re.match_plus Re.accepts]. fold line_feed. rewrite N.
    cbn [Re.record option_map].
    destruct base as [|c' base].
    + cbn [append]. now rewrite Inside.
    + rewrite (IH (g ++ String c "") closed) by (trivial; discriminate).
      rewrite append_assoc. cbn [append].
      destruct (k tail (Some (g ++ String c (String c' base))) closed) eqn:K;
        [reflexivity | now elim (Matches _ _ K)].
Qed.

Section ReadBack.

Variable verdict : string.

Let tail : string := ".msg | " ++ verdict.
Let rest : Re.continuation :=
  Re.match_here [Re.Lit ".msg"; Re.Close; Re.Lit (" | " ++ verdict)].

Hypothesis rest_at_tail :
  forall g closed, rest tail (Some g) closed = Some (rev ((g ++ ".msg") :: closed)).
Hypothesis no_match_inside_tail :
  forall group closed, Re.match_plus rest Re.AnyChar tail group closed = None.

(** The pattern finds the file name in the text that follows the time. *)
Lemma search_finds_name (before base : string) :
  lacks "]" before = true ->
  base <> "" ->
  lacks line_feed base = true ->
  Re.search (verdict_pattern verdict)
            (before ++ "] " ++ (base ++ ".msg") ++ " | " ++ verdict)
  = Some [base ++ ".msg"].
Proof.
  intros B NE L. unfold verdict_pattern. rewrite search_skip by exact B.
  assert (E : ("] " ++ (base ++ ".msg") ++ " | " ++ verdict
               = "] " ++ base ++ tail)%string).
  { unfold tail. now rewrite !append_assoc. }
  rewrite E. cbn [append Re.search Re.match_here Re.strip_prefix].
  rewrite !Ascii.eqb_refl. cbn [Re.record option_map].
  fold rest.
  rewrite (match_plus_greedy rest tail no_match_inside_tail) by
    (trivial; intros g closed; rewrite rest_at_tail; discriminate).
  now rewrite rest_at_tail.
Qed.

End ReadBack.

(** ** A line of the recorder, read back *)

Lemma lacks_digits_of_nat (c : ascii) (n : nat) :
  F64.is_digit c = false -> lacks c (digits_of_nat n) = true.
Proof.
  intros N. unfold digits_of_nat, NilZero.string_of_uint.
  pose proof (lacks_digits c (Nat.to_uint n) N) as L.
  destruct (Nat.to_uint n); trivial.
  cbn [lacks]. rewrite andb_true_r. apply negb_true_iff.
  destruct (Ascii.eqb_spec "0" c) as [<- | _]; [discriminate N | reflexivity].
Qed.

Lemma lacks_pad (c : ascii) (width n : nat) :
  F64.is_digit c = false -> lacks c (pad width n) = true.
Proof.
  intros N. unfold pad. now rewrite lacks_append, lacks_zeros, lacks_digits_of_nat.
Qed.

(** The time written by the recorder holds digits, hyphens, colons and one
    space. *)
Lemma lacks_strftime (c : ascii) (now : datetime) :
  F64.is_digit c = false -> lacks c "- :" = true -> lacks c (strftime now) = true.
Proof.
  intros N S. unfold strftime.
  rewrite !lacks_append, !lacks_pad by exact N.
  cbn [lacks andb] in *.
  apply andb_prop in S. destruct S as [S1 S].
  apply andb_prop in S. destruct S as [S2 S].
  apply andb_prop in S. destruct S as [S3 _].
  now rewrite S1, S2, S3.
Qed.

Lemma plain_inv (base : string) :
  plain base = true ->
  base <> "" /\ lacks line_feed base = true
  /\ lacks carriage_return base = true /\ lacks "|" base = true.
Proof.
  unfold plain. intros H.
  apply andb_prop in H. destruct H as [H B].
  apply andb_prop in H. destruct H as [H C].
  apply andb_prop in H. destruct H as [E L].
  repeat split; trivial. intros ->. discriminate E.
Qed.

(** The text of a line before its verdict lacks a character that is
    neither in the time nor in the name nor a bracket, a dot or a letter
    of the extension. *)
Lemma lacks_line_head (c : ascii) (now : datetime) (base : string) :
  F64.is_digit c = false ->
  lacks c "[- :] .msg" = true ->
  lacks c base = true ->
  lacks c ("[" ++ strftime now ++ "] " ++ (base ++ ".msg") ++ " ") = true.
Proof.
  intros N S B.
  assert (T : lacks c (strftime now) = true).
  { apply lacks_strftime; [exact N |]. cbn [lacks] in *.
    repeat (apply andb_prop in S; destruct S as [? S]).
    repeat (apply andb_true_intro; split); trivial. }
  rewrite !lacks_append, T, B. cbn [lacks] in *.
  repeat (apply andb_prop in S; destruct S as [? S]).
  repeat (apply andb_true_intro; split); trivial.
Qed.

Lemma log_line_text (now : datetime) (file_name : string) (match_ : option bool) :
  log_line now file_name match_ ++ newline
  = ("[" ++ strftime now ++ "] " ++ file_name ++ " ")
      ++ "| " ++ status_of match_ ++ newline.
Proof.
  unfold log_line. now rewrite !append_assoc.
Qed.

Lemma strip_line (c : ascii) (head text stripped : string) :
  Text.is_space c = false ->
  Text.rstrip text = stripped ->
  stripped <> "" ->
  Text.strip (String c head ++ text) = (String c head ++ stripped)%string.
Proof.
  intros Sp R NE. unfold Text.strip. cbn [append Text.lstrip]. rewrite Sp.
  change (String c (head ++ text)) with (String c head ++ text)%string.
  rewrite rstrip_append; rewrite R; [reflexivity | exact NE].
Qed.

(** What each reader makes of one line written by the recorder. *)
Lemma parse_line_recorded (verdict : string) (now : datetime) (base : string)
    (match_ : option bool) :
  verdict = "correct" \/ verdict = "wrong" ->
  plain base = true ->
  parse_line verdict (log_line now (base ++ ".msg") match_ ++ newline)
  = if (status_of match_ =? verdict)%string then Some (base ++ ".msg") else None.
Proof.
  intros V P. destruct (plain_inv base P) as [NE [L [C B]]].
  assert (Hbar : lacks "|" ("[" ++ strftime now ++ "] " ++ (base ++ ".msg") ++ " ")
                 = true) by (apply lacks_line_head; trivial).
  assert (Hbr : lacks "]" ("[" ++ strftime now) = true).
  { rewrite lacks_append, lacks_strftime; reflexivity. }
  assert (S : forall status,
             status = "correct" \/ status = "wrong" ->
             Text.strip (("[" ++ strftime now ++ "] " ++ (base ++ ".msg") ++ " ")
                           ++ "| " ++ status ++ newline)
             = (("[" ++ strftime now ++ "] " ++ (base ++ ".msg") ++ " ")
                  ++ "| " ++ status)%string).
  { intros status St.
    apply (strip_line "[" (strftime now ++ "] " ++ (base ++ ".msg") ++ " ")
                      ("| " ++ status ++ newline) ("| " ++ status));
      [reflexivity | | discriminate].
    destruct St as [-> | ->]; reflexivity. }
  assert (F : forall (found : string),
             found = "correct" \/ found = "wrong" ->
             Re.search (verdict_pattern found)
                       (("[" ++ strftime now ++ "] " ++ (base ++ ".msg") ++ " ")
                          ++ "| " ++ found)
             = Some [base ++ ".msg"]).
  { intros found Fd.
    replace (("[" ++ strftime now ++ "] " ++ (base ++ ".msg") ++ " ")
               ++ "| " ++ found)%string
      with (("[" ++ strftime now) ++ "] " ++ (base ++ ".msg") ++ " | " ++ found)%string
      by (rewrite !append_assoc; reflexivity).
    destruct Fd as [-> | ->]; apply search_finds_name; trivial;
      intros; reflexivity. }
  rewrite log_line_text. unfold parse_line.
  assert (St : status_of match_ = "correct" \/ status_of match_ = "wrong")
    by (unfold status_of; destruct (truthy match_); auto).
  rewrite (S _ St).
  assert (NEq : forall t,
             (("[" ++ strftime now ++ "] " ++ (base ++ ".msg") ++ " ") ++ t =? "")%string
             = false) by (intros t; reflexivity).
  rewrite NEq. change (negb false && ?b) with b.
  destruct (String.eqb_spec (status_of match_) verdict) as [<- | ne].
  - rewrite contains_suffix. now rewrite (F _ St).
  - change ("| " ++ verdict)%string with (String "|" (" " ++ verdict)).
    rewrite contains_after by exact Hbar.
    destruct St as [E | E]; rewrite E in *; destruct V as [-> | ->];
      try reflexivity; now elim ne.
Qed.

(** ** A whole log, read back *)

(** The log is the lines of its attempts, one after the other. *)
Lemma record_all_from (attempts : list (datetime * string * option bool)) :
  forall log : string,
    fold_left (fun log a =>
                 log_validation_result (fst (fst a)) log (snd (fst a)) (snd a))
              attempts log
    = log ++ fold_right
               (fun a text =>
                  log_line (fst (fst a)) (snd (fst a)) (snd a) ++ newline ++ text)
               "" attempts.
Proof.
  induction attempts as [|a attempts IH]; intros log; cbn [fold_left fold_right].
  - induction log as [|c log IHl]; [reflexivity | cbn; now rewrite <- IHl].
  - rewrite IH. unfold log_validation_result. now rewrite !append_assoc.
Qed.

Lemma lacks_log_line (c : ascii) (now : datetime) (base : string)
    (match_ : option bool) :
  F64.is_digit c = false ->
  lacks c "[- :] .msg|correctwrong" = true ->
  lacks c base = true ->
  lacks c (log_line now (base ++ ".msg") match_) = true.
Proof.
  intros N S B. unfold log_line, status_of.
  assert (T : lacks c (strftime now) = true).
  { apply lacks_strftime; [exact N |]. cbn [lacks] in *.
    repeat (apply andb_prop in S; destruct S as [? S]).
    repeat (apply andb_true_intro; split); trivial. }
  rewrite !lacks_append, T, B.
  destruct (truthy match_); cbn [lacks] in *;
    repeat (apply andb_prop in S; destruct S as [? S]);
    repeat (apply andb_true_intro; split); trivial.
Qed.

(** The lines that a reader gets are the lines that were written. *)
Lemma readlines_recorded (attempts : list (datetime * string * option bool)) :
  forallb (fun a => plain (snd (fst a))) attempts = true ->
  readlines (record_all (map msg_attempt attempts))
  = map (fun a => log_line (fst (fst a)) (snd (fst a) ++ ".msg") (snd a) ++ newline)
        attempts.
Proof.
  intros P. unfold record_all. rewrite record_all_from. cbn [append].
  induction attempts as [|a attempts IH]; [reflexivity |].
  cbn [forallb] in P. apply andb_prop in P. destruct P as [Pa P].
  destruct (plain_inv _ Pa) as [_ [L [C _]]].
  cbn [map fold_right]. unfold msg_attempt at 1 2 3. cbn [fst snd].
  rewrite readlines_line.
  - now rewrite (IH P).
  - apply lacks_log_line; trivial.
  - apply lacks_log_line; trivial.
Qed.

Lemma parse_recorded (verdict : string)
    (attempts : list (datetime * string * option bool)) :
  verdict = "correct" \/ verdict = "wrong" ->
  forallb (fun a => plain (snd (fst a))) attempts = true ->
  keep_some (map (parse_line verdict)
                 (readlines (record_all (map msg_attempt attempts))))
  = map (fun a => snd (fst a) ++ ".msg")
        (filter (fun a => (status_of (snd a) =? verdict)%string) attempts).
Proof.
  intros V P. rewrite (readlines_recorded attempts P).
  induction attempts as [|a attempts IH]; [reflexivity |].
  cbn [forallb] in P. apply andb_prop in P. destruct P as [Pa P].
  cbn [map filter keep_some].
  rewrite (parse_line_recorded verdict _ _ _ V Pa).
  destruct (status_of (snd a) =? verdict)%string; cbn [keep_some map];
    now rewrite (IH P).
Qed.

(** X18.  The log read back.  After any series of attempts on ".msg"
    files recorded from an empty log, with base names that are not empty
    and hold no line break and no bar, [parse_validation_log] of
    [copy_successful_files.py] returns exactly the files recorded with the
    verdict [True], in the order of the attempts, and that of
    [copy_wrong_input_files.py] exactly the others ([False] or [None]). *)
Theorem log_is_read_back :
  forall attempts : list (datetime * string * option bool),
    forallb (fun a => plain (snd (fst a))) attempts = true ->
    CopySuccessful.parse_validation_log (record_all (map msg_attempt attempts))
    = map (fun a => snd (fst a) ++ ".msg")
          (filter (fun a => truthy (snd a)) attempts)
    /\ CopyWrong.parse_validation_log (record_all (map msg_attempt attempts))
       = map (fun a => snd (fst a) ++ ".msg")
             (filter (fun a => negb (truthy (snd a))) attempts).
Proof.
  intros attempts P.
  unfold CopySuccessful.parse_validation_log, CopyWrong.parse_validation_log.
  rewrite !parse_recorded by auto. split; f_equal; apply filter_ext;
    intros a; unfold status_of; now destruct (truthy (snd a)).
Qed.

Lemma log_is_read_back_witness :
  let attempts :=
    [ (sample_now, "Daily Hedging P&L Summary for DBIB 2024_03_22", Some true);
      (sample_now, "Daily Hedging P&L Summary for WB 2024_03_22", Some false);
      (sample_now, "a] b.msg", None);
      (sample_now, "late", Some true) ] in
  CopySuccessful.parse_validation_log (record_all (map msg_attempt attempts))
  = ["Daily Hedging P&L Summary for DBIB 2024_03_22.msg"; "late.msg"]
  /\ CopyWrong.parse_validation_log (record_all (map msg_attempt attempts))
     = ["Daily Hedging P&L Summary for WB 2024_03_22.msg"; "a] b.msg.msg"].
Proof.
  intros attempts. exact (log_is_read_back attempts eq_refl).
Defined.

(** * The message filter *)

Section LatestFile.

Variable get_msg_send_time : string -> MsgFilter.moment.

Lemma same_kind_trans (a b c : MsgFilter.moment) :
  MsgFilter.same_kind a b = true ->
  MsgFilter.same_kind c b = MsgFilter.same_kind c a.
Proof. destruct a, b, c; simpl; congruence. Qed.

Lemma forallb_same_kind (file_paths : list string) (a b : MsgFilter.moment) :
  MsgFilter.same_kind a b = true ->
  forallb (fun g => MsgFilter.same_kind (get_msg_send_time g) a) file_paths
  = forallb (fun g => MsgFilter.same_kind (get_msg_send_time g) b) file_paths.
Proof.
  intros K. induction file_paths as [|g file_paths IH]; [reflexivity |].
  cbn [forallb]. now rewrite IH, (same_kind_trans a b _ K).
Qed.

(** The loop keeps the first latest of the files seen so far. *)
Lemma scan_first_latest :
  forall (file_paths seen : list string) (current : string)
         (found : option (string * MsgFilter.moment)),
    MsgFilter.first_latest get_msg_send_time seen current ->
    MsgFilter.scan get_msg_send_time file_paths
                   (Some (current, get_msg_send_time current)) = Ok found ->
    exists latest_file,
      found = Some (latest_file, get_msg_send_time latest_file)
      /\ MsgFilter.first_latest get_msg_send_time (seen ++ file_paths) latest_file.
Proof.
  induction file_paths as [|f file_paths IH]; intros seen current found Inv H.
  - cbn in H. injection H as <-. exists current. now rewrite app_nil_r.
  - cbn [MsgFilter.scan] in H. unfold MsgFilter.later in H.
    destruct (MsgFilter.same_kind (get_msg_send_time f) (get_msg_send_time current));
      [| discriminate H].
    cbn [bind] in H.
    replace (seen ++ f :: file_paths)%list with ((seen ++ [f]) ++ file_paths)%list
      by (rewrite <- app_assoc; reflexivity).
    destruct Inv as [before [after [E [B A]]]].
    destruct (Z.ltb_spec (MsgFilter.value (get_msg_send_time current))
                         (MsgFilter.value (get_msg_send_time f))) as [lt | ge].
    + apply (IH (seen ++ [f])%list f found); [| exact H].
      exists seen, []. split; [reflexivity | split; [| intros g []]].
      intros g I. rewrite E in I. apply in_app_or in I.
      destruct I as [I | [<- | I]]; [specialize (B g I) | | specialize (A g I)]; lia.
    + apply (IH (seen ++ [f])%list current found); [| exact H].
      exists before, (after ++ [f])%list. split; [| split; [exact B |]].
      * rewrite E, <- app_assoc. reflexivity.
      * intros g I. apply in_app_or in I.
        destruct I as [I | [<- | []]]; [now apply A | lia].
Qed.

Lemma latest_of_group_first_latest (file_paths picked : list string) :
  MsgFilter.latest_of_group get_msg_send_time file_paths = Ok picked ->
  match file_paths with
  | [] => picked = []
  | _ :: _ =>
      exists latest_file,
        picked = [latest_file]
        /\ MsgFilter.first_latest get_msg_send_time file_paths latest_file
  end.
Proof.
  assert (One : forall f, MsgFilter.first_latest get_msg_send_time [f] f).
  { intros f. exists [], []. split; [reflexivity | split; intros g []]. }
  destruct file_paths as [|f [|f' rest]]; intros H.
  - cbn in H. now injection H as <-.
  - cbn in H. injection H as <-. exists f. split; [reflexivity | apply One].
  - unfold MsgFilter.latest_of_group in H.
    change (MsgFilter.scan get_msg_send_time (f :: f' :: rest) None)
      with (MsgFilter.scan get_msg_send_time (f' :: rest)
                           (Some (f, get_msg_send_time f))) in H.
    destruct (MsgFilter.scan _ _ _) as [found|e] eqn:S; [| discriminate H].
    destruct (scan_first_latest (f' :: rest) [f] f found (One f) S)
      as [latest_file [-> F]].
    cbn [bind] in H. injection H as <-. exists latest_file. now split.
Qed.

(** One file for each group that is not empty. *)
Lemma find_latest_picks :
  forall (grouped_files : list (string * list (string * list string)))
         (latest_files : list string),
    MsgFilter.find_latest_file_for_each_group get_msg_send_time grouped_files
    = Ok latest_files ->
    Forall2 (MsgFilter.first_latest get_msg_send_time)
            (filter (fun file_paths => negb (Nat.eqb (List.length file_paths) 0))
                    (MsgFilter.groups grouped_files))
            latest_files.
Proof.
  intros grouped latest. unfold MsgFilter.find_latest_file_for_each_group.
  generalize (MsgFilter.groups grouped). intros gs. revert latest.
  induction gs as [|g gs IH]; intros latest H.
  - cbn in H. injection H as <-. constructor.
  - cbn [mapM] in H.
    destruct (MsgFilter.latest_of_group get_msg_send_time g) as [picked|e] eqn:G;
      [| discriminate H].
    cbn [bind] in H.
    destruct (mapM (MsgFilter.latest_of_group get_msg_send_time) gs) as [picks|e];
      [| discriminate H].
    cbn [bind] in H. injection H as <-. cbn [List.concat].
    specialize (IH (List.concat picks) eq_refl).
    apply latest_of_group_first_latest in G.
    destruct g as [|f g].
    + subst picked. exact IH.
    + destruct G as [latest_file [-> F]]. cbn [filter List.length Nat.eqb negb app].
      now constructor.
Qed.

(** X19.  When the filter returns, it has kept one file for each group
    that is not empty, in the order of the groups: the first file of the
    group that no other file of the group was sent after; on equal send
    times the file listed first is kept. *)
Theorem latest_file_of_each_group :
  forall (grouped_files : list (string * list (string * list string)))
         (latest_files : list string),
    MsgFilter.find_latest_file_for_each_group get_msg_send_time grouped_files
    = Ok latest_files ->
    Forall2 (MsgFilter.first_latest get_msg_send_time)
            (filter (fun file_paths => negb (Nat.eqb (List.length file_paths) 0))
                    (MsgFilter.groups grouped_files))
            latest_files.
Proof. exact find_latest_picks. Qed.

(** A uniform group is scanned without exception; a group that is not
    raises [TypeError]. *)
Lemma scan_uniform :
  forall (file_paths : list string) (current : string) (t : MsgFilter.moment),
    MsgFilter.scan get_msg_send_time file_paths (Some (current, t))
    = if forallb (fun f => MsgFilter.same_kind (get_msg_send_time f) t) file_paths
      then MsgFilter.scan get_msg_send_time file_paths (Some (current, t))
      else Raise TypeError.
Proof.
  induction file_paths as [|f file_paths IH]; intros current t; [reflexivity |].
  cbn [forallb].
  destruct (MsgFilter.same_kind (get_msg_send_time f) t) eqn:K; cbn [andb].
  - destruct (forallb _ file_paths) eqn:U; [reflexivity |].
    cbn [MsgFilter.scan]. unfold MsgFilter.later. rewrite K. cbn [bind].
    destruct (MsgFilter.value t <? MsgFilter.value (get_msg_send_time f)).
    + rewrite IH.
      rewrite (forallb_same_kind file_paths _ _ K).
      now rewrite U.
    + rewrite IH. now rewrite U.
  - cbn [MsgFilter.scan]. unfold MsgFilter.later. now rewrite K.
Qed.

Lemma scan_returns :
  forall (file_paths : list string) (current : string) (t : MsgFilter.moment),
    forallb (fun f => MsgFilter.same_kind (get_msg_send_time f) t) file_paths = true ->
    exists found,
      MsgFilter.scan get_msg_send_time file_paths (Some (current, t)) = Ok found.
Proof.
  induction file_paths as [|f file_paths IH]; intros current t U.
  - now eexists.
  - cbn [forallb] in U. apply andb_prop in U. destruct U as [K U].
    cbn [MsgFilter.scan]. unfold MsgFilter.later. rewrite K. cbn [bind].
    destruct (MsgFilter.value t <? MsgFilter.value (get_msg_send_time f)).
    + apply IH.
      rewrite (forallb_same_kind file_paths _ _ K).
      exact U.
    + now apply IH.
Qed.

Lemma latest_of_group_uniform (file_paths : list string) :
  if MsgFilter.uniform get_msg_send_time file_paths
  then exists picked,
         MsgFilter.latest_of_group get_msg_send_time file_paths = Ok picked
  else MsgFilter.latest_of_group get_msg_send_time file_paths = Raise TypeError.
Proof.
  destruct file_paths as [|f [|f' rest]]; [now eexists | now eexists |].
  unfold MsgFilter.uniform, MsgFilter.latest_of_group.
  change (MsgFilter.scan get_msg_send_time (f :: f' :: rest) None)
    with (MsgFilter.scan get_msg_send_time (f' :: rest)
                         (Some (f, get_msg_send_time f))).
  destruct (forallb _ (f' :: rest)) eqn:U.
  - destruct (scan_returns _ f _ U) as [found ->]. now eexists.
  - rewrite scan_uniform, U. reflexivity.
Qed.

(** X20.  The filter returns exactly when, in every group, the send times
    are all aware of their time zone or all naive; a group that mixes the
    two kinds (a date read from the message beside a fallback to the
    modification time of a file) raises [TypeError], and nothing is
    returned. *)
Theorem mixed_send_times_raise :
  forall grouped_files : list (string * list (string * list string)),
    if forallb (MsgFilter.uniform get_msg_send_time) (MsgFilter.groups grouped_files)
    then exists latest_files,
           MsgFilter.find_latest_file_for_each_group get_msg_send_time grouped_files
           = Ok latest_files
    else MsgFilter.find_latest_file_for_each_group get_msg_send_time grouped_files
         = Raise TypeError.
Proof.
  intros grouped. unfold MsgFilter.find_latest_file_for_each_group.
  generalize (MsgFilter.groups grouped). intros gs.
  induction gs as [|g gs IH]; [now eexists |].
  cbn [forallb mapM]. pose proof (latest_of_group_uniform g) as G.
  destruct (MsgFilter.uniform get_msg_send_time g); cbn [andb].
  - destruct G as [picked ->]. cbn [bind].
    destruct (forallb _ gs).
    + destruct IH as [latest IH].
      destruct (mapM _ gs) as [picks|e]; [| discriminate IH]. now eexists.
    + destruct (mapM _ gs) as [picks|e]; [discriminate IH |].
      cbn [bind] in *. exact IH.
  - now rewrite G.
Qed.

End LatestFile.

(** * The folder of messages grouped *)

Section Dictionary.

Context {V : Type}.

Lemma lookup_app (key k : string) (v : V) (d : list (string * V)) :
  MsgFilter.lookup key (d ++ [(k, v)])
  = match MsgFilter.lookup key d with
    | Some x => Some x
    | None => if String.eqb k key then Some v else None
    end.
Proof.
  induction d as [|[k' v'] d IH]; cbn [MsgFilter.lookup app]; [reflexivity |].
  destruct (String.eqb k' key); [reflexivity | exact IH].
Qed.

Lemma lookup_alter (f : V -> V) (key k : string) (d : list (string * V)) :
  MsgFilter.lookup key (MsgFilter.alter f k d)
  = if String.eqb k key then option_map f (MsgFilter.lookup key d)
    else MsgFilter.lookup key d.
Proof.
  induction d as [|[k' v'] d IH]; cbn [MsgFilter.lookup MsgFilter.alter].
  - now destruct (String.eqb k key).
  - destruct (String.eqb_spec k' k) as [-> | N].
    + cbn [MsgFilter.lookup]. destruct (String.eqb k key); reflexivity.
    + cbn [MsgFilter.lookup]. destruct (String.eqb_spec k' key) as [-> | N'].
      * destruct (String.eqb_spec k key) as [-> | _]; [congruence | reflexivity].
      * exact IH.
Qed.

Lemma lookup_ensure (key k : string) (v : V) (d : list (string * V)) :
  MsgFilter.lookup key (MsgFilter.ensure k v d)
  = match MsgFilter.lookup key d with
    | Some x => Some x
    | None => if String.eqb k key then Some v else None
    end.
Proof.
  unfold MsgFilter.ensure. destruct (MsgFilter.lookup k d) eqn:L.
  - destruct (MsgFilter.lookup key d) eqn:L'; [reflexivity |].
    destruct (String.eqb_spec k key) as [-> | _]; [congruence | reflexivity].
  - apply lookup_app.
Qed.

Lemma keys_alter (f : V -> V) (k : string) (d : list (string * V)) :
  map fst (MsgFilter.alter f k d) = map fst d.
Proof.
  induction d as [|[k' v'] d IH]; [reflexivity |]. cbn [MsgFilter.alter].
  destruct (String.eqb k' k); cbn [map fst]; [reflexivity | now rewrite IH].
Qed.

Lemma lookup_none (key : string) (d : list (string * V)) :
  MsgFilter.lookup key d = None -> ~ In key (map fst d).
Proof.
  induction d as [|[k' v'] d IH]; cbn [MsgFilter.lookup map fst In]; [tauto |].
  destruct (String.eqb_spec k' key) as [-> | N]; [discriminate |].
  intros L [E | I]; [congruence | now apply IH].
Qed.

Lemma lookup_in (key : string) (v : V) (d : list (string * V)) :
  MsgFilter.lookup key d = Some v -> In (key, v) d.
Proof.
  induction d as [|[k' v'] d IH]; cbn [MsgFilter.lookup In]; [discriminate |].
  destruct (String.eqb_spec k' key) as [-> | N].
  - intros [= ->]. now left.
  - intros L. right. now apply IH.
Qed.

Lemma in_lookup (key : string) (v : V) (d : list (string * V)) :
  NoDup (map fst d) -> In (key, v) d -> MsgFilter.lookup key d = Some v.
Proof.
  induction d as [|[k' v'] d IH]; cbn [MsgFilter.lookup In map fst]; [tauto |].
  intros ND I. inversion ND as [| ? ? NI ND']; subst.
  destruct I as [[= -> ->] | I].
  - now rewrite String.eqb_refl.
  - destruct (String.eqb_spec k' key) as [-> | N]; [| now apply IH].
    exfalso. apply NI. now apply (in_map fst) in I.
Qed.

Lemma keys_ensure (k : string) (v : V) (d : list (string * V)) :
  NoDup (map fst d) -> NoDup (map fst (MsgFilter.ensure k v d)).
Proof.
  intros ND. unfold MsgFilter.ensure. destruct (MsgFilter.lookup k d) eqn:L; [exact ND |].
  rewrite map_app. cbn [map fst].
  apply NoDup_app; [exact ND | repeat constructor; intros [] | ].
  intros x I [<- | []]. now apply (lookup_none _ _ L).
Qed.

Lemma values_alter (P : V -> Prop) (f : V -> V) (k : string) (d : list (string * V)) :
  (forall v, P v -> P (f v)) ->
  Forall (fun kv => P (snd kv)) d ->
  Forall (fun kv => P (snd kv)) (MsgFilter.alter f k d).
Proof.
  intros Pf. induction 1 as [|[k' v'] d Pv Pd IH]; [constructor |].
  cbn [MsgFilter.alter]. destruct (String.eqb k' k); constructor; cbn [snd] in *; auto.
Qed.

Lemma values_ensure (P : V -> Prop) (k : string) (v : V) (d : list (string * V)) :
  P v ->
  Forall (fun kv => P (snd kv)) d ->
  Forall (fun kv => P (snd kv)) (MsgFilter.ensure k v d).
Proof.
  intros Pv Pd. unfold MsgFilter.ensure. destruct (MsgFilter.lookup k d); [exact Pd |].
  apply Forall_app. split; [exact Pd | now repeat constructor].
Qed.

End Dictionary.

Lemma nodup_map {A B : Type} (f : A -> B) (l : list A) :
  (forall x y, f x = f y -> x = y) -> NoDup l -> NoDup (map f l).
Proof.
  intros Inj. induction 1 as [|a l NI ND IH]; cbn [map]; constructor; [| exact IH].
  intros I. apply in_map_iff in I. destruct I as [a' [E I]].
  apply Inj in E. subst a'. now apply NI.
Qed.

Lemma filter_all {A : Type} (f : A -> bool) (l : list A) :
  (forall a, In a l -> f a = true) -> filter f l = l.
Proof.
  induction l as [|a l IH]; intros H; [reflexivity |]. cbn [filter].
  rewrite (H a (or_introl eq_refl)), IH; [reflexivity |].
  intros b I. apply H. now right.
Qed.

Lemma forall2_map_left {A B C : Type} (R : C -> B -> Prop) (f : A -> C)
    (l : list A) (l' : list B) :
  Forall2 R (map f l) l' -> Forall2 (fun a b => R (f a) b) l l'.
Proof.
  revert l'. induction l as [|a l IH]; intros l' F; inversion F; subst;
    constructor; auto.
Qed.

Lemma forall2_in_left {A B : Type} (R : A -> B -> Prop) (l : list A) (l' : list B) :
  Forall2 R l l' -> forall a, In a l -> exists b, In b l' /\ R a b.
Proof.
  induction 1 as [|x y l l' Rxy F IH]; intros a []; [subst; exists y; split; [now left | exact Rxy] |].
  destruct (IH a H) as [b [I Rab]]. exists b. split; [now right | exact Rab].
Qed.

Lemma forall2_in_right {A B : Type} (R : A -> B -> Prop) (l : list A) (l' : list B) :
  Forall2 R l l' -> forall b, In b l' -> exists a, In a l /\ R a b.
Proof.
  induction 1 as [|x y l l' Rxy F IH]; intros b []; [subst; exists x; split; [now left | exact Rxy] |].
  destruct (IH b H) as [a [I Rab]]. exists a. split; [now right | exact Rab].
Qed.

Lemma forall2_map {A B C : Type} (R : A -> B -> Prop) (f : A -> C) (g : B -> C)
    (l : list A) (l' : list B) :
  (forall a b, In a l -> R a b -> g b = f a) ->
  Forall2 R l l' -> map g l' = map f l.
Proof.
  intros Rfg F. induction F as [|x y l l' Rxy F IH]; [reflexivity |].
  cbn [map]. rewrite (Rfg x y (or_introl eq_refl) Rxy), IH; [reflexivity |].
  intros a b I. apply Rfg. now right.
Qed.

Section Folder.

Variable get_msg_send_time : string -> MsgFilter.moment.
Variable extract_date_and_product : string -> option string * option string * string.
Variable name : string -> string.

Local Abbreviation add_file := (MsgFilter.add_file extract_date_and_product name).
Local Abbreviation group_files := (MsgFilter.group_files_by_product_and_date extract_date_and_product name).
Local Abbreviation product_and_date := (MsgFilter.product_and_date extract_date_and_product name).
Local Abbreviation filed_under := (MsgFilter.filed_under extract_date_and_product name).

Lemma filed_under_iff (product date file_path : string) :
  filed_under product date file_path = true
  <-> product_and_date file_path = Some (product, date).
Proof.
  unfold MsgFilter.filed_under. destruct (product_and_date file_path) as [[p d]|].
  - rewrite andb_true_iff, !String.eqb_eq. split; [intros [-> ->]; reflexivity | now intros [= -> ->]].
  - split; discriminate.
Qed.

(** What a turn of the loop does to the list filed under a product and a
    date. *)
Lemma files_of_add_file grouped_files file_path product date :
  MsgFilter.files_of (add_file grouped_files file_path) product date
  = if filed_under product date file_path
    then Some (match MsgFilter.files_of grouped_files product date with
               | Some file_paths => file_paths
               | None => []
               end ++ [file_path])%list
    else MsgFilter.files_of grouped_files product date.
Proof.
  unfold MsgFilter.add_file, MsgFilter.filed_under, MsgFilter.product_and_date.
  destruct (extract_date_and_product (name file_path)) as [[[P|] [D|]] filename];
    try reflexivity.
  destruct (MsgFilter.nonempty P && MsgFilter.nonempty D); [| reflexivity].
  unfold MsgFilter.files_of. rewrite !lookup_alter, lookup_ensure.
  destruct (String.eqb_spec P product) as [-> | NP]; cbn [andb].
  - destruct (MsgFilter.lookup product grouped_files) as [dates|]; cbn [option_map];
      rewrite lookup_alter, lookup_ensure;
      destruct (String.eqb_spec D date) as [-> | ND]; cbn [MsgFilter.lookup];
      try reflexivity.
    + now destruct (MsgFilter.lookup date dates).
    + now destruct (MsgFilter.lookup date dates).
  - now destruct (MsgFilter.lookup product grouped_files).
Qed.

Lemma well_keyed_add_file grouped_files file_path :
  MsgFilter.well_keyed grouped_files ->
  MsgFilter.well_keyed (add_file grouped_files file_path).
Proof.
  intros [K1 K2]. unfold MsgFilter.add_file.
  destruct (extract_date_and_product (name file_path)) as [[[P|] [D|]] filename];
    try (now split).
  destruct (MsgFilter.nonempty P && MsgFilter.nonempty D); [| now split].
  split.
  - rewrite !keys_alter. now apply keys_ensure.
  - apply (values_alter (fun dates => NoDup (map fst dates))).
    { intros dates. now rewrite keys_alter. }
    apply (values_alter (fun dates => NoDup (map fst dates))).
    { intros dates. apply keys_ensure. }
    apply (values_ensure (fun dates => NoDup (map fst dates))); [constructor | exact K2].
Qed.

Lemma files_of_fold glob : forall grouped_files product date,
  MsgFilter.files_of (fold_left add_file glob grouped_files) product date
  = match filter (filed_under product date) glob with
    | [] => MsgFilter.files_of grouped_files product date
    | found =>
        Some (match MsgFilter.files_of grouped_files product date with
              | Some file_paths => file_paths
              | None => []
              end ++ found)%list
    end.
Proof.
  induction glob as [|f glob IH]; intros grouped product date; [reflexivity |].
  cbn [fold_left filter]. rewrite IH, files_of_add_file.
  destruct (filed_under product date f); [| reflexivity].
  destruct (filter (filed_under product date) glob) as [|g found].
  - reflexivity.
  - now rewrite <- app_assoc.
Qed.

Lemma well_keyed_fold glob : forall grouped_files,
  MsgFilter.well_keyed grouped_files ->
  MsgFilter.well_keyed (fold_left add_file glob grouped_files).
Proof.
  induction glob as [|f glob IH]; intros grouped K; [exact K |].
  cbn [fold_left]. apply IH. now apply well_keyed_add_file.
Qed.

(** Under each product and date the dictionary holds the paths of the
    folder that are filed under them, in the order of the folder. *)
Lemma files_of_group glob product date :
  MsgFilter.files_of (group_files glob) product date
  = match filter (filed_under product date) glob with
    | [] => None
    | found => Some found
    end.
Proof.
  unfold MsgFilter.group_files_by_product_and_date. rewrite files_of_fold.
  reflexivity.
Qed.

Lemma well_keyed_group glob : MsgFilter.well_keyed (group_files glob).
Proof.
  apply well_keyed_fold. split; constructor.
Qed.

Lemma entries_files_of grouped_files product date file_paths :
  MsgFilter.well_keyed grouped_files ->
  In ((product, date), file_paths) (MsgFilter.entries grouped_files) ->
  MsgFilter.files_of grouped_files product date = Some file_paths.
Proof.
  intros [K1 K2] I. unfold MsgFilter.entries in I. apply in_flat_map in I.
  destruct I as [[p dates] [Ip I]]. apply in_map_iff in I.
  destruct I as [[d fs] [E Id]]. cbn [fst snd] in E. injection E as -> -> ->.
  unfold MsgFilter.files_of. rewrite (in_lookup _ _ _ K1 Ip).
  apply in_lookup; [| exact Id].
  rewrite Forall_forall in K2. exact (K2 _ Ip).
Qed.

Lemma files_of_entries grouped_files product date file_paths :
  MsgFilter.files_of grouped_files product date = Some file_paths ->
  In ((product, date), file_paths) (MsgFilter.entries grouped_files).
Proof.
  unfold MsgFilter.files_of, MsgFilter.entries.
  destruct (MsgFilter.lookup product grouped_files) as [dates|] eqn:L; [| discriminate].
  intros L'. apply in_flat_map. exists (product, dates). split; [now apply lookup_in |].
  apply in_map_iff. exists (date, file_paths). split; [reflexivity | now apply lookup_in].
Qed.

Lemma entries_keys grouped_files :
  MsgFilter.well_keyed grouped_files ->
  NoDup (map fst (MsgFilter.entries grouped_files)).
Proof.
  intros [K1 K2]. induction grouped_files as [|[p dates] grouped IH]; [constructor |].
  cbn [MsgFilter.entries flat_map fst snd]. rewrite map_app, map_map. cbn [fst].
  inversion K1 as [| ? ? NI K1']; subst. inversion K2 as [| ? ? Kd K2']; subst.
  cbn [fst snd map] in *.
  apply NoDup_app.
  - rewrite <- (map_map fst (pair p)).
    apply nodup_map; [| exact Kd]. intros x y E. now injection E.
  - now apply IH.
  - intros [p' d'] I I'. apply in_map_iff in I. destruct I as [[d fs] [E _]].
    cbn [fst] in E. injection E as <- <-.
    apply in_map_iff in I'. destruct I' as [[[p'' d''] fs'] [E I']].
    cbn [fst] in E. injection E as -> ->.
    apply in_flat_map in I'. destruct I' as [[q dates'] [Iq I']].
    apply in_map_iff in I'. destruct I' as [[d2 fs2] [E _]].
    cbn [fst snd] in E. injection E as -> _ _.
    apply NI. now apply (in_map fst) in Iq.
Qed.

Lemma groups_entries grouped_files :
  MsgFilter.groups grouped_files = map snd (MsgFilter.entries grouped_files).
Proof.
  unfold MsgFilter.groups, MsgFilter.entries.
  induction grouped_files as [|[p dates] grouped IH]; [reflexivity |].
  cbn [flat_map fst snd]. rewrite map_app, map_map, IH. reflexivity.
Qed.

Lemma run_is_find_latest glob :
  MsgFilter.run get_msg_send_time extract_date_and_product name glob
  = MsgFilter.find_latest_file_for_each_group get_msg_send_time (group_files glob).
Proof.
  unfold MsgFilter.run. now destruct (group_files glob).
Qed.

Lemma entry_of_group glob product date file_paths :
  In ((product, date), file_paths) (MsgFilter.entries (group_files glob)) ->
  file_paths = filter (filed_under product date) glob /\ file_paths <> [].
Proof.
  intros I. apply (entries_files_of _ _ _ _ (well_keyed_group glob)) in I.
  rewrite files_of_group in I.
  destruct (filter (filed_under product date) glob); [discriminate |].
  injection I as <-. split; [reflexivity | discriminate].
Qed.

Lemma first_latest_in (file_paths : list string) (latest_file : string) :
  MsgFilter.first_latest get_msg_send_time file_paths latest_file ->
  In latest_file file_paths.
Proof.
  intros [before [after [-> _]]]. apply in_or_app. right. now left.
Qed.

(** The files kept, beside the groups they come from. *)
Lemma run_picks glob latest_files :
  MsgFilter.run get_msg_send_time extract_date_and_product name glob = Ok latest_files ->
  Forall2 (fun entry latest_file =>
             MsgFilter.first_latest get_msg_send_time (snd entry) latest_file)
          (MsgFilter.entries (group_files glob)) latest_files.
Proof.
  rewrite run_is_find_latest. intros H. apply find_latest_picks in H.
  rewrite groups_entries, filter_all in H; [now apply forall2_map_left in H |].
  intros file_paths I. apply in_map_iff in I.
  destruct I as [[[product date] fs] [<- I]]. apply entry_of_group in I.
  cbn [snd]. destruct I as [_ N]. now destruct fs.
Qed.

(** X21.  From a folder the filter keeps at most one file for each product
    and date; every file it keeps is, among the files of the folder filed
    under one product and date, the first that none was sent after; and
    for each file of the folder that is filed under a product and a date,
    the latest file of that product and date is kept. *)
Theorem one_latest_file_per_product_and_date :
  forall glob latest_files : list string,
    MsgFilter.run get_msg_send_time extract_date_and_product name glob
    = Ok latest_files ->
    NoDup (map product_and_date latest_files)
    /\ (forall latest_file,
          In latest_file latest_files ->
          exists product date,
            MsgFilter.first_latest get_msg_send_time
              (filter (filed_under product date) glob) latest_file)
    /\ (forall file_path product date,
          In file_path glob ->
          product_and_date file_path = Some (product, date) ->
          exists latest_file,
            In latest_file latest_files
            /\ MsgFilter.first_latest get_msg_send_time
                 (filter (filed_under product date) glob) latest_file).
Proof.
  intros glob latest H. apply run_picks in H. split; [| split].
  - assert (map product_and_date latest
            = map (fun entry => Some (fst entry))
                  (MsgFilter.entries (group_files glob))) as ->.
    { refine (forall2_map _ _ _ _ _ _ H).
      intros [[product date] fs] f I F. cbn [fst snd] in *.
      apply entry_of_group in I. destruct I as [-> _].
      apply first_latest_in, filter_In in F. now apply filed_under_iff. }
    rewrite <- (map_map fst Some).
    apply nodup_map; [now intros x y [= ->] |].
    apply entries_keys, well_keyed_group.
  - intros f I. destruct (forall2_in_right _ _ _ H f I) as [[[product date] fs] [Ie F]].
    apply entry_of_group in Ie. destruct Ie as [-> _]. now exists product, date.
  - intros f product date I K.
    assert (In f (filter (filed_under product date) glob)) as If.
    { apply filter_In. split; [exact I | now apply filed_under_iff]. }
    pose proof (files_of_group glob product date) as G.
    destruct (filter (filed_under product date) glob) as [|g found] eqn:E; [destruct If |].
    apply files_of_entries in G.
    destruct (forall2_in_left _ _ _ H _ G) as [l [Il F]]. exists l. now split.
Qed.

End Folder.

(** * The message filter on a folder *)

Lemma latest_file_of_each_group_witness :
  Forall2 (MsgFilter.first_latest sample_send_time)
          [["WB_20240501_first.msg"; "WB_20240501_second.msg";
            "WB_20240501_third.msg"];
           ["mtime_only.msg"]; ["DBIB_20240501.msg"]]
          ["WB_20240501_second.msg"; "mtime_only.msg"; "DBIB_20240501.msg"].
Proof.
  exact (latest_file_of_each_group sample_send_time sample_grouped_files _ eq_refl).
Defined.

Lemma one_latest_file_per_product_and_date_witness :
  NoDup (map (MsgFilter.product_and_date sample_extract (fun path => path))
             ["WB_20240501_second.msg"; "DBIB_20240501.msg"])
  /\ (forall latest_file,
        In latest_file ["WB_20240501_second.msg"; "DBIB_20240501.msg"] ->
        exists product date,
          MsgFilter.first_latest sample_send_time
            (filter (MsgFilter.filed_under sample_extract (fun path => path)
                                           product date)
                    sample_glob)
            latest_file)
  /\ (forall file_path product date,
        In file_path sample_glob ->
        MsgFilter.product_and_date sample_extract (fun path => path) file_path
        = Some (product, date) ->
        exists latest_file,
          In latest_file ["WB_20240501_second.msg"; "DBIB_20240501.msg"]
          /\ MsgFilter.first_latest sample_send_time
               (filter (MsgFilter.filed_under sample_extract (fun path => path)
                                              product date)
                       sample_glob)
               latest_file).
Proof.
  exact (one_latest_file_per_product_and_date
           sample_send_time sample_extract (fun path => path)
           sample_glob _ eq_refl).
Defined.

(** * Dates in file names *)

Lemma substring_append (n m : nat) : forall (i : nat) (s : string),
  String.substring i (n + m) s
  = String.substring i n s ++ String.substring (i + n) m s.
Proof.
  induction n as [|n IHn].
  - intros i s. rewrite Nat.add_0_r. cbn [Nat.add].
    replace (String.substring i 0 s) with EmptyString; [reflexivity |].
    revert s. induction i as [|i IHi]; intros [|c s]; cbn; auto.
  - induction i as [|i IHi]; intros [|c s]; cbn [String.substring Nat.add append];
      try reflexivity.
    + now rewrite (IHn 0%nat s).
    + exact (IHi s).
Qed.

Lemma substring_whole (n : nat) : forall s : string,
  (String.length s <= n)%nat -> String.substring 0 n s = s.
Proof.
  induction n as [|n IH]; intros [|c s] L; cbn in *; try reflexivity; [lia |].
  rewrite IH; [reflexivity | lia].
Qed.

Lemma substring_prefix (a b : string) :
  String.substring 0 (String.length a) (a ++ b) = a.
Proof.
  induction a as [|c a IH]; cbn [String.length append String.substring].
  - now destruct b.
  - now rewrite IH.
Qed.

Lemma substring_after (a b : string) (i n : nat) :
  String.substring (String.length a + i) n (a ++ b) = String.substring i n b.
Proof.
  induction a as [|c a IH]; [reflexivity | exact IH].
Qed.

Lemma substring_from (a b : string) (i n k : nat) :
  String.length a = k ->
  String.substring (k + i) n (a ++ b) = String.substring i n b.
Proof. intros <-. apply substring_after. Qed.

Lemma lacks_substring (c : ascii) (n : nat) : forall (i : nat) (s : string),
  lacks c s = true -> lacks c (String.substring i n s) = true.
Proof.
  induction n as [|n IHn].
  - induction i as [|i IHi]; intros [|c' s] L; cbn [String.substring]; try reflexivity.
    cbn [lacks] in L. apply andb_prop in L. now apply IHi.
  - induction i as [|i IHi]; intros [|c' s] L; cbn [String.substring]; try reflexivity;
      cbn [lacks] in *; apply andb_prop in L; destruct L as [L1 L2].
    + rewrite L1. now apply IHn.
    + now apply IHi.
Qed.

Lemma remove_append (c : ascii) (a b : string) :
  Dates.remove c (a ++ b) = Dates.remove c a ++ Dates.remove c b.
Proof.
  induction a as [|c' a IH]; [reflexivity |]. cbn [append Dates.remove].
  destruct (Ascii.eqb c' c); [exact IH | cbn [append]; now rewrite IH].
Qed.

Lemma remove_lacking (c : ascii) (s : string) :
  lacks c s = true -> Dates.remove c s = s.
Proof.
  induction s as [|c' s IH]; [reflexivity |]. cbn [lacks Dates.remove].
  intros L. apply andb_prop in L. destruct L as [L1 L2].
  apply negb_true_iff in L1. rewrite L1. now rewrite IH.
Qed.

(** X22.  A date of at most eight characters without underscore, written
    with underscores and converted back, is itself again. *)
Theorem compact_date_round_trip :
  forall date_str to_format to_format' : string,
    lacks "_" date_str = true ->
    (String.length date_str <= 8)%nat ->
    Dates.convert_date_format
      (Dates.convert_date_format date_str "YYYYMMDD" to_format)
      "YYYY_MM_DD" to_format'
    = date_str.
Proof.
  intros d t t' L Len. unfold Dates.convert_date_format, Dates.slice.
  cbn [String.eqb Ascii.eqb Bool.eqb]. cbv iota.
  rewrite !remove_append.
  rewrite !(remove_lacking _ _ (lacks_substring _ _ _ _ L)).
  change (Dates.remove "_" "_") with EmptyString. cbn [append Nat.sub].
  rewrite <- (substring_whole 8 d Len) at 4.
  exact (eq_sym (eq_trans (substring_append 4 4 0 d)
                          (f_equal _ (substring_append 2 2 4 d)))).
Qed.

(** X23.  A date written as four, two and two characters joined by
    underscores, none of them an underscore, converted to the compact form
    and back, is itself again. *)
Theorem underscored_date_round_trip :
  forall year month day to_format to_format' : string,
    String.length year = 4%nat ->
    String.length month = 2%nat ->
    String.length day = 2%nat ->
    lacks "_" year = true ->
    lacks "_" month = true ->
    lacks "_" day = true ->
    Dates.convert_date_format
      (Dates.convert_date_format (year ++ "_" ++ month ++ "_" ++ day)
                                 "YYYY_MM_DD" to_format)
      "YYYYMMDD" to_format'
    = year ++ "_" ++ month ++ "_" ++ day.
Proof.
  intros y m d t t' Ly Lm Ld Ny Nm Nd. unfold Dates.convert_date_format, Dates.slice.
  cbn [String.eqb Ascii.eqb Bool.eqb]. cbv iota.
  rewrite !remove_append.
  rewrite (remove_lacking _ _ Ny), (remove_lacking _ _ Nm), (remove_lacking _ _ Nd).
  change (Dates.remove "_" "_") with EmptyString. cbn [append Nat.sub].
  assert (E1 : String.substring 0 4 (y ++ m ++ d) = y).
  { rewrite <- Ly. apply substring_prefix. }
  assert (E2 : String.substring 4 2 (y ++ m ++ d) = m).
  { etransitivity; [exact (substring_from y (m ++ d) 0 2 4 Ly) |].
    rewrite <- Lm. apply substring_prefix. }
  assert (E3 : String.substring 6 2 (y ++ m ++ d) = d).
  { etransitivity; [exact (substring_from y (m ++ d) 2 2 4 Ly) |].
    etransitivity; [exact (substring_from m d 0 2 2 Lm) |].
    apply substring_whole. rewrite Ld. lia. }
  now rewrite E1, E2, E3.
Qed.

Lemma compact_date_round_trip_witness :
  Dates.convert_date_format
    (Dates.convert_date_format "20240501" "YYYYMMDD" "YYYY_MM_DD")
    "YYYY_MM_DD" "YYYYMMDD"
  = "20240501".
Proof.
  apply compact_date_round_trip; [reflexivity | cbn; lia].
Defined.

Lemma underscored_date_round_trip_witness :
  Dates.convert_date_format
    (Dates.convert_date_format ("2024" ++ "_" ++ "05" ++ "_" ++ "01")
                               "YYYY_MM_DD" "YYYYMMDD")
    "YYYYMMDD" "YYYY_MM_DD"
  = "2024" ++ "_" ++ "05" ++ "_" ++ "01".
Proof.
  apply underscored_date_round_trip; reflexivity.
Defined.
